(** * MSME_EDA: the district fetcher (fetch.py) and the activity flattener
    (parser.py), embedded in Rocq.

    The file has these parts:
    - a model of the slice of the Python runtime the two scripts rely on
      (exceptions, [str] methods, [int]/[float] arithmetic, [json.loads]);
    - [DistrictDataFetcher] of fetch.py, as state-passing functions over the
      fetcher object and the HTTP exchange;
    - the script of parser.py over a small model of a data frame;
    - the vocabulary in which the properties are stated, and a few sources
      to run them on;
    - the properties, and each of them at work on an example. *)

From Stdlib Require Import ZArith String Ascii List Bool Lia DecimalString.
From Stdlib Require Import Floats.SpecFloat.
From stdpp Require Import base gmap sets list strings.

Local Open Scope string_scope.
Local Open Scope Z_scope.
Local Open Scope list_scope.

(** ** Exceptions

    The classes of exception that the two scripts can meet.  [except]
    clauses test class membership in the order in which they are written;
    [RequestException] stands for [requests.exceptions.RequestException]
    and its subclasses [ConnectionError], [Timeout] and [HTTPError],
    [JSONDecodeError] for [json.JSONDecodeError], the subclass of
    [ValueError] that the [json] module raises, and
    [RequestsJSONDecodeError] for [requests.exceptions.JSONDecodeError],
    which is a subclass of both: of [RequestException] through
    [InvalidJSONError], and of [json.JSONDecodeError]. *)

Inductive exn : Type :=
  | RequestException
  | JSONDecodeError
  | RequestsJSONDecodeError
  | ValueError
  | TypeError
  | KeyError
  | AttributeError
  | ZeroDivisionError
  | OverflowError
  | RecursionError.

Definition isinstance_RequestException (e : exn) : bool :=
  match e with
  | RequestException | RequestsJSONDecodeError => true
  | _ => false
  end.

Definition isinstance_JSONDecodeError (e : exn) : bool :=
  match e with
  | JSONDecodeError | RequestsJSONDecodeError => true
  | _ => false
  end.

(** A computation either returns a value or raises. *)

Inductive result (A : Type) : Type :=
  | Return (a : A)
  | Raise (e : exn).

Arguments Return {A} a.
Arguments Raise {A} e.

#[global] Instance result_ret : MRet result := fun _ a => Return a.

#[global] Instance result_bind : MBind result := fun _ _ k r =>
  match r with
  | Return a => k a
  | Raise e => Raise e
  end.

(** ** [str]

    A Python [str] is a sequence of code points, numbers from 0 to
    0x10FFFF, a lone surrogate being one of them.  The model holds a
    [str] as the Rocq [string] of its UTF-8 bytes, with a surrogate
    encoded like the other code points of its range.  [strip], [lower],
    [upper] and [capitalize] work on the code points, as in CPython. *)

Definition ascii_between (lo hi : N) (c : ascii) : bool :=
  ((lo <=? N_of_ascii c) && (N_of_ascii c <=? hi))%N.

Definition is_digit (c : ascii) : bool := ascii_between 48 57 c.

Definition byte_of (n : Z) : ascii := ascii_of_N (Z.to_N n).

Definition byte_value (c : ascii) : Z := Z.of_N (N_of_ascii c).

(** [chr(u)] in UTF-8. *)
Definition utf8 (u : Z) : string :=
  if u <? 128 then String (byte_of u) EmptyString
  else if u <? 2048 then
    String (byte_of (192 + u / 64))
      (String (byte_of (128 + u mod 64)) EmptyString)
  else if u <? 65536 then
    String (byte_of (224 + u / 4096))
      (String (byte_of (128 + (u / 64) mod 64))
        (String (byte_of (128 + u mod 64)) EmptyString))
  else
    String (byte_of (240 + u / 262144))
      (String (byte_of (128 + (u / 4096) mod 64))
        (String (byte_of (128 + (u / 64) mod 64))
          (String (byte_of (128 + u mod 64)) EmptyString))).

Definition code_point (u : Z) : Prop := 0 <= u < 0x110000.

(** A byte [10xxxxxx], which continues a sequence. *)
Definition continuation (c : ascii) : bool := ascii_between 128 191 c.

(** The code points of a text.  A byte string that is not the UTF-8 form
    of a sequence of code points is the value of no [str]; the function is
    total by letting a byte that starts no sequence stand for itself,
    above the code points, where no character class and no case mapping
    applies. *)
Fixpoint code_points (s : string) : list Z :=
  match s with
  | EmptyString => []
  | String b0 s1 =>
      let v0 := byte_value b0 in
      let stray := cons (0x110000 + v0) in
      if v0 <? 128 then v0 :: code_points s1
      else if v0 <? 192 then stray (code_points s1)
      else if v0 <? 224 then
        match s1 with
        | String b1 s2 =>
            if continuation b1
            then ((v0 - 192) * 64 + (byte_value b1 - 128)) :: code_points s2
            else stray (code_points s1)
        | _ => stray (code_points s1)
        end
      else if v0 <? 240 then
        match s1 with
        | String b1 (String b2 s3) =>
            if continuation b1 && continuation b2
            then ((v0 - 224) * 4096 + (byte_value b1 - 128) * 64
                  + (byte_value b2 - 128)) :: code_points s3
            else stray (code_points s1)
        | _ => stray (code_points s1)
        end
      else if v0 <? 248 then
        match s1 with
        | String b1 (String b2 (String b3 s4)) =>
            let u := (v0 - 240) * 262144 + (byte_value b1 - 128) * 4096
                     + (byte_value b2 - 128) * 64 + (byte_value b3 - 128) in
            if continuation b1 && continuation b2 && continuation b3
               && (u <? 0x110000)
            then u :: code_points s4
            else stray (code_points s1)
        | _ => stray (code_points s1)
        end
      else stray (code_points s1)
  end.

(** The text with the code points [l], the converse of [code_points]. *)
Fixpoint str_of (l : list Z) : string :=
  match l with
  | [] => EmptyString
  | u :: l' =>
      (if u <? 0x110000 then utf8 u
       else String (byte_of (u - 0x110000)) EmptyString) +:+ str_of l'
  end.

(** *** White space

    The code points that [str.isspace] accepts and [str.strip] removes
    ([_PyUnicode_IsWhitespace] of CPython): the characters of
    bidirectional type WS, B or S and those of category Zs, given as runs
    [(first, last)]. *)
Definition whitespace_runs : list (Z * Z) :=
  [(0x9, 0xD); (0x1C, 0x20); (0x85, 0x85); (0xA0, 0xA0); (0x1680, 0x1680);
   (0x2000, 0x200A); (0x2028, 0x2029); (0x202F, 0x202F); (0x205F, 0x205F);
   (0x3000, 0x3000)].

Fixpoint in_runs (c : Z) (runs : list (Z * Z)) : bool :=
  match runs with
  | [] => false
  | (first, last) :: runs' =>
      (first <=? c) && (c <=? last) || in_runs c runs'
  end.

Definition is_whitespace (c : Z) : bool := in_runs c whitespace_runs.

(** [s.lstrip()], [s.rstrip()] and [s.strip()] without argument, on the
    code points. *)
Fixpoint lstrip (l : list Z) : list Z :=
  match l with
  | [] => []
  | c :: l' => if is_whitespace c then lstrip l' else l
  end.

Fixpoint rstrip (l : list Z) : list Z :=
  match l with
  | [] => []
  | c :: l' =>
      match rstrip l' with
      | [] => if is_whitespace c then [] else [c]
      | r => c :: r
      end
  end.

Definition strip (s : string) : string :=
  str_of (rstrip (lstrip (code_points s))).

(** *** Case

    The case data are those of the Unicode Character Database 14.0, which
    CPython 3.11 carries.  A table of ranges holds entries
    [(first, last, stride, shift)]: the code points [first],
    [first + stride], ..., [last] map to themselves plus [shift].  A table
    of special forms holds the code points whose form is not a single
    code point.  A code point that the tables of a mapping leave out is its
    own form. *)

(** The lower-case forms ([_PyUnicode_ToLowerFull]).  U+0130, capital I
    with dot above, gives [i] and the combining dot above. *)
Definition lowercase_ranges : list (Z * Z * Z * Z) :=
  [(0x41, 0x5A, 1, 32); (0xC0, 0xD6, 1, 32); (0xD8, 0xDE, 1, 32);
   (0x100, 0x12E, 2, 1); (0x132, 0x136, 2, 1); (0x139, 0x147, 2, 1);
   (0x14A, 0x176, 2, 1); (0x178, 0x178, 1, (-121)); (0x179, 0x17D, 2, 1);
   (0x181, 0x181, 1, 210); (0x182, 0x184, 2, 1); (0x186, 0x186, 1, 206);
   (0x187, 0x187, 1, 1); (0x189, 0x18A, 1, 205); (0x18B, 0x18B, 1, 1);
   (0x18E, 0x18E, 1, 79); (0x18F, 0x18F, 1, 202); (0x190, 0x190, 1, 203);
   (0x191, 0x191, 1, 1); (0x193, 0x193, 1, 205); (0x194, 0x194, 1, 207);
   (0x196, 0x196, 1, 211); (0x197, 0x197, 1, 209); (0x198, 0x198, 1, 1);
   (0x19C, 0x19C, 1, 211); (0x19D, 0x19D, 1, 213); (0x19F, 0x19F, 1, 214);
   (0x1A0, 0x1A4, 2, 1); (0x1A6, 0x1A6, 1, 218); (0x1A7, 0x1A7, 1, 1);
   (0x1A9, 0x1A9, 1, 218); (0x1AC, 0x1AC, 1, 1); (0x1AE, 0x1AE, 1, 218);
   (0x1AF, 0x1AF, 1, 1); (0x1B1, 0x1B2, 1, 217); (0x1B3, 0x1B5, 2, 1);
   (0x1B7, 0x1B7, 1, 219); (0x1B8, 0x1B8, 1, 1); (0x1BC, 0x1BC, 1, 1);
   (0x1C4, 0x1C4, 1, 2); (0x1C5, 0x1C5, 1, 1); (0x1C7, 0x1C7, 1, 2);
   (0x1C8, 0x1C8, 1, 1); (0x1CA, 0x1CA, 1, 2); (0x1CB, 0x1DB, 2, 1);
   (0x1DE, 0x1EE, 2, 1); (0x1F1, 0x1F1, 1, 2); (0x1F2, 0x1F4, 2, 1);
   (0x1F6, 0x1F6, 1, (-97)); (0x1F7, 0x1F7, 1, (-56)); (0x1F8, 0x21E, 2, 1);
   (0x220, 0x220, 1, (-130)); (0x222, 0x232, 2, 1); (0x23A, 0x23A, 1, 10795);
   (0x23B, 0x23B, 1, 1); (0x23D, 0x23D, 1, (-163)); (0x23E, 0x23E, 1, 10792);
   (0x241, 0x241, 1, 1); (0x243, 0x243, 1, (-195)); (0x244, 0x244, 1, 69);
   (0x245, 0x245, 1, 71); (0x246, 0x24E, 2, 1); (0x370, 0x372, 2, 1);
   (0x376, 0x376, 1, 1); (0x37F, 0x37F, 1, 116); (0x386, 0x386, 1, 38);
   (0x388, 0x38A, 1, 37); (0x38C, 0x38C, 1, 64); (0x38E, 0x38F, 1, 63);
   (0x391, 0x3A1, 1, 32); (0x3A3, 0x3AB, 1, 32); (0x3CF, 0x3CF, 1, 8);
   (0x3D8, 0x3EE, 2, 1); (0x3F4, 0x3F4, 1, (-60)); (0x3F7, 0x3F7, 1, 1);
   (0x3F9, 0x3F9, 1, (-7)); (0x3FA, 0x3FA, 1, 1); (0x3FD, 0x3FF, 1, (-130));
   (0x400, 0x40F, 1, 80); (0x410, 0x42F, 1, 32); (0x460, 0x480, 2, 1);
   (0x48A, 0x4BE, 2, 1); (0x4C0, 0x4C0, 1, 15); (0x4C1, 0x4CD, 2, 1);
   (0x4D0, 0x52E, 2, 1); (0x531, 0x556, 1, 48); (0x10A0, 0x10C5, 1, 7264);
   (0x10C7, 0x10C7, 1, 7264); (0x10CD, 0x10CD, 1, 7264);
   (0x13A0, 0x13EF, 1, 38864); (0x13F0, 0x13F5, 1, 8);
   (0x1C90, 0x1CBA, 1, (-3008)); (0x1CBD, 0x1CBF, 1, (-3008));
   (0x1E00, 0x1E94, 2, 1); (0x1E9E, 0x1E9E, 1, (-7615));
   (0x1EA0, 0x1EFE, 2, 1); (0x1F08, 0x1F0F, 1, (-8));
   (0x1F18, 0x1F1D, 1, (-8)); (0x1F28, 0x1F2F, 1, (-8));
   (0x1F38, 0x1F3F, 1, (-8)); (0x1F48, 0x1F4D, 1, (-8));
   (0x1F59, 0x1F5F, 2, (-8)); (0x1F68, 0x1F6F, 1, (-8));
   (0x1F88, 0x1F8F, 1, (-8)); (0x1F98, 0x1F9F, 1, (-8));
   (0x1FA8, 0x1FAF, 1, (-8)); (0x1FB8, 0x1FB9, 1, (-8));
   (0x1FBA, 0x1FBB, 1, (-74)); (0x1FBC, 0x1FBC, 1, (-9));
   (0x1FC8, 0x1FCB, 1, (-86)); (0x1FCC, 0x1FCC, 1, (-9));
   (0x1FD8, 0x1FD9, 1, (-8)); (0x1FDA, 0x1FDB, 1, (-100));
   (0x1FE8, 0x1FE9, 1, (-8)); (0x1FEA, 0x1FEB, 1, (-112));
   (0x1FEC, 0x1FEC, 1, (-7)); (0x1FF8, 0x1FF9, 1, (-128));
   (0x1FFA, 0x1FFB, 1, (-126)); (0x1FFC, 0x1FFC, 1, (-9));
   (0x2126, 0x2126, 1, (-7517)); (0x212A, 0x212A, 1, (-8383));
   (0x212B, 0x212B, 1, (-8262)); (0x2132, 0x2132, 1, 28);
   (0x2160, 0x216F, 1, 16); (0x2183, 0x2183, 1, 1); (0x24B6, 0x24CF, 1, 26);
   (0x2C00, 0x2C2F, 1, 48); (0x2C60, 0x2C60, 1, 1);
   (0x2C62, 0x2C62, 1, (-10743)); (0x2C63, 0x2C63, 1, (-3814));
   (0x2C64, 0x2C64, 1, (-10727)); (0x2C67, 0x2C6B, 2, 1);
   (0x2C6D, 0x2C6D, 1, (-10780)); (0x2C6E, 0x2C6E, 1, (-10749));
   (0x2C6F, 0x2C6F, 1, (-10783)); (0x2C70, 0x2C70, 1, (-10782));
   (0x2C72, 0x2C72, 1, 1); (0x2C75, 0x2C75, 1, 1);
   (0x2C7E, 0x2C7F, 1, (-10815)); (0x2C80, 0x2CE2, 2, 1);
   (0x2CEB, 0x2CED, 2, 1); (0x2CF2, 0x2CF2, 1, 1); (0xA640, 0xA66C, 2, 1);
   (0xA680, 0xA69A, 2, 1); (0xA722, 0xA72E, 2, 1); (0xA732, 0xA76E, 2, 1);
   (0xA779, 0xA77B, 2, 1); (0xA77D, 0xA77D, 1, (-35332));
   (0xA77E, 0xA786, 2, 1); (0xA78B, 0xA78B, 1, 1);
   (0xA78D, 0xA78D, 1, (-42280)); (0xA790, 0xA792, 2, 1);
   (0xA796, 0xA7A8, 2, 1); (0xA7AA, 0xA7AA, 1, (-42308));
   (0xA7AB, 0xA7AB, 1, (-42319)); (0xA7AC, 0xA7AC, 1, (-42315));
   (0xA7AD, 0xA7AD, 1, (-42305)); (0xA7AE, 0xA7AE, 1, (-42308));
   (0xA7B0, 0xA7B0, 1, (-42258)); (0xA7B1, 0xA7B1, 1, (-42282));
   (0xA7B2, 0xA7B2, 1, (-42261)); (0xA7B3, 0xA7B3, 1, 928);
   (0xA7B4, 0xA7C2, 2, 1); (0xA7C4, 0xA7C4, 1, (-48));
   (0xA7C5, 0xA7C5, 1, (-42307)); (0xA7C6, 0xA7C6, 1, (-35384));
   (0xA7C7, 0xA7C9, 2, 1); (0xA7D0, 0xA7D0, 1, 1); (0xA7D6, 0xA7D8, 2, 1);
   (0xA7F5, 0xA7F5, 1, 1); (0xFF21, 0xFF3A, 1, 32); (0x10400, 0x10427, 1, 40);
   (0x104B0, 0x104D3, 1, 40); (0x10570, 0x1057A, 1, 39);
   (0x1057C, 0x1058A, 1, 39); (0x1058C, 0x10592, 1, 39);
   (0x10594, 0x10595, 1, 39); (0x10C80, 0x10CB2, 1, 64);
   (0x118A0, 0x118BF, 1, 32); (0x16E40, 0x16E5F, 1, 32);
   (0x1E900, 0x1E921, 1, 34)].

Definition lowercase_special : list (Z * list Z) :=
  [(0x130, [0x69; 0x307])].

(** The upper-case forms ([_PyUnicode_ToUpperFull]). *)
Definition uppercase_ranges : list (Z * Z * Z * Z) :=
  [(0x61, 0x7A, 1, (-32)); (0xB5, 0xB5, 1, 743); (0xE0, 0xF6, 1, (-32));
   (0xF8, 0xFE, 1, (-32)); (0xFF, 0xFF, 1, 121); (0x101, 0x12F, 2, (-1));
   (0x131, 0x131, 1, (-232)); (0x133, 0x137, 2, (-1));
   (0x13A, 0x148, 2, (-1)); (0x14B, 0x177, 2, (-1)); (0x17A, 0x17E, 2, (-1));
   (0x17F, 0x17F, 1, (-300)); (0x180, 0x180, 1, 195); (0x183, 0x185, 2, (-1));
   (0x188, 0x188, 1, (-1)); (0x18C, 0x18C, 1, (-1)); (0x192, 0x192, 1, (-1));
   (0x195, 0x195, 1, 97); (0x199, 0x199, 1, (-1)); (0x19A, 0x19A, 1, 163);
   (0x19E, 0x19E, 1, 130); (0x1A1, 0x1A5, 2, (-1)); (0x1A8, 0x1A8, 1, (-1));
   (0x1AD, 0x1AD, 1, (-1)); (0x1B0, 0x1B0, 1, (-1)); (0x1B4, 0x1B6, 2, (-1));
   (0x1B9, 0x1B9, 1, (-1)); (0x1BD, 0x1BD, 1, (-1)); (0x1BF, 0x1BF, 1, 56);
   (0x1C5, 0x1C5, 1, (-1)); (0x1C6, 0x1C6, 1, (-2)); (0x1C8, 0x1C8, 1, (-1));
   (0x1C9, 0x1C9, 1, (-2)); (0x1CB, 0x1CB, 1, (-1)); (0x1CC, 0x1CC, 1, (-2));
   (0x1CE, 0x1DC, 2, (-1)); (0x1DD, 0x1DD, 1, (-79)); (0x1DF, 0x1EF, 2, (-1));
   (0x1F2, 0x1F2, 1, (-1)); (0x1F3, 0x1F3, 1, (-2)); (0x1F5, 0x1F5, 1, (-1));
   (0x1F9, 0x21F, 2, (-1)); (0x223, 0x233, 2, (-1)); (0x23C, 0x23C, 1, (-1));
   (0x23F, 0x240, 1, 10815); (0x242, 0x242, 1, (-1)); (0x247, 0x24F, 2, (-1));
   (0x250, 0x250, 1, 10783); (0x251, 0x251, 1, 10780);
   (0x252, 0x252, 1, 10782); (0x253, 0x253, 1, (-210));
   (0x254, 0x254, 1, (-206)); (0x256, 0x257, 1, (-205));
   (0x259, 0x259, 1, (-202)); (0x25B, 0x25B, 1, (-203));
   (0x25C, 0x25C, 1, 42319); (0x260, 0x260, 1, (-205));
   (0x261, 0x261, 1, 42315); (0x263, 0x263, 1, (-207));
   (0x265, 0x265, 1, 42280); (0x266, 0x266, 1, 42308);
   (0x268, 0x268, 1, (-209)); (0x269, 0x269, 1, (-211));
   (0x26A, 0x26A, 1, 42308); (0x26B, 0x26B, 1, 10743);
   (0x26C, 0x26C, 1, 42305); (0x26F, 0x26F, 1, (-211));
   (0x271, 0x271, 1, 10749); (0x272, 0x272, 1, (-213));
   (0x275, 0x275, 1, (-214)); (0x27D, 0x27D, 1, 10727);
   (0x280, 0x280, 1, (-218)); (0x282, 0x282, 1, 42307);
   (0x283, 0x283, 1, (-218)); (0x287, 0x287, 1, 42282);
   (0x288, 0x288, 1, (-218)); (0x289, 0x289, 1, (-69));
   (0x28A, 0x28B, 1, (-217)); (0x28C, 0x28C, 1, (-71));
   (0x292, 0x292, 1, (-219)); (0x29D, 0x29D, 1, 42261);
   (0x29E, 0x29E, 1, 42258); (0x345, 0x345, 1, 84); (0x371, 0x373, 2, (-1));
   (0x377, 0x377, 1, (-1)); (0x37B, 0x37D, 1, 130); (0x3AC, 0x3AC, 1, (-38));
   (0x3AD, 0x3AF, 1, (-37)); (0x3B1, 0x3C1, 1, (-32));
   (0x3C2, 0x3C2, 1, (-31)); (0x3C3, 0x3CB, 1, (-32));
   (0x3CC, 0x3CC, 1, (-64)); (0x3CD, 0x3CE, 1, (-63));
   (0x3D0, 0x3D0, 1, (-62)); (0x3D1, 0x3D1, 1, (-57));
   (0x3D5, 0x3D5, 1, (-47)); (0x3D6, 0x3D6, 1, (-54));
   (0x3D7, 0x3D7, 1, (-8)); (0x3D9, 0x3EF, 2, (-1)); (0x3F0, 0x3F0, 1, (-86));
   (0x3F1, 0x3F1, 1, (-80)); (0x3F2, 0x3F2, 1, 7); (0x3F3, 0x3F3, 1, (-116));
   (0x3F5, 0x3F5, 1, (-96)); (0x3F8, 0x3F8, 1, (-1)); (0x3FB, 0x3FB, 1, (-1));
   (0x430, 0x44F, 1, (-32)); (0x450, 0x45F, 1, (-80));
   (0x461, 0x481, 2, (-1)); (0x48B, 0x4BF, 2, (-1)); (0x4C2, 0x4CE, 2, (-1));
   (0x4CF, 0x4CF, 1, (-15)); (0x4D1, 0x52F, 2, (-1));
   (0x561, 0x586, 1, (-48)); (0x10D0, 0x10FA, 1, 3008);
   (0x10FD, 0x10FF, 1, 3008); (0x13F8, 0x13FD, 1, (-8));
   (0x1C80, 0x1C80, 1, (-6254)); (0x1C81, 0x1C81, 1, (-6253));
   (0x1C82, 0x1C82, 1, (-6244)); (0x1C83, 0x1C84, 1, (-6242));
   (0x1C85, 0x1C85, 1, (-6243)); (0x1C86, 0x1C86, 1, (-6236));
   (0x1C87, 0x1C87, 1, (-6181)); (0x1C88, 0x1C88, 1, 35266);
   (0x1D79, 0x1D79, 1, 35332); (0x1D7D, 0x1D7D, 1, 3814);
   (0x1D8E, 0x1D8E, 1, 35384); (0x1E01, 0x1E95, 2, (-1));
   (0x1E9B, 0x1E9B, 1, (-59)); (0x1EA1, 0x1EFF, 2, (-1));
   (0x1F00, 0x1F07, 1, 8); (0x1F10, 0x1F15, 1, 8); (0x1F20, 0x1F27, 1, 8);
   (0x1F30, 0x1F37, 1, 8); (0x1F40, 0x1F45, 1, 8); (0x1F51, 0x1F57, 2, 8);
   (0x1F60, 0x1F67, 1, 8); (0x1F70, 0x1F71, 1, 74); (0x1F72, 0x1F75, 1, 86);
   (0x1F76, 0x1F77, 1, 100); (0x1F78, 0x1F79, 1, 128);
   (0x1F7A, 0x1F7B, 1, 112); (0x1F7C, 0x1F7D, 1, 126); (0x1FB0, 0x1FB1, 1, 8);
   (0x1FBE, 0x1FBE, 1, (-7205)); (0x1FD0, 0x1FD1, 1, 8);
   (0x1FE0, 0x1FE1, 1, 8); (0x1FE5, 0x1FE5, 1, 7); (0x214E, 0x214E, 1, (-28));
   (0x2170, 0x217F, 1, (-16)); (0x2184, 0x2184, 1, (-1));
   (0x24D0, 0x24E9, 1, (-26)); (0x2C30, 0x2C5F, 1, (-48));
   (0x2C61, 0x2C61, 1, (-1)); (0x2C65, 0x2C65, 1, (-10795));
   (0x2C66, 0x2C66, 1, (-10792)); (0x2C68, 0x2C6C, 2, (-1));
   (0x2C73, 0x2C73, 1, (-1)); (0x2C76, 0x2C76, 1, (-1));
   (0x2C81, 0x2CE3, 2, (-1)); (0x2CEC, 0x2CEE, 2, (-1));
   (0x2CF3, 0x2CF3, 1, (-1)); (0x2D00, 0x2D25, 1, (-7264));
   (0x2D27, 0x2D27, 1, (-7264)); (0x2D2D, 0x2D2D, 1, (-7264));
   (0xA641, 0xA66D, 2, (-1)); (0xA681, 0xA69B, 2, (-1));
   (0xA723, 0xA72F, 2, (-1)); (0xA733, 0xA76F, 2, (-1));
   (0xA77A, 0xA77C, 2, (-1)); (0xA77F, 0xA787, 2, (-1));
   (0xA78C, 0xA78C, 1, (-1)); (0xA791, 0xA793, 2, (-1));
   (0xA794, 0xA794, 1, 48); (0xA797, 0xA7A9, 2, (-1));
   (0xA7B5, 0xA7C3, 2, (-1)); (0xA7C8, 0xA7CA, 2, (-1));
   (0xA7D1, 0xA7D1, 1, (-1)); (0xA7D7, 0xA7D9, 2, (-1));
   (0xA7F6, 0xA7F6, 1, (-1)); (0xAB53, 0xAB53, 1, (-928));
   (0xAB70, 0xABBF, 1, (-38864)); (0xFF41, 0xFF5A, 1, (-32));
   (0x10428, 0x1044F, 1, (-40)); (0x104D8, 0x104FB, 1, (-40));
   (0x10597, 0x105BB, 2, (-39)); (0x10598, 0x105A0, 2, (-39));
   (0x105A4, 0x105B0, 2, (-39)); (0x105B4, 0x105B8, 2, (-39));
   (0x105BC, 0x105BC, 1, (-39)); (0x10CC0, 0x10CF2, 1, (-64));
   (0x118C0, 0x118DF, 1, (-32)); (0x16E60, 0x16E7F, 1, (-32));
   (0x1E922, 0x1E943, 1, (-34))].

Definition uppercase_special : list (Z * list Z) :=
  [(0xDF, [0x53; 0x53]); (0x149, [0x2BC; 0x4E]); (0x1F0, [0x4A; 0x30C]);
   (0x390, [0x399; 0x308; 0x301]); (0x3B0, [0x3A5; 0x308; 0x301]);
   (0x587, [0x535; 0x552]); (0x1E96, [0x48; 0x331]); (0x1E97, [0x54; 0x308]);
   (0x1E98, [0x57; 0x30A]); (0x1E99, [0x59; 0x30A]); (0x1E9A, [0x41; 0x2BE]);
   (0x1F50, [0x3A5; 0x313]); (0x1F52, [0x3A5; 0x313; 0x300]);
   (0x1F54, [0x3A5; 0x313; 0x301]); (0x1F56, [0x3A5; 0x313; 0x342]);
   (0x1F80, [0x1F08; 0x399]); (0x1F81, [0x1F09; 0x399]);
   (0x1F82, [0x1F0A; 0x399]); (0x1F83, [0x1F0B; 0x399]);
   (0x1F84, [0x1F0C; 0x399]); (0x1F85, [0x1F0D; 0x399]);
   (0x1F86, [0x1F0E; 0x399]); (0x1F87, [0x1F0F; 0x399]);
   (0x1F88, [0x1F08; 0x399]); (0x1F89, [0x1F09; 0x399]);
   (0x1F8A, [0x1F0A; 0x399]); (0x1F8B, [0x1F0B; 0x399]);
   (0x1F8C, [0x1F0C; 0x399]); (0x1F8D, [0x1F0D; 0x399]);
   (0x1F8E, [0x1F0E; 0x399]); (0x1F8F, [0x1F0F; 0x399]);
   (0x1F90, [0x1F28; 0x399]); (0x1F91, [0x1F29; 0x399]);
   (0x1F92, [0x1F2A; 0x399]); (0x1F93, [0x1F2B; 0x399]);
   (0x1F94, [0x1F2C; 0x399]); (0x1F95, [0x1F2D; 0x399]);
   (0x1F96, [0x1F2E; 0x399]); (0x1F97, [0x1F2F; 0x399]);
   (0x1F98, [0x1F28; 0x399]); (0x1F99, [0x1F29; 0x399]);
   (0x1F9A, [0x1F2A; 0x399]); (0x1F9B, [0x1F2B; 0x399]);
   (0x1F9C, [0x1F2C; 0x399]); (0x1F9D, [0x1F2D; 0x399]);
   (0x1F9E, [0x1F2E; 0x399]); (0x1F9F, [0x1F2F; 0x399]);
   (0x1FA0, [0x1F68; 0x399]); (0x1FA1, [0x1F69; 0x399]);
   (0x1FA2, [0x1F6A; 0x399]); (0x1FA3, [0x1F6B; 0x399]);
   (0x1FA4, [0x1F6C; 0x399]); (0x1FA5, [0x1F6D; 0x399]);
   (0x1FA6, [0x1F6E; 0x399]); (0x1FA7, [0x1F6F; 0x399]);
   (0x1FA8, [0x1F68; 0x399]); (0x1FA9, [0x1F69; 0x399]);
   (0x1FAA, [0x1F6A; 0x399]); (0x1FAB, [0x1F6B; 0x399]);
   (0x1FAC, [0x1F6C; 0x399]); (0x1FAD, [0x1F6D; 0x399]);
   (0x1FAE, [0x1F6E; 0x399]); (0x1FAF, [0x1F6F; 0x399]);
   (0x1FB2, [0x1FBA; 0x399]); (0x1FB3, [0x391; 0x399]);
   (0x1FB4, [0x386; 0x399]); (0x1FB6, [0x391; 0x342]);
   (0x1FB7, [0x391; 0x342; 0x399]); (0x1FBC, [0x391; 0x399]);
   (0x1FC2, [0x1FCA; 0x399]); (0x1FC3, [0x397; 0x399]);
   (0x1FC4, [0x389; 0x399]); (0x1FC6, [0x397; 0x342]);
   (0x1FC7, [0x397; 0x342; 0x399]); (0x1FCC, [0x397; 0x399]);
   (0x1FD2, [0x399; 0x308; 0x300]); (0x1FD3, [0x399; 0x308; 0x301]);
   (0x1FD6, [0x399; 0x342]); (0x1FD7, [0x399; 0x308; 0x342]);
   (0x1FE2, [0x3A5; 0x308; 0x300]); (0x1FE3, [0x3A5; 0x308; 0x301]);
   (0x1FE4, [0x3A1; 0x313]); (0x1FE6, [0x3A5; 0x342]);
   (0x1FE7, [0x3A5; 0x308; 0x342]); (0x1FF2, [0x1FFA; 0x399]);
   (0x1FF3, [0x3A9; 0x399]); (0x1FF4, [0x38F; 0x399]);
   (0x1FF6, [0x3A9; 0x342]); (0x1FF7, [0x3A9; 0x342; 0x399]);
   (0x1FFC, [0x3A9; 0x399]); (0xFB00, [0x46; 0x46]); (0xFB01, [0x46; 0x49]);
   (0xFB02, [0x46; 0x4C]); (0xFB03, [0x46; 0x46; 0x49]);
   (0xFB04, [0x46; 0x46; 0x4C]); (0xFB05, [0x53; 0x54]);
   (0xFB06, [0x53; 0x54]); (0xFB13, [0x544; 0x546]); (0xFB14, [0x544; 0x535]);
   (0xFB15, [0x544; 0x53B]); (0xFB16, [0x54E; 0x546]);
   (0xFB17, [0x544; 0x53D])].

(** The title-case forms ([_PyUnicode_ToTitleFull]) of the code points
    whose title-case form is not their upper-case form. *)
Definition titlecase_ranges : list (Z * Z * Z * Z) :=
  [(0x1C4, 0x1CA, 3, 1); (0x1C5, 0x1CB, 3, 0); (0x1C6, 0x1CC, 3, (-1));
   (0x1F1, 0x1F1, 1, 1); (0x1F2, 0x1F2, 1, 0); (0x1F3, 0x1F3, 1, (-1));
   (0x10D0, 0x10FA, 1, 0); (0x10FD, 0x10FF, 1, 0); (0x1F80, 0x1F87, 1, 8);
   (0x1F88, 0x1F8F, 1, 0); (0x1F90, 0x1F97, 1, 8); (0x1F98, 0x1F9F, 1, 0);
   (0x1FA0, 0x1FA7, 1, 8); (0x1FA8, 0x1FAF, 1, 0); (0x1FB3, 0x1FB3, 1, 9);
   (0x1FBC, 0x1FBC, 1, 0); (0x1FC3, 0x1FC3, 1, 9); (0x1FCC, 0x1FCC, 1, 0);
   (0x1FF3, 0x1FF3, 1, 9); (0x1FFC, 0x1FFC, 1, 0)].

Definition titlecase_special : list (Z * list Z) :=
  [(0xDF, [0x53; 0x73]); (0x587, [0x535; 0x582]); (0x1FB2, [0x1FBA; 0x345]);
   (0x1FB4, [0x386; 0x345]); (0x1FB7, [0x391; 0x342; 0x345]);
   (0x1FC2, [0x1FCA; 0x345]); (0x1FC4, [0x389; 0x345]);
   (0x1FC7, [0x397; 0x342; 0x345]); (0x1FF2, [0x1FFA; 0x345]);
   (0x1FF4, [0x38F; 0x345]); (0x1FF7, [0x3A9; 0x342; 0x345]);
   (0xFB00, [0x46; 0x66]); (0xFB01, [0x46; 0x69]); (0xFB02, [0x46; 0x6C]);
   (0xFB03, [0x46; 0x66; 0x69]); (0xFB04, [0x46; 0x66; 0x6C]);
   (0xFB05, [0x53; 0x74]); (0xFB06, [0x53; 0x74]); (0xFB13, [0x544; 0x576]);
   (0xFB14, [0x544; 0x565]); (0xFB15, [0x544; 0x56B]);
   (0xFB16, [0x54E; 0x576]); (0xFB17, [0x544; 0x56D])].

Fixpoint lookup_shift (c : Z) (ranges : list (Z * Z * Z * Z)) : option Z :=
  match ranges with
  | [] => None
  | (first, last, stride, shift) :: ranges' =>
      if (first <=? c) && (c <=? last) && ((c - first) mod stride =? 0)
      then Some shift
      else lookup_shift c ranges'
  end.

Fixpoint lookup_special (c : Z) (special : list (Z * list Z))
    : option (list Z) :=
  match special with
  | [] => None
  | (c', form) :: special' =>
      if c =? c' then Some form else lookup_special c special'
  end.

(** The form of [c] in a mapping, if its tables hold [c]. *)
Definition case_form (special : list (Z * list Z))
    (ranges : list (Z * Z * Z * Z)) (c : Z) : option (list Z) :=
  match lookup_special c special with
  | Some form => Some form
  | None =>
      match lookup_shift c ranges with
      | Some shift => Some [c + shift]
      | None => None
      end
  end.

Definition to_lower_full (c : Z) : list Z :=
  default [c] (case_form lowercase_special lowercase_ranges c).

Definition to_upper_full (c : Z) : list Z :=
  default [c] (case_form uppercase_special uppercase_ranges c).

Definition to_title_full (c : Z) : list Z :=
  default (to_upper_full c) (case_form titlecase_special titlecase_ranges c).

(** The code points with the property Cased ([_PyUnicode_IsCased]): the
    upper-case, lower-case and title-case letters. *)
Definition cased_runs : list (Z * Z) :=
  [(0x41, 0x5A); (0x61, 0x7A); (0xAA, 0xAA); (0xB5, 0xB5); (0xBA, 0xBA);
   (0xC0, 0xD6); (0xD8, 0xF6); (0xF8, 0x1BA); (0x1BC, 0x1BF); (0x1C4, 0x293);
   (0x295, 0x2B8); (0x2C0, 0x2C1); (0x2E0, 0x2E4); (0x345, 0x345);
   (0x370, 0x373); (0x376, 0x377); (0x37A, 0x37D); (0x37F, 0x37F);
   (0x386, 0x386); (0x388, 0x38A); (0x38C, 0x38C); (0x38E, 0x3A1);
   (0x3A3, 0x3F5); (0x3F7, 0x481); (0x48A, 0x52F); (0x531, 0x556);
   (0x560, 0x588); (0x10A0, 0x10C5); (0x10C7, 0x10C7); (0x10CD, 0x10CD);
   (0x10D0, 0x10FA); (0x10FD, 0x10FF); (0x13A0, 0x13F5); (0x13F8, 0x13FD);
   (0x1C80, 0x1C88); (0x1C90, 0x1CBA); (0x1CBD, 0x1CBF); (0x1D00, 0x1DBF);
   (0x1E00, 0x1F15); (0x1F18, 0x1F1D); (0x1F20, 0x1F45); (0x1F48, 0x1F4D);
   (0x1F50, 0x1F57); (0x1F59, 0x1F59); (0x1F5B, 0x1F5B); (0x1F5D, 0x1F5D);
   (0x1F5F, 0x1F7D); (0x1F80, 0x1FB4); (0x1FB6, 0x1FBC); (0x1FBE, 0x1FBE);
   (0x1FC2, 0x1FC4); (0x1FC6, 0x1FCC); (0x1FD0, 0x1FD3); (0x1FD6, 0x1FDB);
   (0x1FE0, 0x1FEC); (0x1FF2, 0x1FF4); (0x1FF6, 0x1FFC); (0x2071, 0x2071);
   (0x207F, 0x207F); (0x2090, 0x209C); (0x2102, 0x2102); (0x2107, 0x2107);
   (0x210A, 0x2113); (0x2115, 0x2115); (0x2119, 0x211D); (0x2124, 0x2124);
   (0x2126, 0x2126); (0x2128, 0x2128); (0x212A, 0x212D); (0x212F, 0x2134);
   (0x2139, 0x2139); (0x213C, 0x213F); (0x2145, 0x2149); (0x214E, 0x214E);
   (0x2160, 0x217F); (0x2183, 0x2184); (0x24B6, 0x24E9); (0x2C00, 0x2CE4);
   (0x2CEB, 0x2CEE); (0x2CF2, 0x2CF3); (0x2D00, 0x2D25); (0x2D27, 0x2D27);
   (0x2D2D, 0x2D2D); (0xA640, 0xA66D); (0xA680, 0xA69D); (0xA722, 0xA787);
   (0xA78B, 0xA78E); (0xA790, 0xA7CA); (0xA7D0, 0xA7D1); (0xA7D3, 0xA7D3);
   (0xA7D5, 0xA7D9); (0xA7F5, 0xA7F6); (0xA7F8, 0xA7FA); (0xAB30, 0xAB5A);
   (0xAB5C, 0xAB68); (0xAB70, 0xABBF); (0xFB00, 0xFB06); (0xFB13, 0xFB17);
   (0xFF21, 0xFF3A); (0xFF41, 0xFF5A); (0x10400, 0x1044F); (0x104B0, 0x104D3);
   (0x104D8, 0x104FB); (0x10570, 0x1057A); (0x1057C, 0x1058A);
   (0x1058C, 0x10592); (0x10594, 0x10595); (0x10597, 0x105A1);
   (0x105A3, 0x105B1); (0x105B3, 0x105B9); (0x105BB, 0x105BC);
   (0x10780, 0x10780); (0x10783, 0x10785); (0x10787, 0x107B0);
   (0x107B2, 0x107BA); (0x10C80, 0x10CB2); (0x10CC0, 0x10CF2);
   (0x118A0, 0x118DF); (0x16E40, 0x16E7F); (0x1D400, 0x1D454);
   (0x1D456, 0x1D49C); (0x1D49E, 0x1D49F); (0x1D4A2, 0x1D4A2);
   (0x1D4A5, 0x1D4A6); (0x1D4A9, 0x1D4AC); (0x1D4AE, 0x1D4B9);
   (0x1D4BB, 0x1D4BB); (0x1D4BD, 0x1D4C3); (0x1D4C5, 0x1D505);
   (0x1D507, 0x1D50A); (0x1D50D, 0x1D514); (0x1D516, 0x1D51C);
   (0x1D51E, 0x1D539); (0x1D53B, 0x1D53E); (0x1D540, 0x1D544);
   (0x1D546, 0x1D546); (0x1D54A, 0x1D550); (0x1D552, 0x1D6A5);
   (0x1D6A8, 0x1D6C0); (0x1D6C2, 0x1D6DA); (0x1D6DC, 0x1D6FA);
   (0x1D6FC, 0x1D714); (0x1D716, 0x1D734); (0x1D736, 0x1D74E);
   (0x1D750, 0x1D76E); (0x1D770, 0x1D788); (0x1D78A, 0x1D7A8);
   (0x1D7AA, 0x1D7C2); (0x1D7C4, 0x1D7CB); (0x1DF00, 0x1DF09);
   (0x1DF0B, 0x1DF1E); (0x1E900, 0x1E943); (0x1F130, 0x1F149);
   (0x1F150, 0x1F169); (0x1F170, 0x1F189)].

Definition is_cased (c : Z) : bool := in_runs c cased_runs.

(** The code points with the property Case_Ignorable
    ([_PyUnicode_IsCaseIgnorable]): marks, modifiers, format characters
    and the punctuation that may stand inside a word. *)
Definition case_ignorable_runs : list (Z * Z) :=
  [(0x27, 0x27); (0x2E, 0x2E); (0x3A, 0x3A); (0x5E, 0x5E); (0x60, 0x60);
   (0xA8, 0xA8); (0xAD, 0xAD); (0xAF, 0xAF); (0xB4, 0xB4); (0xB7, 0xB8);
   (0x2B0, 0x36F); (0x374, 0x375); (0x37A, 0x37A); (0x384, 0x385);
   (0x387, 0x387); (0x483, 0x489); (0x559, 0x559); (0x55F, 0x55F);
   (0x591, 0x5BD); (0x5BF, 0x5BF); (0x5C1, 0x5C2); (0x5C4, 0x5C5);
   (0x5C7, 0x5C7); (0x5F4, 0x5F4); (0x600, 0x605); (0x610, 0x61A);
   (0x61C, 0x61C); (0x640, 0x640); (0x64B, 0x65F); (0x670, 0x670);
   (0x6D6, 0x6DD); (0x6DF, 0x6E8); (0x6EA, 0x6ED); (0x70F, 0x70F);
   (0x711, 0x711); (0x730, 0x74A); (0x7A6, 0x7B0); (0x7EB, 0x7F5);
   (0x7FA, 0x7FA); (0x7FD, 0x7FD); (0x816, 0x82D); (0x859, 0x85B);
   (0x888, 0x888); (0x890, 0x891); (0x898, 0x89F); (0x8C9, 0x902);
   (0x93A, 0x93A); (0x93C, 0x93C); (0x941, 0x948); (0x94D, 0x94D);
   (0x951, 0x957); (0x962, 0x963); (0x971, 0x971); (0x981, 0x981);
   (0x9BC, 0x9BC); (0x9C1, 0x9C4); (0x9CD, 0x9CD); (0x9E2, 0x9E3);
   (0x9FE, 0x9FE); (0xA01, 0xA02); (0xA3C, 0xA3C); (0xA41, 0xA42);
   (0xA47, 0xA48); (0xA4B, 0xA4D); (0xA51, 0xA51); (0xA70, 0xA71);
   (0xA75, 0xA75); (0xA81, 0xA82); (0xABC, 0xABC); (0xAC1, 0xAC5);
   (0xAC7, 0xAC8); (0xACD, 0xACD); (0xAE2, 0xAE3); (0xAFA, 0xAFF);
   (0xB01, 0xB01); (0xB3C, 0xB3C); (0xB3F, 0xB3F); (0xB41, 0xB44);
   (0xB4D, 0xB4D); (0xB55, 0xB56); (0xB62, 0xB63); (0xB82, 0xB82);
   (0xBC0, 0xBC0); (0xBCD, 0xBCD); (0xC00, 0xC00); (0xC04, 0xC04);
   (0xC3C, 0xC3C); (0xC3E, 0xC40); (0xC46, 0xC48); (0xC4A, 0xC4D);
   (0xC55, 0xC56); (0xC62, 0xC63); (0xC81, 0xC81); (0xCBC, 0xCBC);
   (0xCBF, 0xCBF); (0xCC6, 0xCC6); (0xCCC, 0xCCD); (0xCE2, 0xCE3);
   (0xD00, 0xD01); (0xD3B, 0xD3C); (0xD41, 0xD44); (0xD4D, 0xD4D);
   (0xD62, 0xD63); (0xD81, 0xD81); (0xDCA, 0xDCA); (0xDD2, 0xDD4);
   (0xDD6, 0xDD6); (0xE31, 0xE31); (0xE34, 0xE3A); (0xE46, 0xE4E);
   (0xEB1, 0xEB1); (0xEB4, 0xEBC); (0xEC6, 0xEC6); (0xEC8, 0xECD);
   (0xF18, 0xF19); (0xF35, 0xF35); (0xF37, 0xF37); (0xF39, 0xF39);
   (0xF71, 0xF7E); (0xF80, 0xF84); (0xF86, 0xF87); (0xF8D, 0xF97);
   (0xF99, 0xFBC); (0xFC6, 0xFC6); (0x102D, 0x1030); (0x1032, 0x1037);
   (0x1039, 0x103A); (0x103D, 0x103E); (0x1058, 0x1059); (0x105E, 0x1060);
   (0x1071, 0x1074); (0x1082, 0x1082); (0x1085, 0x1086); (0x108D, 0x108D);
   (0x109D, 0x109D); (0x10FC, 0x10FC); (0x135D, 0x135F); (0x1712, 0x1714);
   (0x1732, 0x1733); (0x1752, 0x1753); (0x1772, 0x1773); (0x17B4, 0x17B5);
   (0x17B7, 0x17BD); (0x17C6, 0x17C6); (0x17C9, 0x17D3); (0x17D7, 0x17D7);
   (0x17DD, 0x17DD); (0x180B, 0x180F); (0x1843, 0x1843); (0x1885, 0x1886);
   (0x18A9, 0x18A9); (0x1920, 0x1922); (0x1927, 0x1928); (0x1932, 0x1932);
   (0x1939, 0x193B); (0x1A17, 0x1A18); (0x1A1B, 0x1A1B); (0x1A56, 0x1A56);
   (0x1A58, 0x1A5E); (0x1A60, 0x1A60); (0x1A62, 0x1A62); (0x1A65, 0x1A6C);
   (0x1A73, 0x1A7C); (0x1A7F, 0x1A7F); (0x1AA7, 0x1AA7); (0x1AB0, 0x1ACE);
   (0x1B00, 0x1B03); (0x1B34, 0x1B34); (0x1B36, 0x1B3A); (0x1B3C, 0x1B3C);
   (0x1B42, 0x1B42); (0x1B6B, 0x1B73); (0x1B80, 0x1B81); (0x1BA2, 0x1BA5);
   (0x1BA8, 0x1BA9); (0x1BAB, 0x1BAD); (0x1BE6, 0x1BE6); (0x1BE8, 0x1BE9);
   (0x1BED, 0x1BED); (0x1BEF, 0x1BF1); (0x1C2C, 0x1C33); (0x1C36, 0x1C37);
   (0x1C78, 0x1C7D); (0x1CD0, 0x1CD2); (0x1CD4, 0x1CE0); (0x1CE2, 0x1CE8);
   (0x1CED, 0x1CED); (0x1CF4, 0x1CF4); (0x1CF8, 0x1CF9); (0x1D2C, 0x1D6A);
   (0x1D78, 0x1D78); (0x1D9B, 0x1DFF); (0x1FBD, 0x1FBD); (0x1FBF, 0x1FC1);
   (0x1FCD, 0x1FCF); (0x1FDD, 0x1FDF); (0x1FED, 0x1FEF); (0x1FFD, 0x1FFE);
   (0x200B, 0x200F); (0x2018, 0x2019); (0x2024, 0x2024); (0x2027, 0x2027);
   (0x202A, 0x202E); (0x2060, 0x2064); (0x2066, 0x206F); (0x2071, 0x2071);
   (0x207F, 0x207F); (0x2090, 0x209C); (0x20D0, 0x20F0); (0x2C7C, 0x2C7D);
   (0x2CEF, 0x2CF1); (0x2D6F, 0x2D6F); (0x2D7F, 0x2D7F); (0x2DE0, 0x2DFF);
   (0x2E2F, 0x2E2F); (0x3005, 0x3005); (0x302A, 0x302D); (0x3031, 0x3035);
   (0x303B, 0x303B); (0x3099, 0x309E); (0x30FC, 0x30FE); (0xA015, 0xA015);
   (0xA4F8, 0xA4FD); (0xA60C, 0xA60C); (0xA66F, 0xA672); (0xA674, 0xA67D);
   (0xA67F, 0xA67F); (0xA69C, 0xA69F); (0xA6F0, 0xA6F1); (0xA700, 0xA721);
   (0xA770, 0xA770); (0xA788, 0xA78A); (0xA7F2, 0xA7F4); (0xA7F8, 0xA7F9);
   (0xA802, 0xA802); (0xA806, 0xA806); (0xA80B, 0xA80B); (0xA825, 0xA826);
   (0xA82C, 0xA82C); (0xA8C4, 0xA8C5); (0xA8E0, 0xA8F1); (0xA8FF, 0xA8FF);
   (0xA926, 0xA92D); (0xA947, 0xA951); (0xA980, 0xA982); (0xA9B3, 0xA9B3);
   (0xA9B6, 0xA9B9); (0xA9BC, 0xA9BD); (0xA9CF, 0xA9CF); (0xA9E5, 0xA9E6);
   (0xAA29, 0xAA2E); (0xAA31, 0xAA32); (0xAA35, 0xAA36); (0xAA43, 0xAA43);
   (0xAA4C, 0xAA4C); (0xAA70, 0xAA70); (0xAA7C, 0xAA7C); (0xAAB0, 0xAAB0);
   (0xAAB2, 0xAAB4); (0xAAB7, 0xAAB8); (0xAABE, 0xAABF); (0xAAC1, 0xAAC1);
   (0xAADD, 0xAADD); (0xAAEC, 0xAAED); (0xAAF3, 0xAAF4); (0xAAF6, 0xAAF6);
   (0xAB5B, 0xAB5F); (0xAB69, 0xAB6B); (0xABE5, 0xABE5); (0xABE8, 0xABE8);
   (0xABED, 0xABED); (0xFB1E, 0xFB1E); (0xFBB2, 0xFBC2); (0xFE00, 0xFE0F);
   (0xFE13, 0xFE13); (0xFE20, 0xFE2F); (0xFE52, 0xFE52); (0xFE55, 0xFE55);
   (0xFEFF, 0xFEFF); (0xFF07, 0xFF07); (0xFF0E, 0xFF0E); (0xFF1A, 0xFF1A);
   (0xFF3E, 0xFF3E); (0xFF40, 0xFF40); (0xFF70, 0xFF70); (0xFF9E, 0xFF9F);
   (0xFFE3, 0xFFE3); (0xFFF9, 0xFFFB); (0x101FD, 0x101FD); (0x102E0, 0x102E0);
   (0x10376, 0x1037A); (0x10780, 0x10785); (0x10787, 0x107B0);
   (0x107B2, 0x107BA); (0x10A01, 0x10A03); (0x10A05, 0x10A06);
   (0x10A0C, 0x10A0F); (0x10A38, 0x10A3A); (0x10A3F, 0x10A3F);
   (0x10AE5, 0x10AE6); (0x10D24, 0x10D27); (0x10EAB, 0x10EAC);
   (0x10F46, 0x10F50); (0x10F82, 0x10F85); (0x11001, 0x11001);
   (0x11038, 0x11046); (0x11070, 0x11070); (0x11073, 0x11074);
   (0x1107F, 0x11081); (0x110B3, 0x110B6); (0x110B9, 0x110BA);
   (0x110BD, 0x110BD); (0x110C2, 0x110C2); (0x110CD, 0x110CD);
   (0x11100, 0x11102); (0x11127, 0x1112B); (0x1112D, 0x11134);
   (0x11173, 0x11173); (0x11180, 0x11181); (0x111B6, 0x111BE);
   (0x111C9, 0x111CC); (0x111CF, 0x111CF); (0x1122F, 0x11231);
   (0x11234, 0x11234); (0x11236, 0x11237); (0x1123E, 0x1123E);
   (0x112DF, 0x112DF); (0x112E3, 0x112EA); (0x11300, 0x11301);
   (0x1133B, 0x1133C); (0x11340, 0x11340); (0x11366, 0x1136C);
   (0x11370, 0x11374); (0x11438, 0x1143F); (0x11442, 0x11444);
   (0x11446, 0x11446); (0x1145E, 0x1145E); (0x114B3, 0x114B8);
   (0x114BA, 0x114BA); (0x114BF, 0x114C0); (0x114C2, 0x114C3);
   (0x115B2, 0x115B5); (0x115BC, 0x115BD); (0x115BF, 0x115C0);
   (0x115DC, 0x115DD); (0x11633, 0x1163A); (0x1163D, 0x1163D);
   (0x1163F, 0x11640); (0x116AB, 0x116AB); (0x116AD, 0x116AD);
   (0x116B0, 0x116B5); (0x116B7, 0x116B7); (0x1171D, 0x1171F);
   (0x11722, 0x11725); (0x11727, 0x1172B); (0x1182F, 0x11837);
   (0x11839, 0x1183A); (0x1193B, 0x1193C); (0x1193E, 0x1193E);
   (0x11943, 0x11943); (0x119D4, 0x119D7); (0x119DA, 0x119DB);
   (0x119E0, 0x119E0); (0x11A01, 0x11A0A); (0x11A33, 0x11A38);
   (0x11A3B, 0x11A3E); (0x11A47, 0x11A47); (0x11A51, 0x11A56);
   (0x11A59, 0x11A5B); (0x11A8A, 0x11A96); (0x11A98, 0x11A99);
   (0x11C30, 0x11C36); (0x11C38, 0x11C3D); (0x11C3F, 0x11C3F);
   (0x11C92, 0x11CA7); (0x11CAA, 0x11CB0); (0x11CB2, 0x11CB3);
   (0x11CB5, 0x11CB6); (0x11D31, 0x11D36); (0x11D3A, 0x11D3A);
   (0x11D3C, 0x11D3D); (0x11D3F, 0x11D45); (0x11D47, 0x11D47);
   (0x11D90, 0x11D91); (0x11D95, 0x11D95); (0x11D97, 0x11D97);
   (0x11EF3, 0x11EF4); (0x13430, 0x13438); (0x16AF0, 0x16AF4);
   (0x16B30, 0x16B36); (0x16B40, 0x16B43); (0x16F4F, 0x16F4F);
   (0x16F8F, 0x16F9F); (0x16FE0, 0x16FE1); (0x16FE3, 0x16FE4);
   (0x1AFF0, 0x1AFF3); (0x1AFF5, 0x1AFFB); (0x1AFFD, 0x1AFFE);
   (0x1BC9D, 0x1BC9E); (0x1BCA0, 0x1BCA3); (0x1CF00, 0x1CF2D);
   (0x1CF30, 0x1CF46); (0x1D167, 0x1D169); (0x1D173, 0x1D182);
   (0x1D185, 0x1D18B); (0x1D1AA, 0x1D1AD); (0x1D242, 0x1D244);
   (0x1DA00, 0x1DA36); (0x1DA3B, 0x1DA6C); (0x1DA75, 0x1DA75);
   (0x1DA84, 0x1DA84); (0x1DA9B, 0x1DA9F); (0x1DAA1, 0x1DAAF);
   (0x1E000, 0x1E006); (0x1E008, 0x1E018); (0x1E01B, 0x1E021);
   (0x1E023, 0x1E024); (0x1E026, 0x1E02A); (0x1E130, 0x1E13D);
   (0x1E2AE, 0x1E2AE); (0x1E2EC, 0x1E2EF); (0x1E8D0, 0x1E8D6);
   (0x1E944, 0x1E94B); (0x1F3FB, 0x1F3FF); (0xE0001, 0xE0001);
   (0xE0020, 0xE007F); (0xE0100, 0xE01EF)].

Definition is_case_ignorable (c : Z) : bool :=
  in_runs c case_ignorable_runs.

(** Whether the first of the code points [l] that is not case-ignorable
    is cased: the test that [handle_capital_sigma] makes on either side of
    a capital sigma. *)
Fixpoint cased_next (l : list Z) : bool :=
  match l with
  | [] => false
  | c :: l' => if is_case_ignorable c then cased_next l' else is_cased c
  end.

(** The lower-case form of the capital sigma U+03A3 that stands after the
    code points [before] (the nearest first) and before the code points
    [after]: the final sigma U+03C2 at the end of a word, when a cased
    letter precedes and none follows, and the sigma U+03C3 elsewhere. *)
Definition handle_capital_sigma (before after : list Z) : Z :=
  if cased_next before && negb (cased_next after) then 0x3C2 else 0x3C3.

(** [do_lower]: the lower-case forms of the code points [l], which stand
    after the code points [before] (the nearest first). *)
Fixpoint do_lower (before l : list Z) : list Z :=
  match l with
  | [] => []
  | c :: after =>
      (if c =? 0x3A3 then [handle_capital_sigma before after]
       else to_lower_full c)
      ++ do_lower (c :: before) after
  end.

(** [s.lower()] and [s.upper()] *)
Definition lower (s : string) : string :=
  str_of (do_lower [] (code_points s)).

Definition upper (s : string) : string :=
  str_of (flat_map to_upper_full (code_points s)).

(** [s.capitalize()]: the title-case form of the first code point and the
    lower-case forms of the others. *)
Definition capitalize (s : string) : string :=
  str_of (match code_points s with
          | [] => []
          | c :: rest => to_title_full c ++ do_lower [c] rest
          end).

(** [sep.join(parts)] *)
Fixpoint join (sep : string) (parts : list string) : string :=
  match parts with
  | [] => EmptyString
  | [p] => p
  | p :: ps => p +:+ sep +:+ join sep ps
  end.

Fixpoint starts_with (p s : string) : bool :=
  match p, s with
  | EmptyString, _ => true
  | String a p', String b s' => if Ascii.eqb a b then starts_with p' s' else false
  | String _ _, EmptyString => false
  end.

(** [s.replace(old, new)] for a non-empty [old]: the occurrences of [old]
    are replaced from left to right without overlap.  [skip] counts the
    characters of a replaced occurrence still to be passed over. *)
Fixpoint replace_from (old new : string) (skip : nat) (s : string) : string :=
  match s with
  | EmptyString => EmptyString
  | String c s' =>
      match skip with
      | S k => replace_from old new k s'
      | O =>
          if starts_with old s
          then new +:+ replace_from old new (Nat.pred (String.length old)) s'
          else String c (replace_from old new O s')
      end
  end.

Definition replace (old new s : string) : string := replace_from old new O s.

(** [str(n)] for an [int] *)
Definition str_of_int (n : Z) : string := NilZero.string_of_int (Z.to_int n).

(** ** [float] and [int] arithmetic

    A [float] is an IEEE 754 binary64 number, computed with the operations
    of [SpecFloat] (round to nearest, ties to even). *)

Definition prec : Z := 53.
Definition emax : Z := 1024.

Definition float := spec_float.

Definition float_is_zero (f : float) : bool :=
  match f with S754_zero _ => true | _ => false end.

Definition float_is_infinite (f : float) : bool :=
  match f with S754_infinity _ => true | _ => false end.

(** The integer [n] as the unrounded [n * 2 ^ 0]: the operand of the
    division of two [int]s, whose mantissa is not bounded. *)
Definition int_ratio (n : Z) : float :=
  match n with
  | Z0 => S754_zero false
  | Zpos p => S754_finite false p 0
  | Zneg p => S754_finite true p 0
  end.

(** [float(n)]: the nearest binary64 number, [OverflowError] beyond the
    range. *)
Definition float_of_int (n : Z) : result float :=
  let f := binary_normalize prec emax n 0 false in
  if float_is_infinite f then Raise OverflowError else Return f.

(** [a / b] on two [int]s: the correctly rounded quotient. *)
Definition int_truediv (a b : Z) : result float :=
  if b =? 0 then Raise ZeroDivisionError
  else
    let f := SFdiv prec emax (int_ratio a) (int_ratio b) in
    if float_is_infinite f then Raise OverflowError else Return f.

(** [x / y] on two [float]s. *)
Definition float_truediv (x y : float) : result float :=
  if float_is_zero y then Raise ZeroDivisionError
  else Return (SFdiv prec emax x y).

Definition float_mul (x y : float) : float := SFmul prec emax x y.
Definition float_add (x y : float) : float := SFadd prec emax x y.

(** [math.ceil(x)] *)
Definition math_ceil (x : float) : result Z :=
  match x with
  | S754_zero _ => Return 0
  | S754_nan => Raise ValueError
  | S754_infinity _ => Raise OverflowError
  | S754_finite s m e =>
      let n := if s then Z.neg m else Z.pos m in
      if 0 <=? e then Return (n * 2 ^ e)
      else Return (- ((- n) / 2 ^ (- e)))
  end.

(** The quotient [a / b] of two positive integers rounded to the nearest
    integer, ties to even. *)
Definition div_half_even (a b : Z) : Z :=
  let q := a / b in
  let r := a mod b in
  match (2 * r ?= b) with
  | Lt => q
  | Gt => q + 1
  | Eq => if Z.even q then q else q + 1
  end.

(** [format(x, '.1f')]: one digit after the point, the exact value of [x]
    rounded half to even. *)
Definition format_1f (x : float) : string :=
  match x with
  | S754_nan => "nan"
  | S754_infinity s => if s then "-inf" else "inf"
  | S754_zero s => if s then "-0.0" else "0.0"
  | S754_finite s m e =>
      let tenths :=
        if 0 <=? e then Z.pos m * 10 * 2 ^ e
        else div_half_even (Z.pos m * 10) (2 ^ (- e)) in
      (if s then "-" else "") +:+
      str_of_int (tenths / 10) +:+ "." +:+ str_of_int (tenths mod 10)
  end.

(** ** Python values

    The values that travel through the two scripts are those of decoded
    JSON: [None], [bool], [int], [float], [str], [list] and [dict].  A
    [dict] keeps its items in insertion order and holds a key once. *)

#[warnings="-register-all"]
Inductive json : Type :=
  | JNull
  | JBool (b : bool)
  | JInt (n : Z)
  | JFloat (f : float)
  | JStr (s : string)
  | JArr (items : list json)
  | JObj (members : list (string * json)).

Definition dict := list (string * json).

(** [d.get(k)], for a [dict] and for the other tables keyed by a [str]. *)
Fixpoint dict_get {V} (d : list (string * V)) (k : string) : option V :=
  match d with
  | [] => None
  | (k', v) :: d' => if String.eqb k' k then Some v else dict_get d' k
  end.

(** [d[k] = v]: an existing key keeps its place. *)
Fixpoint dict_set {V} (d : list (string * V)) (k : string) (v : V)
  : list (string * V) :=
  match d with
  | [] => [(k, v)]
  | (k', v') :: d' =>
      if String.eqb k' k then (k, v) :: d' else (k', v') :: dict_set d' k v
  end.

(** [del d[k]] *)
Fixpoint dict_del {V} (d : list (string * V)) (k : string)
  : list (string * V) :=
  match d with
  | [] => []
  | (k', v) :: d' =>
      if String.eqb k' k then dict_del d' k else (k', v) :: dict_del d' k
  end.

(** [bool(v)], the truth value tested by [if v:]. *)
Definition truthy (v : json) : bool :=
  match v with
  | JNull => false
  | JBool b => b
  | JInt n => negb (n =? 0)
  | JFloat f => negb (float_is_zero f)
  | JStr s => negb (String.eqb s "")
  | JArr l => match l with [] => false | _ => true end
  | JObj d => match d with [] => false | _ => true end
  end.

(** The numbers among the values; [bool] is a subclass of [int]. *)
Inductive number : Type :=
  | NInt (n : Z)
  | NFloat (f : float).

Definition as_number (v : json) : option number :=
  match v with
  | JInt n => Some (NInt n)
  | JBool b => Some (NInt (if b then 1 else 0))
  | JFloat f => Some (NFloat f)
  | _ => None
  end.

Definition number_is_zero (x : number) : bool :=
  match x with
  | NInt n => n =? 0
  | NFloat f => float_is_zero f
  end.

(** [x / y], [x * y], [x + y] and [x > 0] on numbers. *)
Definition num_truediv (x y : number) : result float :=
  match x, y with
  | NInt a, NInt b => int_truediv a b
  | NInt a, NFloat g => f ← float_of_int a; float_truediv f g
  | NFloat f, NInt b => g ← float_of_int b; float_truediv f g
  | NFloat f, NFloat g => float_truediv f g
  end.

Definition num_add (x y : number) : result number :=
  match x, y with
  | NInt a, NInt b => Return (NInt (a + b))
  | NInt a, NFloat g => f ← float_of_int a; Return (NFloat (float_add f g))
  | NFloat f, NInt b => g ← float_of_int b; Return (NFloat (float_add f g))
  | NFloat f, NFloat g => Return (NFloat (float_add f g))
  end.

Definition num_gt_zero (x : number) : bool :=
  match x with
  | NInt n => 0 <? n
  | NFloat f => SFltb (S754_zero false) f
  end.

(** [v == 0] for any value, and the arithmetic of a value that has to be a
    number ([TypeError] otherwise). *)
Definition py_eq_zero (v : json) : bool :=
  match as_number v with
  | Some x => number_is_zero x
  | None => false
  end.

Definition expect_number (v : json) : result number :=
  match as_number v with
  | Some x => Return x
  | None => Raise TypeError
  end.

(** The float [100.0], to which the [int] 100 is converted in
    [x / y * 100]. *)
Definition float_100 : float := binary_normalize prec emax 100 0 false.

(** [f"{x / y * 100:.1f}"] *)
Definition percent_1f (x y : number) : result string :=
  q ← num_truediv x y; Return (format_1f (float_mul q float_100)).

(** ** [json.loads]

    The decoder of Python's [json] module with its default settings: white
    space is space, TAB, LF and CR; a string is delimited by double quotes,
    may not hold a control character and knows the escapes of JSON; the
    constants [NaN], [Infinity] and [-Infinity] are accepted; a repeated
    key of an object keeps its last value.  Any departure from the grammar
    raises [JSONDecodeError]. *)

Definition dquote : ascii := ascii_of_N 34.
Definition backslash : ascii := ascii_of_N 92.

(** The text [s] between double quotes. *)
Definition quoted (s : string) : string :=
  String dquote s +:+ String dquote EmptyString.

Definition is_json_space (c : ascii) : bool :=
  match N_of_ascii c with
  | 32%N | 9%N | 10%N | 13%N => true
  | _ => false
  end.

Fixpoint skip_ws (s : string) : string :=
  match s with
  | EmptyString => EmptyString
  | String c s' => if is_json_space c then skip_ws s' else s
  end.

Fixpoint str_drop (n : nat) (s : string) : string :=
  match n, s with
  | O, _ => s
  | S n', String _ s' => str_drop n' s'
  | S _, EmptyString => EmptyString
  end.

Definition hex_value (c : ascii) : option Z :=
  let n := Z.of_N (N_of_ascii c) in
  if ascii_between 48 57 c then Some (n - 48)
  else if ascii_between 65 70 c then Some (n - 55)
  else if ascii_between 97 102 c then Some (n - 87)
  else None.

(** The four hexadecimal digits of a [\uXXXX] escape. *)
Definition hex4 (a b c d : ascii) : option Z :=
  match hex_value a, hex_value b, hex_value c, hex_value d with
  | Some x, Some y, Some z, Some w => Some (((x * 16 + y) * 16 + z) * 16 + w)
  | _, _, _, _ => None
  end.

Definition simple_escape (c : ascii) : option ascii :=
  match N_of_ascii c with
  | 34%N => Some dquote
  | 92%N => Some backslash
  | 47%N => Some "/"%char
  | 98%N => Some (ascii_of_N 8)
  | 102%N => Some (ascii_of_N 12)
  | 110%N => Some (ascii_of_N 10)
  | 114%N => Some (ascii_of_N 13)
  | 116%N => Some (ascii_of_N 9)
  | _ => None
  end.

(** The input without its first character, when this character is [c]. *)
Definition after_char (c : ascii) (s : string) : option string :=
  match s with
  | String a s' => if Ascii.eqb a c then Some s' else None
  | EmptyString => None
  end.

(** [scanstring]: the input starts after the opening quote; the result is
    the decoded text and the input after the closing quote.  A [\u] escape
    of a high surrogate that is followed by the escape of a low surrogate
    gives one character with it. *)
Fixpoint scan_string (s : string) : result (string * string) :=
  match s with
  | EmptyString => Raise JSONDecodeError
  | String c rest =>
      if Ascii.eqb c dquote then Return (EmptyString, rest)
      else if Ascii.eqb c backslash then
        match rest with
        | EmptyString => Raise JSONDecodeError
        | String e rest1 =>
            if Ascii.eqb e "u" then
              match rest1 with
              | String h1 (String h2 (String h3 (String h4 rest2))) =>
                  match hex4 h1 h2 h3 h4 with
                  | None => Raise JSONDecodeError
                  | Some u =>
                      let single :=
                        '(text, rest') ← scan_string rest2;
                        Return (utf8 u +:+ text, rest') in
                      if (55296 <=? u) && (u <=? 56319) then
                        match rest2 with
                        | String b (String e' low) =>
                            if Ascii.eqb b backslash && Ascii.eqb e' "u" then
                              match low with
                              | String l1 (String l2 (String l3 (String l4 rest3))) =>
                                  match hex4 l1 l2 l3 l4 with
                                  | None => Raise JSONDecodeError
                                  | Some u2 =>
                                      if (56320 <=? u2) && (u2 <=? 57343) then
                                        '(text, rest') ← scan_string rest3;
                                        Return
                                          (utf8 (65536 + ((u - 55296) * 1024
                                                          + (u2 - 56320)))
                                             +:+ text, rest')
                                      else single
                                  end
                              | _ => Raise JSONDecodeError
                              end
                            else single
                        | _ => single
                        end
                      else single
                  end
              | _ => Raise JSONDecodeError
              end
            else
              match simple_escape e with
              | Some c' =>
                  '(text, rest') ← scan_string rest1;
                  Return (String c' text, rest')
              | None => Raise JSONDecodeError
              end
        end
      else if (N_of_ascii c <? 32)%N then Raise JSONDecodeError
      else
        '(text, rest') ← scan_string rest;
        Return (String c text, rest')
  end.

(** The longest prefix of decimal digits, as its value, its length and the
    rest of the input ([value] accumulates from the left). *)
Fixpoint take_digits (value : Z) (count : nat) (s : string) : Z * nat * string :=
  match s with
  | String c s' =>
      if is_digit c
      then take_digits (value * 10 + (Z.of_N (N_of_ascii c) - 48)) (S count) s'
      else (value, count, s)
  | EmptyString => (value, count, s)
  end.

(** [float(text)] for the decimal [mantissa * 10 ^ exponent]. *)
Definition float_of_decimal (negative : bool) (mantissa exponent : Z) : float :=
  let signed := if negative then - mantissa else mantissa in
  if mantissa =? 0 then S754_zero negative
  else if 0 <=? exponent
  then binary_normalize prec emax (signed * 10 ^ exponent) 0 false
  else SFdiv prec emax (int_ratio signed) (int_ratio (10 ^ (- exponent))).

(** The parts of a number: an optional minus sign; 0, or a digit from 1
    to 9 with any digits behind; then, each optional, a point with at
    least one digit, and an exponent (e or E, an optional sign, at least
    one digit).  An optional part that is not there consumes nothing. *)
Definition scan_sign (s : string) : bool * string :=
  match after_char "-" s with
  | Some s' => (true, s')
  | None => (false, s)
  end.

Definition scan_integer (s : string) : option (Z * string) :=
  match s with
  | String c s' =>
      if Ascii.eqb c "0" then Some (0, s')
      else if is_digit c
      then let '(v, _, rest) := take_digits 0 O s in Some (v, rest)
      else None
  | EmptyString => None
  end.

Definition scan_fraction (s : string) : option (Z * nat * string) :=
  match after_char "." s with
  | Some s' =>
      let '(v, n, rest) := take_digits 0 O s' in
      match n with
      | O => None
      | S _ => Some (v, n, rest)
      end
  | None => None
  end.

Definition scan_exponent (s : string) : option (Z * string) :=
  match s with
  | String e s' =>
      if Ascii.eqb e "e" || Ascii.eqb e "E" then
        let '(negative, s'') :=
          match after_char "-" s', after_char "+" s' with
          | Some t, _ => (true, t)
          | None, Some t => (false, t)
          | None, None => (false, s')
          end in
        let '(v, n, rest) := take_digits 0 O s'' in
        match n with
        | O => None
        | S _ => Some (if negative : bool then - v else v, rest)
        end
      else None
  | EmptyString => None
  end.

(** The number at the head of the input: an [int] when it has neither
    fraction nor exponent, a [float] otherwise. *)
Definition scan_number (s : string) : option (json * string) :=
  let '(negative, s1) := scan_sign s in
  match scan_integer s1 with
  | None => None
  | Some (int_part, s2) =>
      let '(frac, frac_len, s3) :=
        match scan_fraction s2 with
        | Some (v, n, rest) => (Some v, n, rest)
        | None => (None, O, s2)
        end in
      let '(exp, s4) :=
        match scan_exponent s3 with
        | Some (v, rest) => (Some v, rest)
        | None => (None, s3)
        end in
      match frac, exp with
      | None, None => Some (JInt (if negative then - int_part else int_part), s4)
      | _, _ =>
          let mantissa := int_part * 10 ^ Z.of_nat frac_len + default 0 frac in
          let exponent := default 0 exp - Z.of_nat frac_len in
          Some (JFloat (float_of_decimal negative mantissa exponent), s4)
      end
  end.

(** The value at the head of the input when it is neither a string, an
    object nor an array. *)
Definition scan_atom (s : string) : result (json * string) :=
  if starts_with "null" s then Return (JNull, str_drop 4 s)
  else if starts_with "true" s then Return (JBool true, str_drop 4 s)
  else if starts_with "false" s then Return (JBool false, str_drop 5 s)
  else
    match scan_number s with
    | Some r => Return r
    | None =>
        if starts_with "NaN" s then Return (JFloat S754_nan, str_drop 3 s)
        else if starts_with "Infinity" s
        then Return (JFloat (S754_infinity false), str_drop 8 s)
        else if starts_with "-Infinity" s
        then Return (JFloat (S754_infinity true), str_drop 9 s)
        else Raise JSONDecodeError
    end.

(** The scanner proper.  [fuel] bounds the depth of the recursion; the
    decoder gives it enough for any input (see [json_loads_raises]). *)
Fixpoint scan_value (fuel : nat) (s : string) : result (json * string) :=
  match fuel with
  | O => Raise RecursionError
  | S fuel' =>
      match s with
      | EmptyString => Raise JSONDecodeError
      | String c rest =>
          if Ascii.eqb c "{" then
            match after_char "}" (skip_ws rest) with
            | Some rest' => Return (JObj [], rest')
            | None => scan_members fuel' [] (skip_ws rest)
            end
          else if Ascii.eqb c "[" then
            match after_char "]" (skip_ws rest) with
            | Some rest' => Return (JArr [], rest')
            | None => scan_items fuel' [] (skip_ws rest)
            end
          else if Ascii.eqb c dquote then
            '(text, rest') ← scan_string rest; Return (JStr text, rest')
          else scan_atom s
      end
  end
with scan_items (fuel : nat) (seen : list json) (s : string)
  : result (json * string) :=
  match fuel with
  | O => Raise RecursionError
  | S fuel' =>
      '(v, rest) ← scan_value fuel' s;
      match skip_ws rest with
      | EmptyString => Raise JSONDecodeError
      | String c rest' =>
          if Ascii.eqb c "]" then Return (JArr (seen ++ [v]), rest')
          else if Ascii.eqb c ","
          then scan_items fuel' (seen ++ [v]) (skip_ws rest')
          else Raise JSONDecodeError
      end
  end
with scan_members (fuel : nat) (seen : dict) (s : string)
  : result (json * string) :=
  match fuel with
  | O => Raise RecursionError
  | S fuel' =>
      match after_char dquote s with
      | None => Raise JSONDecodeError
      | Some rest =>
          '(key, rest1) ← scan_string rest;
          match after_char ":" (skip_ws rest1) with
          | None => Raise JSONDecodeError
          | Some rest2 =>
              '(v, rest3) ← scan_value fuel' (skip_ws rest2);
              let seen' := dict_set seen key v in
              match skip_ws rest3 with
              | EmptyString => Raise JSONDecodeError
              | String c rest' =>
                  if Ascii.eqb c "}" then Return (JObj seen', rest')
                  else if Ascii.eqb c ","
                  then scan_members fuel' seen' (skip_ws rest')
                  else Raise JSONDecodeError
              end
          end
      end
  end.

(** [json.loads(s)] for a [str]: one value, white space around it and
    nothing else. *)
Definition json_loads (s : string) : result json :=
  '(v, rest) ← scan_value (2 * String.length s + 2) (skip_ws s);
  match skip_ws rest with
  | EmptyString => Return v
  | String _ _ => Raise JSONDecodeError
  end.

(** ** The world of fetch.py

    The fetcher talks to an HTTP server and sleeps; it owns the set
    [processed_records].  A run is a function of the world: the set, the
    number of requests sent so far and the trace of requests and sleeps.
    Log lines are not part of the model, except those of the final
    summary. *)

(** What [requests.get] meets: no response at all (connection error,
    timeout), or a response with its status code and body. *)
Inductive http_outcome : Type :=
  | ConnectionFailure
  | HttpResponse (status : Z) (body : string).

Inductive event : Type :=
  | Get (url : string)
  | Sleep (seconds : number).

Record world : Type := World {
  processed_records : gset string;
  clock : nat;
  trace : list event
}.

Definition M (A : Type) : Type := world -> result A * world.

#[global] Instance M_ret : MRet M := fun _ a w => (Return a, w).

#[global] Instance M_bind : MBind M := fun _ _ k m w =>
  match m w with
  | (Return a, w') => k a w'
  | (Raise e, w') => (Raise e, w')
  end.

(** [raise e] *)
Definition throw {A} (e : exn) : M A := fun w => (Raise e, w).

(** A pure computation that may raise, run in the world. *)
Definition lift {A} (r : result A) : M A := fun w => (r, w).

(** [try: body / except Exception as e: handler(e)] *)
Definition try_except {A} (body : M A) (handler : exn -> M A) : M A :=
  fun w =>
    match body w with
    | (Return a, w') => (Return a, w')
    | (Raise e, w') => handler e w'
    end.

(** [time.sleep(seconds)] *)
Definition sleep (seconds : number) : M unit := fun w =>
  (Return tt,
   World (processed_records w) (clock w) (trace w ++ [Sleep seconds])).

Definition initial_world : world := World ∅ O [].

Section Fetcher.

(** The server: its answer to the request for [url] that is the
    [clock]-th request of the run. *)
Variable server : string -> nat -> http_outcome.

(** [str(v)] for a [float], a [list] or a [dict], which the model leaves
    to the interpreter. *)
Variable py_repr : json -> string.

(** The fields [base_url] and [output_dir] of the fetcher, and the text
    that [time.strftime] gives when an archive is written. *)
Variable base_url : string.
Variable output_dir : string.
Variable strftime_now : string.

(** [str(v)] *)
Definition py_str (v : json) : string :=
  match v with
  | JStr s => s
  | JNull => "None"
  | JBool b => if b then "True" else "False"
  | JInt n => str_of_int n
  | _ => py_repr v
  end.

(** [requests.get(url, timeout=30, verify=False)] followed by
    [response.raise_for_status()]: the body of a response whose status
    is not 4xx or 5xx. *)
Definition requests_get (url : string) : M string := fun w =>
  let w' := World (processed_records w) (S (clock w)) (trace w ++ [Get url]) in
  match server url (clock w) with
  | ConnectionFailure => (Raise RequestException, w')
  | HttpResponse status body =>
      if (400 <=? status) && (status <? 600)
      then (Raise RequestException, w')
      else (Return body, w')
  end.

(** [response.json()] of [requests] 2.27 and later: the body is decoded
    by [json.loads], whose [JSONDecodeError] is caught and raised again as
    [requests.exceptions.JSONDecodeError], a [RequestException]. *)
Definition response_json (body : string) : result json :=
  match json_loads body with
  | Return data => Return data
  | Raise e =>
      if isinstance_JSONDecodeError e then Raise RequestsJSONDecodeError
      else Raise e
  end.

(** [data.get(key, default)] on the decoded body, which has the method
    only when it is a [dict]. *)
Definition data_get (data : json) (key : string) (dflt : json) : result json :=
  match data with
  | JObj d => Return (default dflt (dict_get d key))
  | _ => Raise AttributeError
  end.

(** *** [generate_record_id] *)

Definition key_fields : list string :=
  ["District"; "State"; "EnterpriseName"; "CommunicationAddress"].

Definition generate_record_id (record : dict) : string :=
  let id_parts :=
    fold_left
      (fun id_parts field =>
         let value :=
           default (default (JStr "") (dict_get record (capitalize field)))
                   (dict_get record field) in
         id_parts ++ [lower (strip (py_str value))])
      key_fields [] in
  join "|" id_parts.

(** *** [is_duplicate_record] *)

Definition is_duplicate_record (record : dict) : M bool := fun w =>
  let record_id := generate_record_id record in
  if decide (record_id ∈ processed_records w) then (Return true, w)
  else
    (Return false,
     World (processed_records w ∪ {[record_id]}) (clock w) (trace w)).

(** *** [get_total_records] *)

Definition total_url (district : string) : string :=
  replace "limit=1000" "limit=1" (replace "LATUR" (upper district) base_url).

Definition get_total_records (district : string) : M json :=
  try_except
    (body ← requests_get (total_url district);
     data ← lift (response_json body);
     lift (data_get data "total" (JInt 0)))
    (fun _ => mret (JInt 0)).

(** *** [fetch_batch] *)

Definition batch_url (district : string) (offset limit : Z) : string :=
  replace "LATUR" (upper district)
    (replace "limit=1000"
       ("limit=" +:+ str_of_int limit +:+ "&offset=" +:+ str_of_int offset)
       base_url).

(** The [for attempt in range(max_retries)] loop, over the attempts
    still to make.  Falling out of the loop returns [None]. *)
Fixpoint fetch_batch_attempts (url : string) (max_retries : Z)
    (attempts : list Z) : M json :=
  match attempts with
  | [] => mret JNull
  | attempt :: later =>
      try_except
        (body ← requests_get url;
         data ← lift (response_json body);
         lift (data_get data "records" (JArr [])))
        (fun e =>
           if isinstance_RequestException e then
             if attempt <? max_retries - 1
             then _ ← sleep (NInt (2 ^ attempt));
                  fetch_batch_attempts url max_retries later
             else mret (JArr [])
           else if isinstance_JSONDecodeError e then mret (JArr [])
           else mret (JArr []))
  end.

Definition fetch_batch (district : string) (offset limit max_retries : Z)
  : M json :=
  fetch_batch_attempts (batch_url district offset limit) max_retries
    (seqZ 0 max_retries).

(** *** [fetch_all_district_data] *)

(** The items that [for record in v] visits. *)
Definition py_iter (v : json) : result (list json) :=
  match v with
  | JArr items => Return items
  | JObj members => Return (map (fun kv => JStr (fst kv)) members)
  | JStr s => Return (map (fun c => JStr (String c EmptyString))
                        (list_ascii_of_string s))
  | _ => Raise TypeError
  end.

(** The inner loop that keeps the records not seen before.  A record
    that is not a [dict] has no [get]. *)
Fixpoint filter_duplicates (batch_records : list json)
    (unique_batch_records : list dict) : M (list dict) :=
  match batch_records with
  | [] => mret unique_batch_records
  | record :: later =>
      match record with
      | JObj d =>
          duplicate ← is_duplicate_record d;
          filter_duplicates later
            (if duplicate : bool then unique_batch_records
             else unique_batch_records ++ [d])
      | _ => throw AttributeError
      end
  end.

(** [math.ceil(total_records / batch_size)] *)
Definition count_batches (total_records : json) (batch_size : Z) : result Z :=
  total ← expect_number total_records;
  quotient ← num_truediv total (NInt batch_size);
  math_ceil quotient.

(** The [for batch in range(total_batches)] loop, over the batches still
    to fetch. *)
Fixpoint fetch_batches (district : string)
    (batch_size max_retries total_batches : Z)
    (batches : list Z) (all_records : list dict) : M (list dict) :=
  match batches with
  | [] => mret all_records
  | batch :: later =>
      let offset := batch * batch_size in
      batch_records ← fetch_batch district offset batch_size max_retries;
      all_records' ←
        (if truthy batch_records then
           items ← lift (py_iter batch_records);
           unique_batch_records ← filter_duplicates items [];
           mret (all_records ++ unique_batch_records)
         else mret all_records);
      _ ← (if batch <? total_batches - 1 then sleep (NInt 1) else mret tt);
      fetch_batches district batch_size max_retries total_batches
        later all_records'
  end.

Definition fetch_all_district_data (district : string)
    (batch_size max_retries : Z) : M (list dict) :=
  total_records ← get_total_records district;
  if py_eq_zero total_records then mret []
  else
    total_batches ← lift (count_batches total_records batch_size);
    fetch_batches district batch_size max_retries total_batches
      (seqZ 0 total_batches) [].

(** *** [save_data] *)

(** The object handed to [json.dump]. *)
Record metadata : Type := Metadata {
  district : string;
  total_records_available : json;
  records_fetched : Z;
  fetch_completion : string;
  timestamp : string;
  data : list dict
}.

(** [v > 0] *)
Definition py_gt_zero (v : json) : result bool :=
  x ← expect_number v; Return (num_gt_zero x).

(** [f"{fetched / total_available * 100:.1f}"] *)
Definition completion_percent (fetched : Z) (total_available : json)
  : result string :=
  total ← expect_number total_available;
  percent_1f (NInt fetched) total.

(** [save_data] returns nothing; the model gives what it writes, if it
    writes: the directory and the name of the file, joined by
    [os.path.join], and the metadata.  The write itself is wrapped in a
    [try] whose handler only logs, so that no failure of the file system
    reaches the caller. *)
Definition save_data (district : string) (data : list dict)
    (total_available : json) : result (option (string * string * metadata)) :=
  match data with
  | [] => Return None
  | _ :: _ =>
      let fetched := Z.of_nat (length data) in
      positive ← py_gt_zero total_available;
      fetch_completion ←
        (if positive : bool then
           percent ← completion_percent fetched total_available;
           Return (str_of_int fetched +:+ "/" +:+ py_str total_available
                     +:+ " (" +:+ percent +:+ "%)")
         else Return "N/A");
      let filename := lower district +:+ "_complete_data.json.gz" in
      Return (Some (output_dir, filename,
                    Metadata district total_available fetched
                      fetch_completion strftime_now data))
  end.

(** *** [print_final_summary] *)

(** An entry of the summary: the statistics of a district or the error
    that stopped it. *)
Inductive stats : Type :=
  | StatsError (error : exn)
  | Stats (total_available : json) (fetched : Z) (completion_rate : string).

(** The lines of the report that carry figures, with the figures they
    show. *)
Inductive summary_line : Type :=
  | ErrorLine (district : string) (error : exn)
  | DistrictLine (district : string) (fetched : Z) (available : json)
      (completion : string)
  | TotalLine (total_fetched : Z) (total_available : number)
      (percent : string).

(** The loop over [summary.items()]: the lines logged and, unless an
    addition raised, the two totals. *)
Fixpoint summary_totals (items : list (string * stats))
    (total_available : number) (total_fetched : Z)
  : list summary_line * result (number * Z) :=
  match items with
  | [] => ([], Return (total_available, total_fetched))
  | (district, StatsError error) :: later =>
      let '(lines, totals) :=
        summary_totals later total_available total_fetched in
      (ErrorLine district error :: lines, totals)
  | (district, Stats available fetched completion) :: later =>
      match (x ← expect_number available; num_add total_available x) with
      | Raise e => ([], Raise e)
      | Return total_available' =>
          let '(lines, totals) :=
            summary_totals later total_available' (total_fetched + fetched) in
          (DistrictLine district fetched available completion :: lines,
           totals)
      end
  end.

(** The lines logged and the outcome of the call. *)
Definition print_final_summary (summary : list (string * stats))
  : list summary_line * result unit :=
  let '(lines, totals) := summary_totals summary (NInt 0) 0 in
  match totals with
  | Raise e => (lines, Raise e)
  | Return (total_available, total_fetched) =>
      match percent_1f (NInt total_fetched) total_available with
      | Raise e => (lines, Raise e)
      | Return percent =>
          (lines ++ [TotalLine total_fetched total_available percent],
           Return tt)
      end
  end.

(** *** [process_districts] *)

Definition get_processed_records : M (gset string) := fun w =>
  (Return (processed_records w), w).

Definition set_processed_records (s : gset string) : M unit := fun w =>
  (Return tt, World s (clock w) (trace w)).

(** The body of the loop for the [i]-th district of [count]. *)
Definition process_district (count i : Z) (district : string)
    (batch_size : Z) (delay : number) (summary : list (string * stats))
  : M (list (string * stats)) :=
  try_except
    (temp_processed ← get_processed_records;
     _ ← set_processed_records ∅;
     total_available ← get_total_records district;
     all_data ← fetch_all_district_data district batch_size 3;
     _ ← lift (save_data district all_data total_available);
     let fetched := Z.of_nat (length all_data) in
     positive ← lift (py_gt_zero total_available);
     completion_rate ←
       lift (if positive : bool then
               percent ← completion_percent fetched total_available;
               Return (percent +:+ "%")
             else Return "0%");
     let summary' :=
       dict_set summary district
         (Stats total_available fetched completion_rate) in
     _ ← set_processed_records temp_processed;
     _ ← (if i <? count then sleep delay else mret tt);
     mret summary')
    (fun e => mret (dict_set summary district (StatsError e))).

Fixpoint process_districts_from (count i : Z) (districts : list string)
    (batch_size : Z) (delay : number) (summary : list (string * stats))
  : M (list (string * stats)) :=
  match districts with
  | [] => mret summary
  | district :: later =>
      summary' ← process_district count i district batch_size delay summary;
      process_districts_from count (i + 1) later batch_size delay summary'
  end.

Definition process_districts (districts : list string) (batch_size : Z)
    (delay : number) : M (list summary_line) :=
  summary ← process_districts_from (Z.of_nat (length districts)) 1
               districts batch_size delay [];
  let '(lines, outcome) := print_final_summary summary in
  _ ← lift outcome;
  mret lines.

End Fetcher.

(** ** parser.py *)

(** [json.loads(v)]: only text is decoded. *)
Definition py_json_loads (v : json) : result json :=
  match v with
  | JStr s => json_loads s
  | _ => Raise TypeError
  end.

(** [v[key]] for a [str] key: the value of a [dict]; a [list] or a [str]
    wants an integer index, and the other values have no subscript. *)
Definition subscript (v : json) (key : string) : result json :=
  match v with
  | JObj d =>
      match dict_get d key with
      | Some x => Return x
      | None => Raise KeyError
      end
  | _ => Raise TypeError
  end.

(** The body of the [try] of [parse_activities]. *)
Definition parse_activities_try (activity_json_str : json)
  : result (json * json) :=
  activities ← py_json_loads activity_json_str;
  match activities with
  | JArr (first :: _) =>
      code ← subscript first "NIC5DigitId";
      description ← subscript first "Description";
      Return (code, description)
  | _ => Return (JNull, JNull)
  end.

(** [parse_activities]: the [try] with its handler, [except Exception:
    return None, None]. *)
Definition parse_activities (activity_json_str : json) : result (json * json) :=
  match parse_activities_try activity_json_str with
  | Return columns => Return columns
  | Raise _ => Return (JNull, JNull)
  end.

(** A data frame: its columns in order, each with one cell per row.  The
    cells keep the values they were given; the conversions that pandas
    applies to a column of numbers are not modelled. *)
Definition DataFrame := list (string * list json).

(** The cell of a row that lacks the key of the column ([NaN]). *)
Definition missing : json := JFloat S754_nan.

(** The keys of the records, each once, in the order in which they first
    appear. *)
Definition add_columns (columns : list string) (record : dict) : list string :=
  fold_left
    (fun columns kv =>
       if existsb (String.eqb (fst kv)) columns then columns
       else columns ++ [fst kv])
    record columns.

(** [pd.DataFrame(records)] for a list of [dict]s. *)
Definition DataFrame_of_records (records : list dict) : DataFrame :=
  map (fun column =>
         (column, map (fun record => default missing (dict_get record column))
                    records))
      (fold_left add_columns records []).

(** [df[column]] *)
Definition df_getitem (df : DataFrame) (column : string) : result (list json) :=
  match dict_get df column with
  | Some cells => Return cells
  | None => Raise KeyError
  end.

(** [series.apply(f)] *)
Fixpoint series_apply {A} (f : json -> result A) (cells : list json)
  : result (list A) :=
  match cells with
  | [] => Return []
  | cell :: later =>
      x ← f cell; xs ← series_apply f later; Return (x :: xs)
  end.

(** [del df[column]] *)
Definition df_delitem (df : DataFrame) (column : string) : result DataFrame :=
  match dict_get df column with
  | Some _ => Return (dict_del df column)
  | None => Raise KeyError
  end.

(** The script from [df = pd.DataFrame(data['data'])] to [del
    df['Activities']]: the table that [to_csv] writes. *)
Definition flatten (records : list dict) : result DataFrame :=
  let df := DataFrame_of_records records in
  activities ← df_getitem df "Activities";
  parsed_activities ← series_apply parse_activities activities;
  let df := dict_set df "NIC5Digit_code" (map fst parsed_activities) in
  let df := dict_set df "Activity_Description" (map snd parsed_activities) in
  df_delitem df "Activities".

(** The cell of column [column] in row [row]. *)
Definition df_cell (df : DataFrame) (column : string) (row : nat) : option json :=
  cells ← dict_get df column; cells !! row.

(** ** The vocabulary of the specification *)

(** The value of a key field of a record: the entry under the name of the
    field, else the entry under its capitalized variant, else the empty
    text. *)
Definition field_value (record : dict) (field : string) : json :=
  match dict_get record field with
  | Some v => v
  | None =>
      match dict_get record (capitalize field) with
      | Some v => v
      | None => JStr ""
      end
  end.

(** The text [s] has the code points [l]. *)
Definition has_code_points (s : string) (l : list Z) : Prop :=
  Forall code_point l /\ s = str_of l.

(** Two code points that are the same letter in either case, or the same
    code point: one is the lower-case form of the other. *)
Definition same_letter (c d : Z) : Prop :=
  c = d \/ to_lower_full c = [d] \/ [c] = to_lower_full d.

(** Two sequences of code points that differ only in the case of their
    letters. *)
Inductive same_letters : list Z -> list Z -> Prop :=
  | same_letters_nil : same_letters [] []
  | same_letters_cons c d s t :
      same_letter c d -> same_letters s t ->
      same_letters (c :: s) (d :: t).

(** White space only. *)
Fixpoint blank (l : list Z) : bool :=
  match l with
  | [] => true
  | c :: l' => is_whitespace c && blank l'
  end.

(** Two sequences of code points that differ only in the case of their
    letters and in the white space around them. *)
Definition differ_only_in_case_and_padding (a b : list Z) : Prop :=
  exists pa ca qa pb cb qb,
    a = pa ++ ca ++ qa /\ b = pb ++ cb ++ qb /\
    blank pa = true /\ blank qa = true /\
    blank pb = true /\ blank qb = true /\
    same_letters ca cb.

(** Two texts that differ only in the case of their letters and in the
    white space around them. *)
Definition similar_texts (s t : string) : Prop :=
  exists a b,
    has_code_points s a /\ has_code_points t b /\
    differ_only_in_case_and_padding a b.

(** The Greek capital letter sigma, and a text that holds it. *)
Definition capital_sigma : Z := 0x3A3.

Definition holds_capital_sigma (s : string) : Prop :=
  In capital_sigma (code_points s).

(** The vertical bar. *)
Definition vertical_bar : Z := 0x7C.

(** The code points of an entry of a table of ranges, and the code points
    that the tables of a mapping hold. *)
Definition range_points (range : Z * Z * Z * Z) : list Z :=
  let '(first, last, stride, _) := range in
  map (fun k => first + stride * k) (seqZ 0 ((last - first) / stride + 1)).

Definition case_points (special : list (Z * list Z))
    (ranges : list (Z * Z * Z * Z)) : list Z :=
  map fst special ++ flat_map range_points ranges.

(** A code point that is no white space and whose lower-case form is made
    of code points that are no white space and are their own lower-case
    forms. *)
Definition lowers_to_lower_case (c : Z) : bool :=
  negb (is_whitespace c) &&
  forallb (fun d => negb (is_whitespace d) &&
                    match to_lower_full d with
                    | [d'] => d' =? d
                    | _ => false
                    end)
          (to_lower_full c).

(** What [code_points] gives: a code point, or the stand-in of a stray
    byte. *)
Definition text_value (u : Z) : Prop :=
  0 <= u < 0x110000 \/ 0x110080 <= u < 0x110100.

(** A code point whose upper-case form is made of code points other than
    the letter [l]. *)
Definition uppers_without_l (c : Z) : bool :=
  forallb (fun d => (0 <=? d) && (d <? 0x110000) && negb (d =? 0x6C))
          (to_upper_full c).

(** A request that fails at the level of the request: no response, or a
    response with a 4xx or 5xx status. *)
Definition request_fails (o : http_outcome) : bool :=
  match o with
  | ConnectionFailure => true
  | HttpResponse status _ => (400 <=? status) && (status <? 600)
  end.

(** A request that completes, with the body of its response. *)
Definition completes_with (o : http_outcome) (body : string) : Prop :=
  exists status,
    o = HttpResponse status body /\ request_fails o = false.

(** A body that is not JSON. *)
Definition undecodable (body : string) : Prop :=
  forall data, response_json body <> Return data.

(** An attempt that ends in a [RequestException]: its request fails, or
    completes with a body that is not JSON. *)
Definition attempt_fails (o : http_outcome) : Prop :=
  request_fails o = true \/
  exists body, completes_with o body /\ undecodable body.

(** The text of the [Activities] field of a record with one activity:
    a JSON list of one object, with [NIC5DigitId] 01111 and [Description]
    Growing of cereals. *)
Definition cereal_activities : string :=
  "[{" +:+ quoted "NIC5DigitId" +:+ ":" +:+ quoted "01111" +:+ ","
       +:+ quoted "Description" +:+ ":" +:+ quoted "Growing of cereals"
       +:+ "}]".

(** A computation that leaves [processed_records] as it finds it. *)
Definition preserves_scope {A} (m : M A) : Prop :=
  forall w, processed_records (snd (m w)) = processed_records w.

(** The records accumulated while the scope grew from [scope]: their keys
    are pairwise distinct, all in the current scope and none in [scope]. *)
Definition fresh_distinct_keys (key : dict -> string) (scope : gset string)
    (records : list dict) (w : world) : Prop :=
  NoDup (map key records) /\
  (forall r, In r records ->
     key r ∈ processed_records w /\ key r ∉ scope) /\
  scope ⊆ processed_records w.

(** The server answers the request for [url] that is the [t]-th of the
    run with a body that decodes to the object [reply]. *)
Definition answers (server : string -> nat -> http_outcome)
    (url : string) (t : nat) (reply : dict) : Prop :=
  exists body,
    completes_with (server url t) body /\
    response_json body = Return (JObj reply).

(** A reply that carries a page: its [records] are a list of objects. *)
Definition page_of (reply : dict) (records : list dict) : Prop :=
  dict_get reply "records" = Some (JArr (map JObj records)).

(** The trace of [k] failed attempts at [url], each followed by its
    backoff sleep of [2 ^ attempt] seconds. *)
Definition backoff_trace (url : string) (k : nat) : list event :=
  flat_map (fun attempt => [Get url; Sleep (NInt (2 ^ Z.of_nat attempt))])
           (seq 0 k).

(** The sum of the [total_available] of the entries without error, when
    they are all [int]s. *)
Fixpoint total_available_sum (summary : list (string * stats))
  : option Z :=
  match summary with
  | [] => Some 0
  | (_, StatsError _) :: later => total_available_sum later
  | (_, Stats (JInt n) _ _) :: later =>
      total ← total_available_sum later; Some (n + total)
  | (_, Stats _ _ _) :: later => None
  end.

(** ** Sources for the examples *)

(** The [BASE_URL] of [main]. *)
Definition main_base_url : string :=
  "https://api.data.gov.in/resource/8b68ae56-84cf-4728-a0a6-1be11028dea7"
  +:+ "?api-key=579b464db66ec23bdd000001f85d5882df0744e4705730a6dae2f1c9"
  +:+ "&format=json&limit=1000&filters%5BDistrict%5D=LATUR".

(** A [str(v)] for the values that the examples do not use. *)
Definition no_repr (v : json) : string := "".

(** The text of a JSON member, [key] and [value] being already JSON. *)
Definition member (key value : string) : string :=
  quoted key +:+ ":" +:+ value.

(** The body of a page with two records that differ in case and padding
    only. *)
Definition page_body : string :=
  "{" +:+ member "records"
    ("[{" +:+ member "District" (quoted "Latur") +:+ ","
          +:+ member "EnterpriseName" (quoted "Agro Mills") +:+ "},"
     +:+ "{" +:+ member "District" (quoted " LATUR") +:+ ","
          +:+ member "EnterpriseName" (quoted "AGRO MILLS ") +:+ "}]")
  +:+ "}".

Definition page_reply : dict :=
  [("records",
    JArr [JObj [("District", JStr "Latur"); ("EnterpriseName", JStr "Agro Mills")];
          JObj [("District", JStr " LATUR"); ("EnterpriseName", JStr "AGRO MILLS ")]])].

(** A source of 2500 records: the first request is answered with the
    total, the others with the page above. *)
Definition paged_server (url : string) (t : nat) : http_outcome :=
  match t with
  | O => HttpResponse 200 ("{" +:+ member "total" "2500" +:+ "}")
  | S _ => HttpResponse 200 page_body
  end.

(** A source that fails twice, with no response and then with a 503, and
    serves the page afterwards. *)
Definition flaky_server (url : string) (t : nat) : http_outcome :=
  match t with
  | O => ConnectionFailure
  | S O => HttpResponse 503 "Service Unavailable"
  | S (S _) => HttpResponse 200 page_body
  end.

(** A source that answers every request with status 200 and a body that is
    not JSON. *)
Definition garbled_server (url : string) (t : nat) : http_outcome :=
  HttpResponse 200 "<html>Bad Gateway</html>".

(** ** [main] *)

(** The districts that [main] processes. *)
Definition DISTRICTS : list string := ["LATUR"].

(** The float [2.0], the [delay] that [main] passes. *)
Definition float_2 : float := binary_normalize prec emax 2 0 false.

(** [main]: unless [DISTRICTS] is empty, a fetcher is made for [BASE_URL]
    with the default output directory, and the districts are processed in
    batches of 1000 with two seconds between districts.  The result is
    the report, or nothing when there is no district. *)
Definition main (server : string -> nat -> http_outcome)
    (py_repr : json -> string) (strftime_now : string)
  : M (option (list summary_line)) :=
  match DISTRICTS with
  | [] => mret None
  | _ :: _ =>
      lines ← process_districts server py_repr main_base_url
                 "complete_district_data" strftime_now
                 DISTRICTS 1000 (NFloat float_2);
      mret (Some lines)
  end.

(** ** Notions for the properties of whole runs *)

(** The total that the outcome of a request reports: the [total] of the
    object it answers with, and 0 when the request fails, when the answer
    is not a JSON object and when the object has no [total]. *)
Definition reported_total (o : http_outcome) : json :=
  match o with
  | ConnectionFailure => JInt 0
  | HttpResponse status body =>
      if request_fails o then JInt 0
      else
        match response_json body with
        | Return (JObj reply) => default (JInt 0) (dict_get reply "total")
        | _ => JInt 0
        end
  end.

(** A number of seconds that [time.sleep] takes: not negative, and at most
    a day.  Outside its range [time.sleep] raises, [ValueError] for a
    negative number and [OverflowError] for one too large, which the model
    of [sleep] leaves out. *)
Definition sleepable (seconds : number) : Prop :=
  match seconds with
  | NInt n => 0 <= n <= 86400
  | NFloat f =>
      SFleb (S754_zero false) f = true /\
      SFleb f (binary_normalize prec emax 86400 0 false) = true
  end.

(** A server none of whose requests completes. *)
Definition dead (server : string -> nat -> http_outcome) : Prop :=
  forall url t, request_fails (server url t) = true.

(** The records of a list whose key is neither in [scope] nor the key of an
    earlier record of the list, in the order of the list, and [scope] with
    the keys of the list. *)
Fixpoint first_occurrences (key : dict -> string) (scope : gset string)
    (records : list dict) : list dict * gset string :=
  match records with
  | [] => ([], scope)
  | r :: later =>
      if decide (key r ∈ scope) then first_occurrences key scope later
      else
        let '(kept, scope') :=
          first_occurrences key (scope ∪ {[key r]}) later in
        (r :: kept, scope')
  end.

(** A sequence of code points without white space at either end. *)
Definition trimmed (l : list Z) : Prop := lstrip l = l /\ rstrip l = l.

(** [old in s]: the text [old] occurs in [s]. *)
Fixpoint occurs (old s : string) : bool :=
  match s with
  | EmptyString => starts_with old s
  | String _ s' => starts_with old s || occurs old s'
  end.

(** [x not in s] for a character [x]. *)
Fixpoint without_char (x : ascii) (s : string) : bool :=
  match s with
  | EmptyString => true
  | String c s' => negb (Ascii.eqb x c) && without_char x s'
  end.

(** The [BASE_URL] of [main] up to its parameter [limit]. *)
Definition main_endpoint : string :=
  "https://api.data.gov.in/resource/8b68ae56-84cf-4728-a0a6-1be11028dea7"
  +:+ "?api-key=579b464db66ec23bdd000001f85d5882df0744e4705730a6dae2f1c9"
  +:+ "&format=json&".

(** The line that the report gives to an entry of the summary. *)
Definition entry_line (item : string * stats) : summary_line :=
  match item with
  | (district, StatsError error) => ErrorLine district error
  | (district, Stats available fetched completion) =>
      DistrictLine district fetched available completion
  end.

(** The sum of the [fetched] of the entries without error. *)
Fixpoint total_fetched_sum (summary : list (string * stats)) : Z :=
  match summary with
  | [] => 0
  | (_, StatsError _) :: later => total_fetched_sum later
  | (_, Stats _ fetched _) :: later => fetched + total_fetched_sum later
  end.

(** An entry whose [total_available], if it has one, is a number. *)
Definition numeric_entry (entry : stats) : Prop :=
  match entry with
  | StatsError _ => True
  | Stats total_available _ _ => as_number total_available <> None
  end.

(** The entry of a district of which nothing is available. *)
Definition nothing_fetched : stats := Stats (JInt 0) 0 "0%".

(** The cell that a record gets in the column [column] of the frame made
    of the records: its value under that key, [NaN] when it has none. *)
Definition record_cell (record : dict) (column : string) : json :=
  default missing (dict_get record column).

(** The marker of a value that is not there: [None] or [NaN].  Which of
    the two a column built with [apply] holds depends on the version of
    pandas. *)
Definition null_marker (cell : json) : Prop := cell = JNull \/ cell = missing.

(** A cell that shows the value [v] returned by [parse_activities]: a text
    is in the cell as it is, and [None] shows as a null marker.  Values of
    other kinds are not followed into the table. *)
Definition shows (cell v : json) : Prop :=
  match v with
  | JStr text => cell = JStr text
  | JNull => null_marker cell
  | _ => True
  end.

(** ** More sources for the examples *)

(** A source that is down. *)
Definition dead_server (url : string) (t : nat) : http_outcome :=
  ConnectionFailure.

(** A source that answers with a JSON list instead of an object. *)
Definition listing_server (url : string) (t : nat) : http_outcome :=
  HttpResponse 200 "[]".

(** A source whose total is a text. *)
Definition text_total_server (url : string) (t : nat) : http_outcome :=
  HttpResponse 200 ("{" +:+ member "total" (quoted "2500") +:+ "}").

(** A source of two records: the first two requests, which ask for the
    total, are answered with it, the others with the page above. *)
Definition district_server (url : string) (t : nat) : http_outcome :=
  match t with
  | O | S O => HttpResponse 200 ("{" +:+ member "total" "2" +:+ "}")
  | S (S _) => HttpResponse 200 page_body
  end.

(** A source that answers the first request, with a total of 2500, and is
    down from then on. *)
Definition outage_server (url : string) (t : nat) : http_outcome :=
  match t with
  | O => HttpResponse 200 ("{" +:+ member "total" "2500" +:+ "}")
  | S _ => ConnectionFailure
  end.

(** A source whose pages hold names instead of records. *)
Definition names_server (url : string) (t : nat) : http_outcome :=
  match t with
  | O => HttpResponse 200 ("{" +:+ member "total" "2" +:+ "}")
  | S _ =>
      HttpResponse 200
        ("{" +:+ member "records"
                   ("[" +:+ quoted "Agro Mills" +:+ ","
                        +:+ quoted "Latur Traders" +:+ "]") +:+ "}")
  end.

(** Two records with the same key fields up to case and padding: the
    records of the page above. *)
Definition agro_mills : dict :=
  [("District", JStr "Latur"); ("EnterpriseName", JStr "Agro Mills")].

Definition agro_mills_again : dict :=
  [("District", JStr " LATUR"); ("EnterpriseName", JStr "AGRO MILLS ")].

(** Two records whose districts are the Greek letters alpha and sigma, in
    capitals in the first (U+0391, U+03A3) and in small letters in the
    second (U+03B1, U+03C3). *)
Definition alpha_sigma_capitals : dict :=
  [("District", JStr (str_of [0x391; 0x3A3])); ("State", JStr "Maharashtra");
   ("EnterpriseName", JStr "Agro Mills");
   ("CommunicationAddress", JStr "Main Road")].

Definition alpha_sigma_small : dict :=
  [("District", JStr (str_of [0x3B1; 0x3C3])); ("State", JStr "Maharashtra");
   ("EnterpriseName", JStr "Agro Mills");
   ("CommunicationAddress", JStr "Main Road")].

(** Three records for the flattener: one activity, no activity, and an
    [Activities] that is not JSON. *)
Definition three_enterprises : list dict :=
  [[("EnterpriseName", JStr "Agro Mills");
    ("Activities", JStr cereal_activities)];
   [("EnterpriseName", JStr "Latur Traders"); ("Activities", JStr "[]")];
   [("EnterpriseName", JStr "Deccan Foods"); ("Activities", JStr "n/a")]].

(** * Properties *)

(** ** [json.loads]: the scanner has fuel enough *)

Lemma skip_ws_length s : (String.length (skip_ws s) <= String.length s)%nat.
Proof.
  induction s as [| c s IH]; simpl; [lia |].
  destruct (is_json_space c); simpl; lia.
Qed.

Lemma str_drop_length n s :
  (String.length (str_drop n s) = String.length s - n)%nat.
Proof.
  revert s. induction n as [| n IH]; intros [| c s]; simpl; auto with arith.
Qed.

Lemma starts_with_length p s :
  starts_with p s = true -> (String.length p <= String.length s)%nat.
Proof.
  revert s. induction p as [| a p IH]; intros [| b s]; simpl;
    try discriminate; try lia.
  destruct (Ascii.eqb a b); [| discriminate]. intros H%IH. lia.
Qed.

Lemma after_char_length c s s' :
  after_char c s = Some s' -> String.length s = S (String.length s').
Proof.
  destruct s as [| a s]; simpl; [discriminate |].
  destruct (Ascii.eqb a c); [| discriminate]. now intros [= ->].
Qed.

Ltac break_inner H :=
  match type of H with
  | context [match ?x with _ => _ end] =>
      lazymatch x with
      | context [match _ with _ => _ end] => fail
      | _ => let E := fresh "E" in
             destruct x eqn:E; simpl in H; try discriminate H
      end
  end.

Ltac hide_scan H :=
  match type of H with
  | context [scan_string ?x] =>
      is_var x; let r := fresh "r" in
      let Hr := fresh "Hr" in remember (scan_string x) as r eqn:Hr
  end.

Lemma scan_string_shorter n :
  forall s t rest,
    (String.length s <= n)%nat ->
    scan_string s = Return (t, rest) ->
    (String.length rest < String.length s)%nat.
Proof.
  induction n as [| n IH]; intros s t rest Hn H.
  - destruct s; [discriminate | simpl in Hn; lia].
  - destruct s as [| c s]; [discriminate |].
    simpl in H, Hn. unfold mbind, result_bind in H.
    repeat first [hide_scan H | break_inner H];
      repeat match goal with
        | E : Return (_, _) = scan_string _ |- _ =>
            symmetry in E; apply IH in E; [| simpl in *; lia]
        end;
      try (injection H as <- <-); subst; simpl in *; try lia.
Qed.

Lemma take_digits_length s :
  forall v c v' c' rest,
    take_digits v c s = (v', c', rest) ->
    (String.length rest + c' = String.length s + c /\ c <= c')%nat.
Proof.
  induction s as [| a s IH]; intros v c v' c' rest H; simpl in H.
  - injection H as <- <- <-. lia.
  - destruct (is_digit a).
    + apply IH in H. simpl. lia.
    + injection H as <- <- <-. lia.
Qed.

Lemma scan_sign_length s negative s' :
  scan_sign s = (negative, s') -> (String.length s' <= String.length s)%nat.
Proof.
  unfold scan_sign. destruct (after_char "-" s) as [t |] eqn:E.
  - apply after_char_length in E. intros [= <- <-]. lia.
  - intros [= <- <-]. lia.
Qed.

Lemma scan_integer_length s v s' :
  scan_integer s = Some (v, s') -> (String.length s' < String.length s)%nat.
Proof.
  destruct s as [| c s]; simpl; [discriminate |].
  destruct (Ascii.eqb c "0"); [intros [= <- <-]; lia |].
  destruct (is_digit c) eqn:Ec; [| discriminate].
  destruct (take_digits _ _ s) as [[v' n] rest] eqn:E.
  apply take_digits_length in E. intros [= <- <-]. lia.
Qed.

Lemma scan_fraction_length s v n s' :
  scan_fraction s = Some (v, n, s') -> (String.length s' < String.length s)%nat.
Proof.
  unfold scan_fraction. destruct (after_char "." s) as [t |] eqn:E;
    [| discriminate].
  apply after_char_length in E.
  destruct (take_digits 0 0 t) as [[v' n'] rest] eqn:Et.
  apply take_digits_length in Et.
  destruct n'; [discriminate |]. intros [= <- <- <-]. lia.
Qed.

Lemma scan_exponent_length s v s' :
  scan_exponent s = Some (v, s') -> (String.length s' < String.length s)%nat.
Proof.
  destruct s as [| e s]; simpl; [discriminate |].
  destruct (Ascii.eqb e "e" || Ascii.eqb e "E"); [| discriminate].
  destruct (after_char "-" s) as [t |] eqn:Eminus;
    [| destruct (after_char "+" s) as [t |] eqn:Eplus].
  all: try apply after_char_length in Eminus.
  all: try apply after_char_length in Eplus.
  all: match goal with
       | |- context [take_digits 0 0 ?x] =>
           destruct (take_digits 0 0 x) as [[v' n'] rest] eqn:Et
       end;
    apply take_digits_length in Et;
    destruct n'; [discriminate |]; intros [= <- <-]; lia.
Qed.

Lemma scan_number_shorter s v rest :
  scan_number s = Some (v, rest) ->
  (String.length rest < String.length s)%nat.
Proof.
  unfold scan_number.
  destruct (scan_sign s) as [negative s1] eqn:E1.
  apply scan_sign_length in E1.
  destruct (scan_integer s1) as [[int_part s2] |] eqn:E2; [| discriminate].
  apply scan_integer_length in E2.
  destruct (scan_fraction s2) as [[[frac frac_len] s3] |] eqn:E3;
    [apply scan_fraction_length in E3 |];
    match goal with
    | |- context [scan_exponent ?x] =>
        destruct (scan_exponent x) as [[exp s4] |] eqn:E4;
        [apply scan_exponent_length in E4 |]
    end;
    intros [= <- <-]; lia.
Qed.

Lemma scan_atom_shorter s v rest :
  scan_atom s = Return (v, rest) ->
  (String.length rest < String.length s)%nat.
Proof.
  unfold scan_atom.
  repeat match goal with
    | |- context [str_drop ?n s] =>
        let H := fresh "H" in
        pose proof (str_drop_length n s) as H;
        generalize dependent (str_drop n s); intros ? H
    end.
  repeat match goal with
    | |- context [if starts_with ?p s then _ else _] =>
        let E := fresh "E" in
        destruct (starts_with p s) eqn:E;
        [apply starts_with_length in E; simpl in E;
         intros [= <- <-]; lia |]
    | |- context [scan_number s] =>
        let E := fresh "E" in
        destruct (scan_number s) as [[v' r] |] eqn:E;
        [apply scan_number_shorter in E; now intros [= <- <-] |]
    end.
  discriminate.
Qed.

(** A value, once scanned, has consumed input. *)
Lemma scan_shorter fuel :
  (forall s v rest, scan_value fuel s = Return (v, rest) ->
     (String.length rest < String.length s)%nat) /\
  (forall seen s v rest, scan_items fuel seen s = Return (v, rest) ->
     (String.length rest < String.length s)%nat) /\
  (forall seen s v rest, scan_members fuel seen s = Return (v, rest) ->
     (String.length rest < String.length s)%nat).
Proof.
  induction fuel as [| fuel (IHv & IHi & IHm)].
  - repeat split; intros; discriminate.
  - split; [| split].
    + intros s v rest H. simpl in H.
      destruct s as [| c s]; [discriminate |].
      pose proof (skip_ws_length s) as Hws.
      destruct (Ascii.eqb c "{").
      { destruct (after_char "}" (skip_ws s)) as [r |] eqn:E.
        - apply after_char_length in E. injection H as <- <-. simpl. lia.
        - apply IHm in H. simpl. lia. }
      destruct (Ascii.eqb c "[").
      { destruct (after_char "]" (skip_ws s)) as [r |] eqn:E.
        - apply after_char_length in E. injection H as <- <-. simpl. lia.
        - apply IHi in H. simpl. lia. }
      destruct (Ascii.eqb c dquote).
      { unfold mbind, result_bind in H.
        destruct (scan_string s) as [[t r] |] eqn:E; [| discriminate].
        apply (scan_string_shorter _ _ _ _ (le_n _)) in E.
        injection H as <- <-. simpl. lia. }
      now apply scan_atom_shorter in H.
    + intros seen s v rest H. simpl in H. unfold mbind, result_bind in H.
      destruct (scan_value fuel s) as [[x r] |] eqn:E; [| discriminate].
      apply IHv in E. pose proof (skip_ws_length r) as Hws.
      destruct (skip_ws r) as [| c r']; [discriminate |].
      destruct (Ascii.eqb c "]"); [injection H as <- <-; simpl in *; lia |].
      destruct (Ascii.eqb c ","); [| discriminate].
      apply IHi in H. pose proof (skip_ws_length r'). simpl in *. lia.
    + intros seen s v rest H. simpl in H. unfold mbind, result_bind in H.
      destruct (after_char dquote s) as [r0 |] eqn:E0; [| discriminate].
      apply after_char_length in E0.
      destruct (scan_string r0) as [[key r1] |] eqn:E1; [| discriminate].
      apply (scan_string_shorter _ _ _ _ (le_n _)) in E1.
      pose proof (skip_ws_length r1) as Hws1.
      destruct (after_char ":" (skip_ws r1)) as [r2 |] eqn:E2; [| discriminate].
      apply after_char_length in E2.
      pose proof (skip_ws_length r2) as Hws2.
      destruct (scan_value fuel (skip_ws r2)) as [[x r3] |] eqn:E3;
        [| discriminate].
      apply IHv in E3. pose proof (skip_ws_length r3) as Hws3.
      destruct (skip_ws r3) as [| c r']; [discriminate |].
      destruct (Ascii.eqb c "}"); [injection H as <- <-; simpl in *; lia |].
      destruct (Ascii.eqb c ","); [| discriminate].
      apply IHm in H. pose proof (skip_ws_length r'). simpl in *. lia.
Qed.

Ltac raised H := first [discriminate H | now injection H as <-].

Lemma scan_string_raises n :
  forall s e, (String.length s <= n)%nat ->
    scan_string s = Raise e -> e = JSONDecodeError.
Proof.
  induction n as [| n IH]; intros s e Hn H.
  - destruct s; [raised H | simpl in Hn; lia].
  - destruct s as [| c s]; [raised H |].
    simpl in H, Hn. unfold mbind, result_bind in H.
    repeat first [hide_scan H | break_inner H]; try raised H;
      repeat match goal with
        | E : Raise _ = scan_string ?x |- _ =>
            symmetry in E; injection H as <-; apply IH in E;
            [assumption | subst; simpl in *; lia]
        end.
Qed.

Lemma scan_atom_raises s e : scan_atom s = Raise e -> e = JSONDecodeError.
Proof.
  unfold scan_atom.
  repeat match goal with
    | |- context [if ?b then _ else _] => destruct b; [discriminate |]
    | |- context [match ?x with Some _ => _ | None => _ end] =>
        destruct x; [discriminate |]
    end.
  intros H. raised H.
Qed.

(** With fuel in proportion to the input the scanner does not run out:
    when it raises, the input is not JSON. *)
Lemma scan_raises fuel :
  (forall s e, (2 * String.length s + 1 <= fuel)%nat ->
     scan_value fuel s = Raise e -> e = JSONDecodeError) /\
  (forall seen s e, (2 * String.length s + 2 <= fuel)%nat ->
     scan_items fuel seen s = Raise e -> e = JSONDecodeError) /\
  (forall seen s e, (2 * String.length s + 2 <= fuel)%nat ->
     scan_members fuel seen s = Raise e -> e = JSONDecodeError).
Proof.
  induction fuel as [| fuel (IHv & IHi & IHm)].
  - repeat split; intros; lia.
  - split; [| split].
    + intros s e Hfuel H. simpl in H.
      destruct s as [| c s]; [raised H |]. simpl in Hfuel.
      pose proof (skip_ws_length s) as Hws.
      destruct (Ascii.eqb c "{").
      { destruct (after_char "}" (skip_ws s)) as [r |] eqn:E; [raised H |].
        revert H. apply IHm. lia. }
      destruct (Ascii.eqb c "[").
      { destruct (after_char "]" (skip_ws s)) as [r |] eqn:E; [raised H |].
        revert H. apply IHi. lia. }
      destruct (Ascii.eqb c dquote).
      { unfold mbind, result_bind in H.
        destruct (scan_string s) as [[t r] | e'] eqn:E; [raised H |].
        injection H as <-.
        now apply (scan_string_raises _ _ _ (le_n _)) in E. }
      now apply scan_atom_raises in H.
    + intros seen s e Hfuel H. simpl in H. unfold mbind, result_bind in H.
      destruct (scan_value fuel s) as [[x r] | e'] eqn:E.
      * apply (proj1 (scan_shorter fuel)) in E.
        pose proof (skip_ws_length r) as Hws.
        destruct (skip_ws r) as [| c r']; [raised H |].
        destruct (Ascii.eqb c "]"); [raised H |].
        destruct (Ascii.eqb c ","); [| raised H].
        revert H. apply IHi.
        pose proof (skip_ws_length r'). simpl in *. lia.
      * injection H as <-. revert E. apply IHv. lia.
    + intros seen s e Hfuel H. simpl in H. unfold mbind, result_bind in H.
      destruct (after_char dquote s) as [r0 |] eqn:E0; [| raised H].
      apply after_char_length in E0.
      destruct (scan_string r0) as [[key r1] | e'] eqn:E1.
      2: { injection H as <-.
           now apply (scan_string_raises _ _ _ (le_n _)) in E1. }
      apply (scan_string_shorter _ _ _ _ (le_n _)) in E1.
      pose proof (skip_ws_length r1) as Hws1.
      destruct (after_char ":" (skip_ws r1)) as [r2 |] eqn:E2; [| raised H].
      apply after_char_length in E2.
      pose proof (skip_ws_length r2) as Hws2.
      destruct (scan_value fuel (skip_ws r2)) as [[x r3] | e'] eqn:E3.
      * apply (proj1 (scan_shorter fuel)) in E3.
        pose proof (skip_ws_length r3) as Hws3.
        destruct (skip_ws r3) as [| c r']; [raised H |].
        destruct (Ascii.eqb c "}"); [raised H |].
        destruct (Ascii.eqb c ","); [| raised H].
        revert H. apply IHm.
        pose proof (skip_ws_length r'). simpl in *. lia.
      * injection H as <-. revert E3. apply IHv. lia.
Qed.

(** Whatever the text, [json_loads] returns a value or raises
    [JSONDecodeError]: the fuel it gives the scanner is enough. *)
Lemma json_loads_raises s e : json_loads s = Raise e -> e = JSONDecodeError.
Proof.
  unfold json_loads, mbind, result_bind. intros H.
  destruct (scan_value _ _) as [[v rest] | e'] eqn:E.
  - destruct (skip_ws rest); raised H.
  - injection H as <-. revert E. apply scan_raises.
    pose proof (skip_ws_length s). lia.
Qed.

(** ** Text: code points, case and white space *)

Lemma byte_value_byte_of n : 0 <= n < 256 -> byte_value (byte_of n) = n.
Proof.
  intros Hn. unfold byte_value, byte_of.
  rewrite N_ascii_embedding by lia. lia.
Qed.

Lemma continuation_byte_of n :
  128 <= n < 192 -> continuation (byte_of n) = true.
Proof.
  intros Hn. unfold continuation, ascii_between, byte_of.
  rewrite N_ascii_embedding by lia.
  apply andb_true_intro. split; apply N.leb_le; lia.
Qed.

Lemma code_points_utf8 (u : Z) (s : string) :
  code_point u -> code_points (utf8 u +:+ s) = u :: code_points s.
Proof.
  unfold code_point, utf8. intros Hu.
  destruct (Z.ltb_spec u 128) as [H1 | H1];
    [| destruct (Z.ltb_spec u 2048) as [H2 | H2];
       [| destruct (Z.ltb_spec u 65536) as [H3 | H3]]].
  - change (code_points (String (byte_of u) s) = u :: code_points s).
    cbn [code_points]. rewrite byte_value_byte_of by lia.
    destruct (Z.ltb_spec u 128); [reflexivity | lia].
  - pose proof (Z.div_mod u 64 ltac:(lia)) as Hdiv.
    pose proof (Z.mod_pos_bound u 64 ltac:(lia)) as Hmod.
    assert (2 <= u / 64 < 32) as Hq
      by (split; [apply Z.div_le_lower_bound | apply Z.div_lt_upper_bound]; lia).
    change (code_points (String (byte_of (192 + u / 64))
                           (String (byte_of (128 + u mod 64)) s))
            = u :: code_points s).
    cbn [code_points].
    rewrite !byte_value_byte_of, continuation_byte_of by lia.
    destruct (Z.ltb_spec (192 + u / 64) 128); [lia |].
    destruct (Z.ltb_spec (192 + u / 64) 192); [lia |].
    destruct (Z.ltb_spec (192 + u / 64) 224); [| lia].
    f_equal. lia.
  - pose proof (Z.div_mod u 64 ltac:(lia)) as Hdiv.
    pose proof (Z.mod_pos_bound u 64 ltac:(lia)) as Hmod.
    pose proof (Z.div_mod (u / 64) 64 ltac:(lia)) as Hdiv'.
    pose proof (Z.mod_pos_bound (u / 64) 64 ltac:(lia)) as Hmod'.
    assert (u / 4096 = u / 64 / 64) as Hq' by (now rewrite Z.div_div by lia).
    assert (0 <= u / 4096 < 16) as Hq
      by (split; [apply Z.div_le_lower_bound | apply Z.div_lt_upper_bound]; lia).
    change (code_points (String (byte_of (224 + u / 4096))
                           (String (byte_of (128 + (u / 64) mod 64))
                              (String (byte_of (128 + u mod 64)) s)))
            = u :: code_points s).
    cbn [code_points].
    rewrite !byte_value_byte_of, !continuation_byte_of by lia.
    destruct (Z.ltb_spec (224 + u / 4096) 128); [lia |].
    destruct (Z.ltb_spec (224 + u / 4096) 192); [lia |].
    destruct (Z.ltb_spec (224 + u / 4096) 224); [lia |].
    destruct (Z.ltb_spec (224 + u / 4096) 240); [| lia].
    cbn [andb]. f_equal. lia.
  - pose proof (Z.div_mod u 64 ltac:(lia)) as Hdiv.
    pose proof (Z.mod_pos_bound u 64 ltac:(lia)) as Hmod.
    pose proof (Z.div_mod (u / 64) 64 ltac:(lia)) as Hdiv'.
    pose proof (Z.mod_pos_bound (u / 64) 64 ltac:(lia)) as Hmod'.
    pose proof (Z.div_mod (u / 4096) 64 ltac:(lia)) as Hdiv''.
    pose proof (Z.mod_pos_bound (u / 4096) 64 ltac:(lia)) as Hmod''.
    assert (u / 4096 = u / 64 / 64) as Hq' by (now rewrite Z.div_div by lia).
    assert (u / 262144 = u / 4096 / 64) as Hq'' by (now rewrite Z.div_div by lia).
    assert (0 <= u / 262144 < 8) as Hq
      by (split; [apply Z.div_le_lower_bound | apply Z.div_lt_upper_bound]; lia).
    change (code_points (String (byte_of (240 + u / 262144))
                           (String (byte_of (128 + (u / 4096) mod 64))
                              (String (byte_of (128 + (u / 64) mod 64))
                                 (String (byte_of (128 + u mod 64)) s))))
            = u :: code_points s).
    cbn [code_points].
    rewrite !byte_value_byte_of, !continuation_byte_of by lia.
    destruct (Z.ltb_spec (240 + u / 262144) 128); [lia |].
    destruct (Z.ltb_spec (240 + u / 262144) 192); [lia |].
    destruct (Z.ltb_spec (240 + u / 262144) 224); [lia |].
    destruct (Z.ltb_spec (240 + u / 262144) 240); [lia |].
    destruct (Z.ltb_spec (240 + u / 262144) 248); [| lia].
    cbn [andb].
    replace ((240 + u / 262144 - 240) * 262144
             + (128 + (u / 4096) mod 64 - 128) * 4096
             + (128 + (u / 64) mod 64 - 128) * 64
             + (128 + u mod 64 - 128)) with u by lia.
    destruct (Z.ltb_spec u 1114112); [reflexivity | lia].
Qed.

(** The code points of the text of a sequence of code points are that
    sequence. *)
Lemma code_points_str_of (l : list Z) :
  Forall code_point l -> code_points (str_of l) = l.
Proof.
  induction 1 as [| u l Hu _ IH]; [reflexivity |].
  cbn [str_of]. unfold code_point in Hu.
  destruct (Z.ltb_spec u 0x110000); [| lia].
  now rewrite code_points_utf8, IH.
Qed.

Lemma str_of_app (a b : list Z) : str_of (a ++ b) = str_of a +:+ str_of b.
Proof.
  induction a as [| u a IH]; [reflexivity |].
  cbn [app str_of]. rewrite IH.
  generalize (if u <? 1114112 then utf8 u
              else String (byte_of (u - 1114112)) EmptyString).
  intros s. induction s as [| c s IHs]; [reflexivity |].
  change (String c (s +:+ str_of a +:+ str_of b)
          = String c ((s +:+ str_of a) +:+ str_of b)).
  now rewrite IHs.
Qed.

Lemma range_points_in (c first last stride shift : Z) :
  0 < stride -> first <= c <= last -> (c - first) mod stride = 0 ->
  In c (range_points (first, last, stride, shift)).
Proof.
  intros Hstride Hc Hmod. unfold range_points.
  apply in_map_iff. exists ((c - first) / stride). split.
  - pose proof (Z.div_mod (c - first) stride ltac:(lia)). lia.
  - apply list_elem_of_In, elem_of_seqZ.
    assert (0 <= (c - first) / stride) by (apply Z.div_pos; lia).
    assert ((c - first) / stride <= (last - first) / stride)
      by (apply Z.div_le_mono; lia).
    lia.
Qed.

Lemma lookup_shift_in (c shift : Z) (ranges : list (Z * Z * Z * Z)) :
  forallb (fun '(_, _, stride, _) => 0 <? stride) ranges = true ->
  lookup_shift c ranges = Some shift ->
  In c (flat_map range_points ranges).
Proof.
  induction ranges as [| [[[first last] stride] shift'] ranges IH];
    [discriminate |].
  cbn [forallb lookup_shift flat_map]. intros Hpos Hlookup.
  apply andb_prop in Hpos as [Hstride Hpos].
  apply in_or_app.
  destruct ((first <=? c) && (c <=? last) && ((c - first) mod stride =? 0))
    eqn:Htest.
  - left. apply andb_prop in Htest as [Htest Hmod].
    apply andb_prop in Htest as [Hlo Hhi].
    apply range_points_in; lia.
  - right. now apply IH.
Qed.

Lemma lookup_special_in (c : Z) (form : list Z)
    (special : list (Z * list Z)) :
  lookup_special c special = Some form -> In c (map fst special).
Proof.
  induction special as [| [c' form'] special IH]; [discriminate |].
  cbn [lookup_special map fst].
  destruct (Z.eqb_spec c c') as [-> | _]; [now left |].
  intros H. right. now apply IH.
Qed.

(** A code point that has a form in a mapping is one of the code points
    of its tables. *)
Lemma case_form_in (special : list (Z * list Z))
    (ranges : list (Z * Z * Z * Z)) (c : Z) (form : list Z) :
  forallb (fun '(_, _, stride, _) => 0 <? stride) ranges = true ->
  case_form special ranges c = Some form ->
  In c (case_points special ranges).
Proof.
  intros Hpos. unfold case_form, case_points. intros H. apply in_or_app.
  destruct (lookup_special c special) as [form' |] eqn:Hspecial.
  - left. now apply (lookup_special_in c form').
  - right. destruct (lookup_shift c ranges) as [shift |] eqn:Hshift;
      [| discriminate].
    now apply (lookup_shift_in c shift).
Qed.

Lemma lower_case_points_checked :
  forallb lowers_to_lower_case
          (case_points lowercase_special lowercase_ranges) = true.
Proof. vm_compute. reflexivity. Qed.

(** A code point is its own lower-case form, or it is no white space and
    its lower-case form is made of code points that are no white space and
    are their own lower-case forms. *)
Lemma to_lower_full_cases (c : Z) :
  to_lower_full c = [c] \/
  is_whitespace c = false /\
  Forall (fun d => is_whitespace d = false /\ to_lower_full d = [d])
         (to_lower_full c).
Proof.
  destruct (case_form lowercase_special lowercase_ranges c) as [form |]
    eqn:Hform; [right | left; unfold to_lower_full; now rewrite Hform].
  apply case_form_in in Hform; [| vm_compute; reflexivity].
  pose proof (proj1 (forallb_forall _ _) lower_case_points_checked c Hform)
    as Hcheck.
  unfold lowers_to_lower_case in Hcheck.
  apply andb_prop in Hcheck as [Hws Hforms].
  split; [now apply negb_true_iff |].
  apply List.Forall_forall. intros d Hd.
  pose proof (proj1 (forallb_forall _ _) Hforms d Hd) as Hcheck.
  apply andb_prop in Hcheck as [Hdws Hdfix].
  split; [now apply negb_true_iff |].
  destruct (to_lower_full d) as [| d' [| ? ?]]; try discriminate.
  f_equal. lia.
Qed.

Lemma same_letter_whitespace (c d : Z) :
  same_letter c d -> is_whitespace c = is_whitespace d.
Proof.
  intros [-> | [H | H]]; [reflexivity | |].
  - destruct (to_lower_full_cases c) as [Hc | [Hc Hforms]].
    + rewrite Hc in H. now injection H as ->.
    + rewrite H in Hforms. apply Forall_inv in Hforms as [Hd _]. congruence.
  - destruct (to_lower_full_cases d) as [Hd | [Hd Hforms]].
    + rewrite Hd in H. now injection H as ->.
    + rewrite <- H in Hforms. apply Forall_inv in Hforms as [Hc _]. congruence.
Qed.

Lemma same_letter_lower (c d : Z) :
  same_letter c d -> to_lower_full c = to_lower_full d.
Proof.
  intros [-> | [H | H]]; [reflexivity | |].
  - destruct (to_lower_full_cases c) as [Hc | [_ Hforms]].
    + rewrite Hc in H. now injection H as ->.
    + rewrite H in Hforms. apply Forall_inv in Hforms as [_ Hd]. congruence.
  - destruct (to_lower_full_cases d) as [Hd | [_ Hforms]].
    + rewrite Hd in H. now injection H as ->.
    + rewrite <- H in Hforms. apply Forall_inv in Hforms as [_ Hc]. congruence.
Qed.

Lemma same_letters_lstrip (s t : list Z) :
  same_letters s t -> same_letters (lstrip s) (lstrip t).
Proof.
  induction 1 as [| c d s t Hcd Hst IH]; [constructor |].
  cbn [lstrip]. rewrite <- (same_letter_whitespace _ _ Hcd).
  destruct (is_whitespace c); [assumption | now constructor].
Qed.

Lemma same_letters_rstrip (s t : list Z) :
  same_letters s t -> same_letters (rstrip s) (rstrip t).
Proof.
  induction 1 as [| c d s t Hcd Hst IH]; [constructor |].
  cbn [rstrip]. rewrite <- (same_letter_whitespace _ _ Hcd).
  inversion IH as [Hs Ht | c' d' s' t' Hcd' Hst' Hs Ht].
  - destruct (is_whitespace c); [constructor |].
    constructor; [assumption | constructor].
  - constructor; [assumption |]. now constructor.
Qed.

Lemma lstrip_blank_prefix (p s : list Z) :
  blank p = true -> lstrip (p ++ s) = lstrip s.
Proof.
  induction p as [| c p IH]; [reflexivity |].
  cbn [blank app lstrip]. intros H. apply andb_prop in H as [Hc Hp].
  rewrite Hc. now apply IH.
Qed.

Lemma rstrip_blank (q : list Z) : blank q = true -> rstrip q = [].
Proof.
  induction q as [| c q IH]; [reflexivity |].
  cbn [blank rstrip]. intros H. apply andb_prop in H as [Hc Hq].
  now rewrite IH, Hc.
Qed.

Lemma rstrip_blank_suffix (s q : list Z) :
  blank q = true -> rstrip (s ++ q) = rstrip s.
Proof.
  intros Hq. induction s as [| c s IH].
  - now apply rstrip_blank.
  - cbn [app rstrip]. now rewrite IH.
Qed.

Lemma lstrip_blank (q : list Z) : blank q = true -> lstrip q = [].
Proof.
  induction q as [| c q IH]; [reflexivity |].
  cbn [blank lstrip]. intros H. apply andb_prop in H as [Hc Hq].
  rewrite Hc. now apply IH.
Qed.

Lemma strip_padding (p c q : list Z) :
  blank p = true -> blank q = true ->
  rstrip (lstrip (p ++ c ++ q)) = rstrip (lstrip c).
Proof.
  intros Hp Hq. rewrite lstrip_blank_prefix by assumption.
  induction c as [| x c IH].
  - cbn [app lstrip]. now rewrite lstrip_blank.
  - cbn [app lstrip]. destruct (is_whitespace x); [assumption |].
    change (rstrip ((x :: c) ++ q) = rstrip (x :: c)).
    now apply rstrip_blank_suffix.
Qed.

Lemma lstrip_incl (l : list Z) (x : Z) : In x (lstrip l) -> In x l.
Proof.
  induction l as [| c l IH]; [trivial |].
  cbn [lstrip]. destruct (is_whitespace c); [| trivial].
  intros H. right. now apply IH.
Qed.

Lemma rstrip_incl (l : list Z) (x : Z) : In x (rstrip l) -> In x l.
Proof.
  induction l as [| c l IH]; [trivial |].
  cbn [rstrip]. destruct (rstrip l) as [| y r].
  - destruct (is_whitespace c); [intros [] |].
    intros [-> | []]. now left.
  - intros [-> | H]; [now left | right; now apply IH].
Qed.

(** Without a capital sigma the lower-case form of a text is that of its
    code points, one after the other. *)
Lemma do_lower_without_sigma (before l : list Z) :
  ~ In capital_sigma l -> do_lower before l = flat_map to_lower_full l.
Proof.
  revert before. induction l as [| c l IH]; intros before Hl; [reflexivity |].
  cbn [do_lower flat_map].
  destruct (Z.eqb_spec c 0x3A3) as [-> | _]; [exfalso; apply Hl; now left |].
  f_equal. apply IH. intros H. apply Hl. now right.
Qed.

Lemma same_letters_lower (s t : list Z) :
  same_letters s t ->
  flat_map to_lower_full s = flat_map to_lower_full t.
Proof.
  induction 1 as [| c d s t Hcd _ IH]; [reflexivity |].
  cbn [flat_map]. now rewrite (same_letter_lower _ _ Hcd), IH.
Qed.

Lemma normalize_similar (a b : list Z) :
  differ_only_in_case_and_padding a b ->
  ~ In capital_sigma a -> ~ In capital_sigma b ->
  do_lower [] (rstrip (lstrip a)) = do_lower [] (rstrip (lstrip b)).
Proof.
  intros (pa & ca & qa & pb & cb & qb & -> & -> & Hpa & Hqa & Hpb & Hqb & H)
         Ha Hb.
  rewrite !do_lower_without_sigma.
  - rewrite !strip_padding by assumption.
    now apply same_letters_lower, same_letters_rstrip, same_letters_lstrip.
  - intros Hin. now apply Hb, lstrip_incl, rstrip_incl.
  - intros Hin. now apply Ha, lstrip_incl, rstrip_incl.
Qed.

(** [strip] and [lower] of the text of a sequence of code points. *)
Lemma strip_str_of (l : list Z) :
  Forall code_point l -> strip (str_of l) = str_of (rstrip (lstrip l)).
Proof. intros Hl. unfold strip. now rewrite code_points_str_of. Qed.

Lemma lower_str_of (l : list Z) :
  Forall code_point l -> lower (str_of l) = str_of (do_lower [] l).
Proof. intros Hl. unfold lower. now rewrite code_points_str_of. Qed.

Lemma strip_code_points (l : list Z) :
  Forall code_point l -> Forall code_point (rstrip (lstrip l)).
Proof.
  intros Hl. apply List.Forall_forall. intros x Hx.
  apply (proj1 (List.Forall_forall _ _) Hl).
  now apply lstrip_incl, rstrip_incl.
Qed.

Lemma lower_strip_str_of (l : list Z) :
  Forall code_point l ->
  lower (strip (str_of l)) = str_of (do_lower [] (rstrip (lstrip l))).
Proof.
  intros Hl. rewrite strip_str_of by assumption.
  apply lower_str_of. now apply strip_code_points.
Qed.

Lemma normalize_similar_texts (s t : string) :
  similar_texts s t ->
  ~ holds_capital_sigma s -> ~ holds_capital_sigma t ->
  lower (strip s) = lower (strip t).
Proof.
  intros (a & b & [Ha ->] & [Hb ->] & Hab) Hs Ht.
  unfold holds_capital_sigma in Hs, Ht.
  rewrite code_points_str_of in Hs, Ht by assumption.
  rewrite !lower_strip_str_of by assumption.
  f_equal. now apply normalize_similar.
Qed.

(** Checks by computation, for texts that are given. *)
Lemma code_points_checked (l : list Z) :
  forallb (fun u => (0 <=? u) && (u <? 0x110000)) l = true ->
  Forall code_point l.
Proof.
  intros Hl. apply List.Forall_forall. intros u Hu.
  pose proof (proj1 (forallb_forall _ _) Hl u Hu) as Hcheck.
  apply andb_prop in Hcheck as [Hlo Hhi]. unfold code_point. lia.
Qed.

Lemma has_code_points_checked (s : string) (l : list Z) :
  forallb (fun u => (0 <=? u) && (u <? 0x110000)) l = true ->
  s = str_of l ->
  has_code_points s l.
Proof. intros Hl Hs. split; [now apply code_points_checked | exact Hs]. Qed.

Lemma without_capital_sigma_checked (s : string) :
  forallb (fun u => negb (u =? capital_sigma)) (code_points s) = true ->
  ~ holds_capital_sigma s.
Proof.
  intros Hs Hin.
  pose proof (proj1 (forallb_forall _ _) Hs _ Hin) as Hcheck.
  vm_compute in Hcheck. discriminate.
Qed.

Lemma fold_left_snoc {A B} (g : A -> B) (l : list A) (acc : list B) :
  fold_left (fun acc x => acc ++ [g x]) l acc = acc ++ map g l.
Proof.
  revert acc. induction l as [| x l IH]; intros acc; simpl.
  - now rewrite app_nil_r.
  - now rewrite IH, <- app_assoc.
Qed.

Section RecordId.

Context (py_repr : json -> string).

(** C3. The key of a record is a function of the record alone: it is the
    text of its four key fields ([District], [State], [EnterpriseName],
    [CommunicationAddress], in this order), each trimmed and lower-cased,
    joined by a vertical bar.  Two records whose key fields differ only in
    the case of letters and in surrounding white space have the same key
    when no key field of either holds the Greek capital letter sigma,
    whose lower-case form depends on its place in the word. *)
Theorem generate_record_id_normalizes :
  (forall record,
     generate_record_id py_repr record =
       lower (strip (py_str py_repr (field_value record "District")))
       +:+ "|" +:+
       lower (strip (py_str py_repr (field_value record "State")))
       +:+ "|" +:+
       lower (strip (py_str py_repr (field_value record "EnterpriseName")))
       +:+ "|" +:+
       lower (strip (py_str py_repr (field_value record "CommunicationAddress"))))
  /\
  (forall r1 r2,
     (forall field, In field key_fields ->
        similar_texts
          (py_str py_repr (field_value r1 field))
          (py_str py_repr (field_value r2 field)) /\
        ~ holds_capital_sigma (py_str py_repr (field_value r1 field)) /\
        ~ holds_capital_sigma (py_str py_repr (field_value r2 field))) ->
     generate_record_id py_repr r1 = generate_record_id py_repr r2).
Proof.
  assert (Hid : forall record,
     generate_record_id py_repr record =
       join "|" (map (fun field =>
                        lower (strip (py_str py_repr (field_value record field))))
                   key_fields)).
  { intros record. unfold generate_record_id.
    rewrite fold_left_snoc. reflexivity. }
  split.
  - intros record. rewrite Hid. reflexivity.
  - intros r1 r2 H. rewrite !Hid. f_equal.
    apply map_ext_in. intros field Hfield.
    destruct (H field Hfield) as (Hsimilar & H1 & H2).
    now apply normalize_similar_texts.
Qed.

End RecordId.

(** ** [is_duplicate_record] *)

Section Deduplicator.

Context (server : string -> nat -> http_outcome) (py_repr : json -> string)
        (base_url output_dir strftime_now : string).

(** A district is processed as from the empty scope, whatever the scope
    before it: what [process_district] adds to the summary and what it
    requests do not depend on [processed_records]. *)
Lemma process_district_resets_scope
    count i district batch_size delay summary w :
  let run :=
    process_district server py_repr base_url output_dir strftime_now
      count i district batch_size delay summary in
  fst (run w) = fst (run (World ∅ (clock w) (trace w))) /\
  trace (snd (run w)) = trace (snd (run (World ∅ (clock w) (trace w)))).
Proof.
  intros run. subst run.
  unfold process_district, try_except, mbind, M_bind, get_processed_records,
    set_processed_records, lift.
  cbn [processed_records clock trace fst snd].
  destruct (get_total_records server base_url district _)
    as [[total_available | e] w1]; [| split; reflexivity].
  destruct (fetch_all_district_data server py_repr base_url district
              batch_size 3 w1) as [[all_data | e] w2]; [| split; reflexivity].
  destruct (save_data py_repr output_dir strftime_now district all_data
              total_available) as [saved | e]; [| split; reflexivity].
  destruct (py_gt_zero total_available) as [positive | e];
    [| split; reflexivity].
  destruct (if positive then _ else _) as [completion_rate | e];
    [| split; reflexivity].
  destruct (i <? count); split; reflexivity.
Qed.

(** C4. A record whose key is not yet in the scope is accepted when it is
    presented first ([False]) and rejected when it is presented again
    ([True]), and the rejecting call leaves the fetcher as it was; once
    the scope has been reset to the empty set, as [process_districts] does
    when it enters a district, the record is accepted again: the district
    that follows is processed as from the empty scope. *)
Theorem is_duplicate_record_twice (record : dict) (w : world) :
  generate_record_id py_repr record ∉ processed_records w ->
  let w1 :=
    World (processed_records w ∪ {[generate_record_id py_repr record]})
          (clock w) (trace w) in
  is_duplicate_record py_repr record w = (Return false, w1) /\
  is_duplicate_record py_repr record w1 = (Return true, w1) /\
  fst (is_duplicate_record py_repr record
         (snd (set_processed_records ∅ w1))) = Return false /\
  (forall count i district batch_size delay summary,
     fst (process_district server py_repr base_url output_dir strftime_now
            count i district batch_size delay summary w1) =
     fst (process_district server py_repr base_url output_dir strftime_now
            count i district batch_size delay summary
            (snd (set_processed_records ∅ w1)))).
Proof.
  intros Hnew w1. unfold is_duplicate_record. split; [| split; [| split]].
  - now rewrite decide_False.
  - rewrite decide_True; [reflexivity |]. subst w1. simpl. set_solver.
  - simpl. rewrite decide_False; [reflexivity | set_solver].
  - intros count i district batch_size delay summary.
    apply process_district_resets_scope.
Qed.

End Deduplicator.

(** ** [fetch_batch] *)

Section FetchBatch.

Context (server : string -> nat -> http_outcome) (base_url : string).

Lemma requests_get_fails url w :
  request_fails (server url (clock w)) = true ->
  requests_get server url w =
    (Raise RequestException,
     World (processed_records w) (S (clock w)) (trace w ++ [Get url])).
Proof.
  unfold requests_get, request_fails.
  destruct (server url (clock w)) as [| status body]; [reflexivity |].
  now intros ->.
Qed.

Lemma requests_get_completes url w body :
  completes_with (server url (clock w)) body ->
  requests_get server url w =
    (Return body,
     World (processed_records w) (S (clock w)) (trace w ++ [Get url])).
Proof.
  intros (status & Hserver & Hok). unfold requests_get.
  rewrite Hserver in *. simpl in Hok. now rewrite Hok.
Qed.

(** An attempt that fails at the level of the request, and is not the
    last, sleeps and leaves the rest to the later attempts. *)
Lemma fetch_batch_attempt_fails url max_retries attempt later w :
  request_fails (server url (clock w)) = true ->
  attempt < max_retries - 1 ->
  fetch_batch_attempts server url max_retries (attempt :: later) w =
    fetch_batch_attempts server url max_retries later
      (World (processed_records w) (S (clock w))
         (trace w ++ [Get url; Sleep (NInt (2 ^ attempt))])).
Proof.
  intros Hfail Hlt. simpl. unfold try_except, mbind, M_bind.
  rewrite (requests_get_fails _ _ Hfail). simpl.
  apply Z.ltb_lt in Hlt. rewrite Hlt. unfold sleep. simpl.
  now rewrite <- app_assoc.
Qed.

Lemma flat_map_seq_shift {A} (f g : nat -> list A) (k : nat) :
  (forall j, f j = g (S j)) ->
  forall a, flat_map f (seq a k) = flat_map g (seq (S a) k).
Proof.
  intros Hfg. induction k as [| k IH]; intros a; simpl; [reflexivity |].
  now rewrite Hfg, IH.
Qed.

(** After [k] such attempts the loop is at attempt [k]. *)
Lemma fetch_batch_after_failures url max_retries (k : nat) :
  forall (first : Z) (w : world),
    0 <= first ->
    first + Z.of_nat k < max_retries ->
    (forall j, (j < k)%nat ->
       request_fails (server url (clock w + j)%nat) = true) ->
    fetch_batch_attempts server url max_retries
      (seqZ first (max_retries - first)) w =
    fetch_batch_attempts server url max_retries
      (seqZ (first + Z.of_nat k) (max_retries - first - Z.of_nat k))
      (World (processed_records w) (clock w + k)%nat
         (trace w ++
          flat_map (fun attempt =>
                      [Get url; Sleep (NInt (2 ^ (first + Z.of_nat attempt)))])
                   (seq 0 k))).
Proof.
  induction k as [| k IH]; intros first w Hfirst Hlt Hfails.
  - simpl. rewrite Z.add_0_r, Z.sub_0_r, Nat.add_0_r, app_nil_r.
    now destruct w.
  - rewrite seqZ_cons by lia.
    rewrite fetch_batch_attempt_fails; [| | lia].
    2: { specialize (Hfails O ltac:(lia)). now rewrite Nat.add_0_r in Hfails. }
    replace (Z.pred (max_retries - first))
      with (max_retries - Z.succ first) by lia.
    rewrite IH; [| lia | lia |].
    2: { intros j Hj. cbn [clock].
         replace (S (clock w) + j)%nat with (clock w + S j)%nat by lia.
         apply Hfails. lia. }
    simpl. f_equal.
    + f_equal; lia.
    + f_equal; [lia |]. rewrite <- app_assoc. f_equal.
      rewrite Z.add_0_r. simpl. do 2 f_equal.
      apply flat_map_seq_shift. intros j.
      now replace (Z.succ first + Z.of_nat j)
        with (first + Z.of_nat (S j)) by lia.
Qed.

(** What [response.json()] raises is a [RequestException]. *)
Lemma response_json_raises (body : string) (e : exn) :
  response_json body = Raise e -> e = RequestsJSONDecodeError.
Proof.
  unfold response_json.
  destruct (json_loads body) as [data | e'] eqn:E; [discriminate |].
  rewrite (json_loads_raises body e' E). now intros [= <-].
Qed.

Lemma undecodable_raises (body : string) :
  undecodable body -> response_json body = Raise RequestsJSONDecodeError.
Proof.
  intros Hbody. destruct (response_json body) as [data | e] eqn:E.
  - now destruct (Hbody data).
  - now rewrite (response_json_raises body e E).
Qed.

(** An attempt that ends in a [RequestException], and is not the last,
    sleeps and leaves the rest to the later attempts, whether the request
    failed or the body did not decode. *)
Lemma fetch_batch_attempt_retried url max_retries attempt later w :
  attempt_fails (server url (clock w)) ->
  attempt < max_retries - 1 ->
  fetch_batch_attempts server url max_retries (attempt :: later) w =
    fetch_batch_attempts server url max_retries later
      (World (processed_records w) (S (clock w))
         (trace w ++ [Get url; Sleep (NInt (2 ^ attempt))])).
Proof.
  intros [Hfail | (body & Hbody & Hjson)] Hlt;
    [now apply fetch_batch_attempt_fails |].
  simpl. unfold try_except, mbind, M_bind.
  rewrite (requests_get_completes url w body Hbody).
  unfold lift. rewrite (undecodable_raises body Hjson). simpl.
  apply Z.ltb_lt in Hlt. rewrite Hlt. unfold sleep. simpl.
  now rewrite <- app_assoc.
Qed.

(** The last attempt, when it ends in a [RequestException], gives the
    empty list. *)
Lemma fetch_batch_attempt_last url max_retries attempt later w :
  attempt_fails (server url (clock w)) ->
  max_retries - 1 <= attempt ->
  fetch_batch_attempts server url max_retries (attempt :: later) w =
    (Return (JArr []),
     World (processed_records w) (S (clock w)) (trace w ++ [Get url])).
Proof.
  intros [Hfail | (body & Hbody & Hjson)] Hlast;
    simpl; unfold try_except, mbind, M_bind.
  - rewrite (requests_get_fails _ _ Hfail). simpl.
    now apply Z.ltb_ge in Hlast as ->.
  - rewrite (requests_get_completes url w body Hbody).
    unfold lift. rewrite (undecodable_raises body Hjson). simpl.
    now apply Z.ltb_ge in Hlast as ->.
Qed.

(** After [k] such attempts the loop is at attempt [k]. *)
Lemma fetch_batch_after_retries url max_retries (k : nat) :
  forall (first : Z) (w : world),
    0 <= first ->
    first + Z.of_nat k < max_retries ->
    (forall j, (j < k)%nat ->
       attempt_fails (server url (clock w + j)%nat)) ->
    fetch_batch_attempts server url max_retries
      (seqZ first (max_retries - first)) w =
    fetch_batch_attempts server url max_retries
      (seqZ (first + Z.of_nat k) (max_retries - first - Z.of_nat k))
      (World (processed_records w) (clock w + k)%nat
         (trace w ++
          flat_map (fun attempt =>
                      [Get url; Sleep (NInt (2 ^ (first + Z.of_nat attempt)))])
                   (seq 0 k))).
Proof.
  induction k as [| k IH]; intros first w Hfirst Hlt Hfails.
  - simpl. rewrite Z.add_0_r, Z.sub_0_r, Nat.add_0_r, app_nil_r.
    now destruct w.
  - rewrite seqZ_cons by lia.
    rewrite fetch_batch_attempt_retried; [| | lia].
    2: { specialize (Hfails O ltac:(lia)). now rewrite Nat.add_0_r in Hfails. }
    replace (Z.pred (max_retries - first))
      with (max_retries - Z.succ first) by lia.
    rewrite IH; [| lia | lia |].
    2: { intros j Hj. cbn [clock].
         replace (S (clock w) + j)%nat with (clock w + S j)%nat by lia.
         apply Hfails. lia. }
    simpl. f_equal.
    + f_equal; lia.
    + f_equal; [lia |]. rewrite <- app_assoc. f_equal.
      rewrite Z.add_0_r. simpl. do 2 f_equal.
      apply flat_map_seq_shift. intros j.
      now replace (Z.succ first + Z.of_nat j)
        with (first + Z.of_nat (S j)) by lia.
Qed.

(** C1. A body that is not JSON does not end [fetch_batch] at once: what
    [response.json()] raises is a [RequestException], which the first
    handler catches, so that the attempt is retried after its backoff
    sleep like one whose request failed.  When no attempt gives a body
    that decodes, whether its request fails or its body is not JSON,
    [fetch_batch] returns the empty list only after [max_retries] requests
    and [max_retries - 1] sleeps of 1, 2, 4, ... seconds, lengths that
    [time.sleep] is to take.  The handler for [json.JSONDecodeError], which
    returns at once, is never reached from [response.json()]. *)
Theorem fetch_batch_decode_error_retried
    (district : string) (offset limit max_retries : Z) (w : world) :
  let url := batch_url base_url district offset limit in
  0 < max_retries ->
  (forall attempt, 0 <= attempt < max_retries - 1 ->
     sleepable (NInt (2 ^ attempt))) ->
  (forall j, (Z.of_nat j < max_retries) ->
     attempt_fails (server url (clock w + j)%nat)) ->
  fetch_batch server base_url district offset limit max_retries w =
    (Return (JArr []),
     World (processed_records w) (clock w + Z.to_nat max_retries)
       (trace w ++ backoff_trace url (Z.to_nat (max_retries - 1))
          ++ [Get url])).
Proof.
  intros url Hretries _ Hfails. unfold fetch_batch. fold url.
  replace max_retries with (max_retries - 0) at 2 by lia.
  rewrite (fetch_batch_after_retries url max_retries
             (Z.to_nat (max_retries - 1)) 0 w);
    [| lia | lia | intros j Hj; apply Hfails; lia].
  rewrite seqZ_cons by lia.
  rewrite fetch_batch_attempt_last; [| apply Hfails; simpl; lia | lia].
  simpl. unfold backoff_trace. rewrite <- app_assoc. do 2 f_equal. lia.
Qed.

(** C5. With [max_retries = 3], when the first two attempts fail at the
    level of the request and the third completes with a body that decodes
    to an object, [fetch_batch] returns the [records] of this object (the
    empty list when it has none) and nothing else; it sleeps 1 second
    after the first attempt and 2 seconds after the second. *)
Theorem fetch_batch_third_attempt_succeeds
    (district : string) (offset limit : Z) (w : world)
    (body : string) (data : dict) :
  let url := batch_url base_url district offset limit in
  request_fails (server url (clock w)) = true ->
  request_fails (server url (S (clock w))) = true ->
  completes_with (server url (S (S (clock w)))) body ->
  response_json body = Return (JObj data) ->
  fetch_batch server base_url district offset limit 3 w =
    (Return (default (JArr []) (dict_get data "records")),
     World (processed_records w) (S (S (S (clock w))))
       (trace w ++ [Get url; Sleep (NInt 1); Get url; Sleep (NInt 2); Get url])).
Proof.
  intros url Hfail1 Hfail2 Hbody Hjson. unfold fetch_batch. fold url.
  change (seqZ 0 3) with [0; 1; 2].
  rewrite fetch_batch_attempt_fails by (assumption || lia).
  rewrite fetch_batch_attempt_fails by (assumption || lia).
  simpl. unfold try_except, mbind, M_bind.
  rewrite (requests_get_completes url _ body) by assumption.
  unfold lift. rewrite Hjson. simpl.
  now rewrite <- !app_assoc.
Qed.

End FetchBatch.

(** ** [save_data] and [print_final_summary] *)

Section Reports.

Context (py_repr : json -> string) (output_dir strftime_now : string).

(** C7. For 750 records fetched out of 1000 available the metadata that
    [save_data] writes has [fetch_completion = "750/1000 (75.0%)"], the
    percentage with one decimal place; for 0 available it has
    [fetch_completion = "N/A"]. *)
Theorem save_data_fetch_completion :
  (forall district data,
     length data = 750%nat ->
     exists target m,
       save_data py_repr output_dir strftime_now district data (JInt 1000)
         = Return (Some (target, m)) /\
       fetch_completion m = "750/1000 (75.0%)" /\
       records_fetched m = 750) /\
  (forall district data,
     data <> [] ->
     exists target m,
       save_data py_repr output_dir strftime_now district data (JInt 0)
         = Return (Some (target, m)) /\
       fetch_completion m = "N/A").
Proof.
  split.
  - intros district data Hlen.
    destruct data as [| record data]; [discriminate |].
    unfold save_data. rewrite Hlen.
    change (Z.of_nat 750) with 750.
    replace (py_gt_zero (JInt 1000)) with (Return true) by reflexivity.
    replace (completion_percent 750 (JInt 1000)) with (Return "75.0")
      by (vm_compute; reflexivity).
    eexists _, _. split; [reflexivity |]. split; reflexivity.
  - intros district data Hdata.
    destruct data as [| record data]; [contradiction |].
    unfold save_data.
    replace (py_gt_zero (JInt 0)) with (Return false) by reflexivity.
    eexists _, _. split; reflexivity.
Qed.

Lemma summary_totals_int (items : list (string * stats)) :
  forall (n available fetched : Z),
    total_available_sum items = Some n ->
    exists total_fetched,
      snd (summary_totals items (NInt available) fetched)
      = Return (NInt (available + n), total_fetched).
Proof.
  induction items as [| [district entry] items IH];
    intros n available fetched Hsum; simpl in *.
  - injection Hsum as <-. exists fetched. now rewrite Z.add_0_r.
  - destruct entry as [error | total count rate].
    + destruct (IH n available fetched Hsum) as [tf Htf].
      exists tf. destruct (summary_totals items (NInt available) fetched).
      exact Htf.
    + destruct total as [| | m | | | |]; try discriminate.
      destruct (total_available_sum items) as [rest |] eqn:Hrest;
        [| discriminate].
      simpl in Hsum. injection Hsum as <-.
      destruct (IH rest (available + m) (fetched + count) eq_refl)
        as [tf Htf].
      exists tf. simpl.
      destruct (summary_totals items (NInt (available + m)) (fetched + count)).
      simpl in *. rewrite Htf. do 3 f_equal. lia.
Qed.

(** C2. When the [total_available] of the entries without error add up to
    zero, the percentage of the final line divides by zero: the call
    raises [ZeroDivisionError] instead of returning. *)
Theorem print_final_summary_zero_total (summary : list (string * stats)) :
  total_available_sum summary = Some 0 ->
  snd (print_final_summary summary) = Raise ZeroDivisionError.
Proof.
  intros Hsum. unfold print_final_summary.
  destruct (summary_totals_int summary 0 0 0 Hsum) as [tf Htf].
  destruct (summary_totals summary (NInt 0) 0) as [lines totals].
  simpl in Htf. subst totals. reflexivity.
Qed.

End Reports.

(** ** parser.py *)

Lemma parse_activities_returns (v : json) :
  exists code description, parse_activities v = Return (code, description).
Proof.
  unfold parse_activities.
  destruct (parse_activities_try v) as [[code description] | e]; eauto.
Qed.

Lemma parse_activities_undecodable (v : json) (e : exn) :
  py_json_loads v = Raise e -> parse_activities v = Return (JNull, JNull).
Proof.
  unfold parse_activities, parse_activities_try. now intros ->.
Qed.

(** C9. [parse_activities] returns a pair for every argument: it never
    raises.  The pair is [(None, None)] when the argument is not text or
    is not JSON, when it decodes to something that is not a list, when the
    list is empty, and when the first element of the list is not an object
    holding both keys [NIC5DigitId] and [Description]. *)
Theorem parse_activities_total (v : json) :
  (exists code description, parse_activities v = Return (code, description)) /\
  (forall e, py_json_loads v = Raise e ->
     parse_activities v = Return (JNull, JNull)) /\
  (forall x, py_json_loads v = Return x ->
     (forall items, x <> JArr items) ->
     parse_activities v = Return (JNull, JNull)) /\
  (py_json_loads v = Return (JArr []) ->
     parse_activities v = Return (JNull, JNull)) /\
  (forall first rest, py_json_loads v = Return (JArr (first :: rest)) ->
     (forall d, first = JObj d ->
        dict_get d "NIC5DigitId" = None \/ dict_get d "Description" = None) ->
     parse_activities v = Return (JNull, JNull)).
Proof.
  split; [apply parse_activities_returns |].
  split; [apply parse_activities_undecodable |].
  unfold parse_activities, parse_activities_try.
  split; [| split].
  - intros x -> Hx. simpl.
    destruct x as [| | | | | items |]; try reflexivity.
    now destruct (Hx items).
  - now intros ->.
  - intros first rest -> Hfirst. simpl. unfold subscript.
    destruct first as [| | | | | | d]; try reflexivity.
    destruct (Hfirst d eq_refl) as [-> | Hd]; [reflexivity |].
    destruct (dict_get d "NIC5DigitId"); simpl; [| reflexivity].
    now rewrite Hd.
Qed.

(** *** Tables keyed by text *)

Lemma dict_get_set_eq {V} (d : list (string * V)) k v :
  dict_get (dict_set d k v) k = Some v.
Proof.
  induction d as [| [k' v'] d IH]; simpl.
  - now rewrite String.eqb_refl.
  - destruct (String.eqb k' k) eqn:E; simpl.
    + now rewrite String.eqb_refl.
    + now rewrite E.
Qed.

Lemma dict_get_set_ne {V} (d : list (string * V)) k k' v :
  k <> k' -> dict_get (dict_set d k v) k' = dict_get d k'.
Proof.
  intros Hne. induction d as [| [k0 v0] d IH]; simpl.
  - now apply String.eqb_neq in Hne as ->.
  - destruct (String.eqb k0 k) eqn:E; simpl.
    + apply String.eqb_eq in E as ->.
      now apply String.eqb_neq in Hne as ->.
    + now rewrite IH.
Qed.

Lemma dict_get_del_eq {V} (d : list (string * V)) k :
  dict_get (dict_del d k) k = None.
Proof.
  induction d as [| [k' v'] d IH]; simpl; [reflexivity |].
  destruct (String.eqb k' k) eqn:E; simpl; [assumption |].
  now rewrite E.
Qed.

Lemma dict_get_del_ne {V} (d : list (string * V)) k k' :
  k <> k' -> dict_get (dict_del d k) k' = dict_get d k'.
Proof.
  intros Hne. induction d as [| [k0 v0] d IH]; simpl; [reflexivity |].
  destruct (String.eqb k0 k) eqn:E; simpl.
  - apply String.eqb_eq in E as ->.
    now apply String.eqb_neq in Hne as ->.
  - now rewrite IH.
Qed.

Lemma dict_get_tabulate {V} (f : string -> V) (keys : list string) k :
  In k keys -> dict_get (map (fun key => (key, f key)) keys) k = Some (f k).
Proof.
  induction keys as [| key keys IH]; simpl; [contradiction |].
  intros Hin. destruct (String.eqb key k) eqn:E.
  - now apply String.eqb_eq in E as ->.
  - destruct Hin as [-> | Hin]; [| now apply IH].
    now rewrite String.eqb_refl in E.
Qed.

Lemma lookup_map {A B} (f : A -> B) (l : list A) (i : nat) :
  map f l !! i = f <$> l !! i.
Proof.
  revert i. induction l as [| x l IH]; intros [| i]; simpl; auto.
Qed.

(** *** The columns of a frame *)

Lemma add_columns_keeps columns record c :
  In c columns -> In c (add_columns columns record).
Proof.
  unfold add_columns. revert columns.
  induction record as [| [k v] record IH]; intros columns Hin; simpl;
    [assumption |].
  apply IH. destruct (existsb (String.eqb k) columns); [assumption |].
  apply in_or_app. now left.
Qed.

Lemma add_columns_has_key columns (record : dict) c v :
  dict_get record c = Some v -> In c (add_columns columns record).
Proof.
  unfold add_columns. revert columns.
  induction record as [| [k v'] record IH]; intros columns Hget; simpl in *;
    [discriminate |].
  destruct (String.eqb k c) eqn:E.
  - apply String.eqb_eq in E as ->.
    apply (add_columns_keeps _ record).
    destruct (existsb (String.eqb c) columns) eqn:Ex.
    + apply existsb_exists in Ex as (x & Hx & Heq).
      now apply String.eqb_eq in Heq as ->.
    + apply in_or_app. right. now left.
  - now apply IH.
Qed.

Lemma columns_of_records (records : list dict) :
  forall columns row record c v,
    records !! row = Some record ->
    dict_get record c = Some v ->
    In c (fold_left add_columns records columns).
Proof.
  assert (Hkeep : forall (rs : list dict) columns c,
            In c columns -> In c (fold_left add_columns rs columns)).
  { induction rs as [| r rs IH]; intros columns c Hin; simpl; [assumption |].
    now apply IH, add_columns_keeps. }
  induction records as [| r records IH];
    intros columns [| row] record c v Hrow Hget; simpl in *; try discriminate.
  - injection Hrow as ->. now apply Hkeep, (add_columns_has_key _ _ _ v).
  - now apply (IH _ row record c v).
Qed.

Lemma DataFrame_column (records : list dict) row record c v :
  records !! row = Some record ->
  dict_get record c = Some v ->
  exists cells,
    dict_get (DataFrame_of_records records) c = Some cells /\
    cells !! row = Some v.
Proof.
  intros Hrow Hget. unfold DataFrame_of_records.
  rewrite (dict_get_tabulate
             (fun column =>
                map (fun r => default missing (dict_get r column)) records))
    by now apply (columns_of_records _ _ row record c v).
  eexists. split; [reflexivity |].
  rewrite lookup_map. unfold dict in *. rewrite Hrow. simpl.
  now rewrite Hget.
Qed.

Lemma series_apply_lookup {A} (f : json -> result A) (cells : list json) :
  (forall cell, exists x, f cell = Return x) ->
  exists xs,
    series_apply f cells = Return xs /\
    forall row cell, cells !! row = Some cell ->
      exists x, xs !! row = Some x /\ f cell = Return x.
Proof.
  intros Htotal. induction cells as [| cell cells (xs & Hxs & Hlookup)]; simpl.
  - exists []. split; [reflexivity |]. intros row cell H. discriminate.
  - destruct (Htotal cell) as [x Hx]. rewrite Hx, Hxs. simpl.
    exists (x :: xs). split; [reflexivity |].
    intros [| row] cell' Hrow; simpl in *.
    + injection Hrow as <-. eauto.
    + now apply Hlookup.
Qed.

(** What [flatten] gives for a row whose [Activities] is [text]. *)
Lemma flatten_row (records : list dict) row record text code description :
  records !! row = Some record ->
  dict_get record "Activities" = Some (JStr text) ->
  parse_activities (JStr text) = Return (code, description) ->
  exists df,
    flatten records = Return df /\
    df_cell df "NIC5Digit_code" row = Some code /\
    df_cell df "Activity_Description" row = Some description /\
    dict_get df "Activities" = None.
Proof.
  intros Hrow Hget Hparse. unfold flatten.
  destruct (DataFrame_column records row record _ _ Hrow Hget)
    as (cells & Hcells & Hcell).
  unfold df_getitem. rewrite Hcells. simpl.
  destruct (series_apply_lookup parse_activities cells) as (ps & Hps & Hlookup).
  { intros cell. destruct (parse_activities_returns cell) as (a & b & H).
    eauto. }
  rewrite Hps. simpl. unfold df_delitem.
  rewrite dict_get_set_ne, dict_get_set_ne, Hcells by discriminate.
  eexists. split; [reflexivity |].
  destruct (Hlookup row _ Hcell) as (p & Hp & Hparse').
  rewrite Hparse in Hparse'. injection Hparse' as <-.
  unfold df_cell.
  rewrite !dict_get_del_ne, dict_get_del_eq by discriminate.
  rewrite dict_get_set_eq, dict_get_set_ne, dict_get_set_eq by discriminate.
  simpl. rewrite !lookup_map, Hp. auto.
Qed.

(** C8. In the table that the script writes, the row of a record whose
    [Activities] is the text with the one activity 01111, Growing of
    cereals, has [NIC5Digit_code = "01111"] and [Activity_Description =
    "Growing of cereals"]; the row of a record whose [Activities] is the
    text of the empty list, or a text that is not JSON, has [None] in both
    columns; and the table has no column [Activities]. *)
Theorem flatten_activities (records : list dict) (row : nat) (record : dict) :
  records !! row = Some record ->
  (dict_get record "Activities" = Some (JStr cereal_activities) ->
   exists df,
     flatten records = Return df /\
     df_cell df "NIC5Digit_code" row = Some (JStr "01111") /\
     df_cell df "Activity_Description" row = Some (JStr "Growing of cereals") /\
     dict_get df "Activities" = None) /\
  (forall text,
     dict_get record "Activities" = Some (JStr text) ->
     text = "[]" \/ (exists e, json_loads text = Raise e) ->
     exists df,
       flatten records = Return df /\
       df_cell df "NIC5Digit_code" row = Some JNull /\
       df_cell df "Activity_Description" row = Some JNull /\
       dict_get df "Activities" = None).
Proof.
  intros Hrow. split.
  - intros Hget. apply (flatten_row records row record cereal_activities);
      [assumption | assumption |]. vm_compute. reflexivity.
  - intros text Hget Htext.
    apply (flatten_row records row record text); [assumption | assumption |].
    destruct Htext as [-> | [e He]]; [vm_compute; reflexivity |].
    now apply (parse_activities_undecodable (JStr text) e).
Qed.

(** ** The URLs of [main] *)

Lemma append_assoc (a b c : string) : (a +:+ b) +:+ c = a +:+ (b +:+ c).
Proof.
  induction a as [| x a IH]; [reflexivity |].
  change (String x ((a +:+ b) +:+ c) = String x (a +:+ b +:+ c)).
  now rewrite IH.
Qed.

Lemma append_nil_r (s : string) : s +:+ "" = s.
Proof.
  induction s as [| c s IH]; [reflexivity |].
  change (String c (s +:+ "") = String c s). now rewrite IH.
Qed.

Lemma without_char_append x a b :
  without_char x (a +:+ b) = without_char x a && without_char x b.
Proof.
  induction a as [| c a IH]; [reflexivity |].
  change (negb (Ascii.eqb x c) && without_char x (a +:+ b)
          = negb (Ascii.eqb x c) && without_char x a && without_char x b).
  now rewrite IH, andb_assoc.
Qed.

(** A stretch of text without the first character of [old] is passed
    over. *)
Lemma replace_from_passes (o : ascii) (old' new a b : string) :
  without_char o a = true ->
  replace_from (String o old') new O (a +:+ b)
  = a +:+ replace_from (String o old') new O b.
Proof.
  induction a as [| c a IH]; [reflexivity |].
  intros [Hc Ha]%andb_prop.
  change (replace_from (String o old') new 0 (String c (a +:+ b))
          = String c (a +:+ replace_from (String o old') new 0 b)).
  cbn [replace_from starts_with].
  apply negb_true_iff in Hc. rewrite Hc. now rewrite IH.
Qed.

Lemma string_of_uint_digits (x : ascii) (d : Decimal.uint) :
  without_char x "0123456789" = true ->
  without_char x (NilEmpty.string_of_uint d) = true.
Proof.
  intros Hx. cbn in Hx.
  repeat (apply andb_prop in Hx as [?Hd Hx]).
  induction d; cbn; rewrite ?IHd, ?andb_true_r; assumption || reflexivity.
Qed.

Lemma nilzero_string_of_uint_digits (x : ascii) (d : Decimal.uint) :
  without_char x "0123456789" = true ->
  without_char x (NilZero.string_of_uint d) = true.
Proof.
  intros Hx. destruct d; try now apply string_of_uint_digits.
  cbn in *. apply andb_prop in Hx as [-> _]. reflexivity.
Qed.

Lemma str_of_int_chars (x : ascii) (n : Z) :
  without_char x "-0123456789" = true ->
  without_char x (str_of_int n) = true.
Proof.
  intros Hx. cbn [without_char] in Hx. apply andb_prop in Hx as [Hsign Hx].
  unfold str_of_int, NilZero.string_of_int.
  destruct (Z.to_int n) as [d | d].
  - now apply nilzero_string_of_uint_digits.
  - cbn [without_char]. rewrite Hsign.
    now apply nilzero_string_of_uint_digits.
Qed.

Lemma byte_value_bound (c : ascii) : 0 <= byte_value c < 256.
Proof. unfold byte_value. pose proof (N_ascii_bounded c). lia. Qed.

Lemma continuation_value (c : ascii) :
  continuation c = true -> 128 <= byte_value c < 192.
Proof.
  unfold continuation, ascii_between, byte_value.
  intros [Hlo Hhi]%andb_prop. apply N.leb_le in Hlo, Hhi. lia.
Qed.

Lemma code_points_values_upto (n : nat) (s : string) :
  (String.length s <= n)%nat -> Forall text_value (code_points s).
Proof.
  revert s. induction n as [| n IH]; intros s Hn.
  - destruct s; [constructor | simpl in Hn; lia].
  - destruct s as [| b0 s1]; [constructor |].
    cbn [String.length] in Hn.
    assert (Forall text_value (code_points s1)) as H1 by (apply IH; lia).
    pose proof (byte_value_bound b0) as Hb0.
    cbn [code_points].
    destruct (Z.ltb_spec (byte_value b0) 128) as [| H128];
      [constructor; [left; lia | exact H1] |].
    assert (Forall text_value ((1114112 + byte_value b0) :: code_points s1))
      as Hstray by (constructor; [right; lia | exact H1]).
    destruct (Z.ltb_spec (byte_value b0) 192); [exact Hstray |].
    destruct (Z.ltb_spec (byte_value b0) 224).
    { destruct s1 as [| b1 s2]; [exact Hstray |].
      destruct (continuation b1) eqn:Hc1; [| exact Hstray].
      apply continuation_value in Hc1.
      constructor; [left; lia | apply IH; cbn [String.length] in Hn; lia]. }
    destruct (Z.ltb_spec (byte_value b0) 240).
    { destruct s1 as [| b1 [| b2 s3]]; try exact Hstray.
      destruct (continuation b1) eqn:Hc1; [| exact Hstray].
      destruct (continuation b2) eqn:Hc2; [| exact Hstray].
      apply continuation_value in Hc1, Hc2. cbn [andb].
      constructor; [left; lia | apply IH; cbn [String.length] in Hn; lia]. }
    destruct (Z.ltb_spec (byte_value b0) 248); [| exact Hstray].
    destruct s1 as [| b1 [| b2 [| b3 s4]]]; try exact Hstray.
    destruct (continuation b1) eqn:Hc1; [| exact Hstray].
    destruct (continuation b2) eqn:Hc2; [| exact Hstray].
    destruct (continuation b3) eqn:Hc3; [| exact Hstray].
    apply continuation_value in Hc1, Hc2, Hc3. cbn [andb].
    match goal with
    | |- context [?u <? 1114112] =>
        destruct (Z.ltb_spec u 1114112) as [Hu |]; [| exact Hstray]
    end.
    constructor; [left; lia | apply IH; cbn [String.length] in Hn; lia].
Qed.

Lemma code_points_values (s : string) : Forall text_value (code_points s).
Proof. now apply (code_points_values_upto (String.length s)). Qed.

Lemma upper_case_points_checked :
  forallb uppers_without_l
          (case_points uppercase_special uppercase_ranges) = true.
Proof. vm_compute. reflexivity. Qed.

Lemma to_upper_full_values (c : Z) :
  text_value c ->
  Forall (fun d => text_value d /\ d <> 0x6C) (to_upper_full c).
Proof.
  intros Hc.
  destruct (case_form uppercase_special uppercase_ranges c) as [form |]
    eqn:Hform.
  - apply case_form_in in Hform; [| vm_compute; reflexivity].
    pose proof (proj1 (forallb_forall _ _) upper_case_points_checked c Hform)
      as Hcheck.
    apply List.Forall_forall. intros d Hd.
    pose proof (proj1 (forallb_forall _ _) Hcheck d Hd) as Hcheck'.
    apply andb_prop in Hcheck' as [Hrange Hl].
    apply andb_prop in Hrange as [Hlo Hhi].
    apply negb_true_iff in Hl. split; [left |]; lia.
  - unfold to_upper_full. rewrite Hform. cbn [default].
    constructor; [| constructor]. split; [exact Hc |].
    intros ->. vm_compute in Hform. discriminate.
Qed.

Lemma byte_of_other (x : ascii) (n : Z) :
  0 <= n < 256 -> n <> byte_value x -> Ascii.eqb x (byte_of n) = false.
Proof.
  intros Hn Hx. apply Ascii.eqb_neq. intros ->. apply Hx.
  now rewrite byte_value_byte_of.
Qed.

Lemma str_of_without_l (l : list Z) :
  Forall (fun d => text_value d /\ d <> 0x6C) l ->
  without_char "l" (str_of l) = true.
Proof.
  induction 1 as [| u l [Hu Hl] _ IH]; [reflexivity |].
  cbn [str_of]. rewrite without_char_append, IH, andb_true_r.
  change (byte_value "l") with 108 in *.
  destruct (Z.ltb_spec u 1114112) as [Hcp | Hstray].
  - assert (0 <= u < 1114112) as Hrange by (destruct Hu; lia).
    unfold utf8.
    pose proof (Z.mod_pos_bound u 64 ltac:(lia)).
    pose proof (Z.mod_pos_bound (u / 64) 64 ltac:(lia)).
    pose proof (Z.mod_pos_bound (u / 4096) 64 ltac:(lia)).
    destruct (Z.ltb_spec u 128); [| destruct (Z.ltb_spec u 2048);
      [| destruct (Z.ltb_spec u 65536)]];
      cbn [without_char].
    + rewrite byte_of_other by (change (byte_value "l") with 108; lia).
      reflexivity.
    + assert (0 <= u / 64 < 32)
        by (split; [apply Z.div_pos | apply Z.div_lt_upper_bound]; lia).
      rewrite !byte_of_other by (change (byte_value "l") with 108; lia).
      reflexivity.
    + assert (0 <= u / 4096 < 16)
        by (split; [apply Z.div_pos | apply Z.div_lt_upper_bound]; lia).
      rewrite !byte_of_other by (change (byte_value "l") with 108; lia).
      reflexivity.
    + assert (0 <= u / 262144 < 8)
        by (split; [apply Z.div_pos | apply Z.div_lt_upper_bound]; lia).
      rewrite !byte_of_other by (change (byte_value "l") with 108; lia).
      reflexivity.
  - cbn [without_char].
    rewrite byte_of_other
      by (change (byte_value "l") with 108; destruct Hu; lia).
    reflexivity.
Qed.

Lemma upper_without_lower (s : string) : without_char "l" (upper s) = true.
Proof.
  unfold upper. apply str_of_without_l.
  pose proof (code_points_values s) as Hs.
  induction Hs as [| c l Hc _ IH]; [constructor |].
  cbn [flat_map]. apply Forall_app. split; [| exact IH].
  now apply to_upper_full_values.
Qed.

(** The URL of a page and the URL of the total, for the [BASE_URL] of
    [main]. *)
Lemma main_batch_url (district : string) (offset limit : Z) :
  batch_url main_base_url district offset limit
  = main_endpoint +:+ "limit=" +:+ str_of_int limit
      +:+ "&offset=" +:+ str_of_int offset
      +:+ "&filters%5BDistrict%5D=" +:+ upper district.
Proof.
  unfold batch_url, replace.
  set (new := "limit=" +:+ str_of_int limit +:+ "&offset="
                +:+ str_of_int offset).
  change (replace_from "limit=1000" new 0 main_base_url)
    with (main_endpoint +:+ new +:+ "&filters%5BDistrict%5D=LATUR").
  change (replace_from "LATUR" (upper district) 0
            (main_endpoint +:+ new +:+ "&filters%5BDistrict%5D=LATUR"))
    with (main_endpoint +:+
          replace_from "LATUR" (upper district) 0
            (new +:+ "&filters%5BDistrict%5D=LATUR")).
  rewrite replace_from_passes.
  - change (replace_from "LATUR" (upper district) 0
              "&filters%5BDistrict%5D=LATUR")
      with ("&filters%5BDistrict%5D=" +:+ upper district +:+ "").
    rewrite append_nil_r. subst new. now rewrite !append_assoc.
  - subst new. rewrite !without_char_append.
    rewrite !str_of_int_chars by reflexivity. reflexivity.
Qed.

Lemma main_total_url (district : string) :
  total_url main_base_url district
  = main_endpoint +:+ "limit=1&filters%5BDistrict%5D=" +:+ upper district.
Proof.
  unfold total_url, replace.
  change (replace_from "LATUR" (upper district) 0 main_base_url)
    with (main_endpoint +:+ "limit=1000&filters%5BDistrict%5D="
            +:+ upper district +:+ "").
  rewrite append_nil_r.
  change (replace_from "limit=1000" "limit=1" 0
            (main_endpoint +:+ "limit=1000&filters%5BDistrict%5D="
               +:+ upper district))
    with (main_endpoint +:+ "limit=1&filters%5BDistrict%5D=" +:+
          replace_from "limit=1000" "limit=1" 0 (upper district)).
  rewrite <- (append_nil_r (upper district)) at 1.
  rewrite replace_from_passes by apply upper_without_lower.
  now rewrite append_nil_r.
Qed.

(** ** [fetch_all_district_data] *)

Lemma bind_returns {A B} (m : M A) (k : A -> M B) w b w' :
  (m ≫= k) w = (Return b, w') ->
  exists a w1, m w = (Return a, w1) /\ k a w1 = (Return b, w').
Proof.
  unfold mbind, M_bind. destruct (m w) as [[a | e] w1]; [eauto | discriminate].
Qed.

Lemma preserves_scope_ret {A} (a : A) : preserves_scope (mret a).
Proof. now intros w. Qed.

Lemma preserves_scope_lift {A} (r : result A) : preserves_scope (lift r).
Proof. now intros w. Qed.

Lemma preserves_scope_sleep seconds : preserves_scope (sleep seconds).
Proof. now intros w. Qed.

Lemma preserves_scope_bind {A B} (m : M A) (k : A -> M B) :
  preserves_scope m -> (forall a, preserves_scope (k a)) ->
  preserves_scope (m ≫= k).
Proof.
  intros Hm Hk w. unfold mbind, M_bind. specialize (Hm w).
  destruct (m w) as [[a | e] w1]; simpl in *; [| assumption].
  now rewrite Hk.
Qed.

Lemma preserves_scope_try {A} (body : M A) (handler : exn -> M A) :
  preserves_scope body -> (forall e, preserves_scope (handler e)) ->
  preserves_scope (try_except body handler).
Proof.
  intros Hm Hk w. unfold try_except. specialize (Hm w).
  destruct (body w) as [[a | e] w1]; simpl in *; [assumption |].
  now rewrite Hk.
Qed.

Create HintDb scope discriminated.
#[local] Hint Resolve preserves_scope_ret preserves_scope_lift
  preserves_scope_sleep : scope.

Section FetchAll.

Context (server : string -> nat -> http_outcome) (py_repr : json -> string)
        (base_url : string).

Lemma preserves_scope_requests_get url :
  preserves_scope (requests_get server url).
Proof.
  intros w. unfold requests_get.
  destruct (server url (clock w)) as [| status body]; [reflexivity |].
  now destruct ((400 <=? status) && (status <? 600)).
Qed.

Lemma preserves_scope_exchange url field dflt :
  preserves_scope
    (body ← requests_get server url;
     data ← lift (response_json body);
     lift (data_get data field dflt)).
Proof.
  apply preserves_scope_bind; [apply preserves_scope_requests_get |].
  intros body. apply preserves_scope_bind; auto with scope.
Qed.

Lemma preserves_scope_get_total_records district :
  preserves_scope (get_total_records server base_url district).
Proof.
  apply preserves_scope_try; [apply preserves_scope_exchange |].
  auto with scope.
Qed.

Lemma preserves_scope_fetch_batch district offset limit max_retries :
  preserves_scope (fetch_batch server base_url district offset limit max_retries).
Proof.
  unfold fetch_batch. generalize (seqZ 0 max_retries) as attempts.
  induction attempts as [| attempt later IH]; simpl; [auto with scope |].
  apply preserves_scope_try; [apply preserves_scope_exchange |].
  intros e. destruct (isinstance_RequestException e).
  - destruct (attempt <? max_retries - 1); [| auto with scope].
    apply preserves_scope_bind; auto with scope.
  - destruct (isinstance_JSONDecodeError e); auto with scope.
Qed.

(** The inner loop keeps the accumulated records distinct. *)
Lemma filter_duplicates_distinct scope all_records items :
  forall unique w out w',
    filter_duplicates py_repr items unique w = (Return out, w') ->
    fresh_distinct_keys (generate_record_id py_repr) scope (all_records ++ unique) w ->
    fresh_distinct_keys (generate_record_id py_repr) scope (all_records ++ out) w'.
Proof.
  induction items as [| record later IH]; intros unique w out w' Hrun Hinv;
    simpl in Hrun.
  - now injection Hrun as <- <-.
  - destruct record as [| | | | | | d]; try discriminate.
    apply bind_returns in Hrun as (duplicate & w1 & Hdup & Hrun).
    apply (IH _ _ _ _ Hrun). clear IH Hrun.
    unfold is_duplicate_record in Hdup.
    destruct (decide (generate_record_id py_repr d ∈ processed_records w)) as [Hseen | Hnew];
      injection Hdup as <- <-; [assumption |].
    destruct Hinv as (Hnodup & Hkeys & Hscope).
    rewrite app_assoc. split; [| split].
    + rewrite map_app. simpl. apply NoDup_app. split; [assumption |].
      split; [| apply NoDup_singleton].
      intros x Hx ->%list_elem_of_singleton.
      apply list_elem_of_In, in_map_iff in Hx as (r & Hr & Hin).
      apply Hkeys in Hin as [Hin _]. now rewrite Hr in Hin.
    + intros r [Hin | [<- | []]]%in_app_or; simpl.
      * destruct (Hkeys r Hin). split; [now apply elem_of_union_l | assumption].
      * split; [now apply elem_of_union_r, elem_of_singleton |].
        intros Hd. apply Hnew. now apply Hscope.
    + simpl. etrans; [exact Hscope | apply union_subseteq_l].
Qed.

Lemma fresh_distinct_keys_scope scope records w w' :
  processed_records w' = processed_records w ->
  fresh_distinct_keys (generate_record_id py_repr) scope records w ->
  fresh_distinct_keys (generate_record_id py_repr) scope records w'.
Proof. unfold fresh_distinct_keys. now intros ->. Qed.

(** So does the loop over the batches. *)
Lemma fetch_batches_distinct scope district batch_size max_retries total_batches
    batches :
  forall all_records w out w',
    fetch_batches server py_repr base_url district batch_size max_retries
      total_batches batches all_records w = (Return out, w') ->
    fresh_distinct_keys (generate_record_id py_repr) scope all_records w ->
    fresh_distinct_keys (generate_record_id py_repr) scope out w'.
Proof.
  induction batches as [| batch later IH]; intros all_records w out w' Hrun Hinv;
    simpl in Hrun.
  - now injection Hrun as <- <-.
  - apply bind_returns in Hrun as (batch_records & w1 & Hbatch & Hrun).
    apply bind_returns in Hrun as (all_records' & w2 & Hfilter & Hrun).
    apply bind_returns in Hrun as ([] & w3 & Hsleep & Hrun).
    apply (IH _ _ _ _ Hrun). clear IH Hrun.
    apply (fresh_distinct_keys_scope _ _ w2).
    { destruct (batch <? total_batches - 1).
      - now rewrite <- (preserves_scope_sleep (NInt 1) w2), Hsleep.
      - now injection Hsleep as <-. }
    assert (Hinv1 : fresh_distinct_keys (generate_record_id py_repr) scope all_records w1).
    { apply (fresh_distinct_keys_scope _ _ w); [| assumption].
      now rewrite <- (preserves_scope_fetch_batch district (batch * batch_size)
                        batch_size max_retries w), Hbatch. }
    destruct (truthy batch_records).
    + apply bind_returns in Hfilter as (items & w1' & Hitems & Hfilter).
      apply bind_returns in Hfilter as (unique & w1'' & Hfilter & Hret).
      injection Hret as <- <-.
      unfold lift in Hitems. injection Hitems as _ <-.
      apply (filter_duplicates_distinct scope all_records items [] w1);
        [assumption |]. now rewrite app_nil_r.
    + now injection Hfilter as <- <-.
Qed.

(** C10. The records that [fetch_all_district_data] returns have pairwise
    distinct keys, and none of these keys was in [processed_records] when
    the call started; this holds whatever the scope at the start, the
    empty one in particular. *)
Theorem fetch_all_district_data_distinct_keys
    (district : string) (batch_size max_retries : Z)
    (w w' : world) (records : list dict) :
  fetch_all_district_data server py_repr base_url district batch_size
    max_retries w = (Return records, w') ->
  NoDup (map (generate_record_id py_repr) records) /\
  (forall r, In r records ->
     generate_record_id py_repr r ∉ processed_records w).
Proof.
  intros Hrun. unfold fetch_all_district_data in Hrun.
  apply bind_returns in Hrun as (total_records & w1 & Htotal & Hrun).
  assert (Hscope : processed_records w1 = processed_records w).
  { now rewrite <- (preserves_scope_get_total_records district w), Htotal. }
  destruct (py_eq_zero total_records).
  - injection Hrun as <- <-. split; [constructor | intros r []].
  - apply bind_returns in Hrun as (total_batches & w2 & Hcount & Hrun).
    unfold lift in Hcount. injection Hcount as _ <-.
    apply (fetch_batches_distinct (processed_records w)) in Hrun.
    + destruct Hrun as (Hnodup & Hkeys & _). split; [assumption |].
      intros r Hr. now apply Hkeys.
    + split; [constructor |]. split; [intros r [] |]. now rewrite Hscope.
Qed.

Lemma get_total_records_answered district w reply total :
  answers server (total_url base_url district) (clock w) reply ->
  dict_get reply "total" = Some total ->
  get_total_records server base_url district w =
    (Return total,
     World (processed_records w) (S (clock w))
       (trace w ++ [Get (total_url base_url district)])).
Proof.
  intros (body & Hbody & Hjson) Htotal.
  unfold get_total_records, try_except, mbind, M_bind.
  rewrite (requests_get_completes server _ _ body Hbody).
  unfold lift. rewrite Hjson. simpl. now rewrite Htotal.
Qed.

Lemma fetch_batch_answered district offset limit max_retries w reply :
  0 < max_retries ->
  answers server (batch_url base_url district offset limit) (clock w) reply ->
  fetch_batch server base_url district offset limit max_retries w =
    (Return (default (JArr []) (dict_get reply "records")),
     World (processed_records w) (S (clock w))
       (trace w ++ [Get (batch_url base_url district offset limit)])).
Proof.
  intros Hretries (body & Hbody & Hjson). unfold fetch_batch.
  rewrite seqZ_cons by assumption. simpl.
  unfold try_except, mbind, M_bind.
  rewrite (requests_get_completes server _ _ body Hbody).
  unfold lift. now rewrite Hjson.
Qed.



End FetchAll.


(** * Properties of failures, edge cases and whole runs *)

(** ** One request: [get_total_records] and [fetch_batch] *)

Lemma outcome_cases (o : http_outcome) :
  request_fails o = true \/ exists body, completes_with o body.
Proof.
  destruct o as [| status body]; [now left |].
  destruct (request_fails (HttpResponse status body)) eqn:E; [now left |].
  right. exists body, status. now split.
Qed.

Lemma attempt_cases (o : http_outcome) :
  attempt_fails o \/
  exists body data, completes_with o body /\ response_json body = Return data.
Proof.
  destruct (outcome_cases o) as [Hfail | [body Hbody]]; [now left; left |].
  destruct (response_json body) as [data | e] eqn:E.
  - right. now exists body, data.
  - left. right. exists body. split; [assumption |].
    intros data. rewrite E. discriminate.
Qed.

Section Requests.

Context (server : string -> nat -> http_outcome) (base_url : string).

Lemma get_total_records_run (district : string) (w : world) :
  get_total_records server base_url district w =
    (Return (reported_total
               (server (total_url base_url district) (clock w))),
     World (processed_records w) (S (clock w))
       (trace w ++ [Get (total_url base_url district)])).
Proof.
  unfold get_total_records, try_except, mbind, M_bind.
  destruct (outcome_cases (server (total_url base_url district) (clock w)))
    as [Hfail | [body Hbody]].
  - rewrite (requests_get_fails _ _ _ Hfail).
    unfold reported_total.
    destruct (server _ _) as [| status body]; [reflexivity |].
    now rewrite Hfail.
  - rewrite (requests_get_completes _ _ _ body Hbody).
    destruct Hbody as (status & -> & Hok).
    unfold reported_total. rewrite Hok. unfold lift.
    destruct (response_json body) as [[| | | | | |reply] | e]; reflexivity.
Qed.

(** X1. [get_total_records] never raises and makes exactly one request,
    for the URL of the total.  It returns 0 when the request fails and
    when the answer is not a JSON object, and otherwise the [total] of the
    object, or 0 if the object has none. *)
Theorem get_total_records_never_raises (district : string) (w : world) :
  let o := server (total_url base_url district) (clock w) in
  exists total,
    get_total_records server base_url district w =
      (Return total,
       World (processed_records w) (S (clock w))
         (trace w ++ [Get (total_url base_url district)])) /\
    (request_fails o = true -> total = JInt 0) /\
    (forall body, completes_with o body ->
       (forall reply, response_json body <> Return (JObj reply)) ->
       total = JInt 0) /\
    (forall body reply, completes_with o body ->
       response_json body = Return (JObj reply) ->
       total = default (JInt 0) (dict_get reply "total")).
Proof.
  intros o. exists (reported_total o).
  split; [apply get_total_records_run |]. subst o.
  destruct (server _ _) as [| status body]; simpl.
  - split; [reflexivity |].
    split; intros b; intros; destruct H as (s & Hs & _); discriminate.
  - split; [now intros -> |].
    split.
    + intros b (s & [= <- <-] & Hok) Hnot. simpl in Hok. rewrite Hok.
      destruct (response_json body) as [[| | | | | | reply] | e];
        try reflexivity.
      now destruct (Hnot reply).
    + intros b reply (s & [= <- <-] & Hok) Hjson. simpl in Hok.
      now rewrite Hok, Hjson.
Qed.

(** An attempt whose request completes with a body that decodes ends the
    call. *)
Lemma fetch_batch_attempt_completes
    url max_retries attempt later w body data :
  completes_with (server url (clock w)) body ->
  response_json body = Return data ->
  fetch_batch_attempts server url max_retries (attempt :: later) w =
    (Return match data with
            | JObj reply => default (JArr []) (dict_get reply "records")
            | _ => JArr []
            end,
     World (processed_records w) (S (clock w)) (trace w ++ [Get url])).
Proof.
  intros Hbody Hjson. simpl. unfold try_except, mbind, M_bind.
  rewrite (requests_get_completes _ _ _ body Hbody). unfold lift.
  rewrite Hjson. destruct data; reflexivity.
Qed.

(** The last attempt, when its request fails, gives the empty list. *)
Lemma fetch_batch_attempt_gives_up url max_retries attempt later w :
  request_fails (server url (clock w)) = true ->
  max_retries - 1 <= attempt ->
  fetch_batch_attempts server url max_retries (attempt :: later) w =
    (Return (JArr []),
     World (processed_records w) (S (clock w)) (trace w ++ [Get url])).
Proof.
  intros Hfail Hlast. simpl. unfold try_except, mbind, M_bind.
  rewrite (requests_get_fails _ _ _ Hfail). simpl.
  now apply Z.ltb_ge in Hlast as ->.
Qed.

Lemma fetch_batch_attempts_shape url max_retries (n : nat) :
  forall (first : Z) (w : world),
    0 <= first ->
    max_retries - first = Z.of_nat (S n) ->
    exists (k : nat) (v : json),
      (k <= n)%nat /\
      fetch_batch_attempts server url max_retries
        (seqZ first (max_retries - first)) w =
      (Return v,
       World (processed_records w) (S (clock w + k))
         (trace w ++
          flat_map (fun attempt =>
                      [Get url; Sleep (NInt (2 ^ (first + Z.of_nat attempt)))])
                   (seq 0 k) ++ [Get url])).
Proof.
  induction n as [| n IH]; intros first w Hfirst Hlen.
  - rewrite seqZ_cons by lia.
    destruct (attempt_cases (server url (clock w)))
      as [Hfail | (body & data & Hbody & Hjson)].
    + exists O, (JArr []). split; [lia |].
      rewrite (fetch_batch_attempt_last server) by (assumption || lia).
      now rewrite Nat.add_0_r.
    + exists O. eexists. split; [lia |].
      rewrite (fetch_batch_attempt_completes _ _ _ _ _ body data Hbody Hjson).
      now rewrite Nat.add_0_r.
  - rewrite seqZ_cons by lia.
    destruct (attempt_cases (server url (clock w)))
      as [Hfail | (body & data & Hbody & Hjson)].
    + rewrite (fetch_batch_attempt_retried server) by (assumption || lia).
      replace (Z.pred (max_retries - first))
        with (max_retries - Z.succ first) by lia.
      destruct (IH (Z.succ first)
                  (World (processed_records w) (S (clock w))
                     (trace w ++ [Get url; Sleep (NInt (2 ^ first))])))
        as (k & v & Hk & ->); [lia | lia |].
      exists (S k), v. split; [lia |]. simpl. f_equal. f_equal.
      * f_equal. lia.
      * rewrite <- !app_assoc. f_equal. simpl. rewrite Z.add_0_r.
        do 2 f_equal. f_equal.
        apply flat_map_seq_shift. intros j.
        now replace (Z.succ first + Z.of_nat j)
          with (first + Z.of_nat (S j)) by lia.
    + exists O. eexists. split; [lia |].
      rewrite (fetch_batch_attempt_completes _ _ _ _ _ body data Hbody Hjson).
      now rewrite Nat.add_0_r.
Qed.

(** X2. [fetch_batch] never raises.  With [max_retries <= 0] it makes no
    request and returns [None]; otherwise, the backoff sleeps being of a
    length that [time.sleep] takes, it returns after at most [max_retries]
    requests for the URL of the page, every request but the last having
    failed and been followed by its backoff sleep. *)
Theorem fetch_batch_never_raises
    (district : string) (offset limit max_retries : Z) (w : world) :
  let url := batch_url base_url district offset limit in
  (max_retries <= 0 ->
   fetch_batch server base_url district offset limit max_retries w
   = (Return JNull, w)) /\
  (0 < max_retries ->
   (forall attempt, 0 <= attempt < max_retries - 1 ->
      sleepable (NInt (2 ^ attempt))) ->
   exists (k : nat) (v : json),
     Z.of_nat k < max_retries /\
     fetch_batch server base_url district offset limit max_retries w =
       (Return v,
        World (processed_records w) (S (clock w + k))
          (trace w ++ backoff_trace url k ++ [Get url]))).
Proof.
  intros url. unfold fetch_batch. fold url. split.
  - intros Hnone. unfold seqZ. now replace (Z.to_nat max_retries) with O by lia.
  - intros Hsome _.
    destruct (fetch_batch_attempts_shape url max_retries
                (Z.to_nat (max_retries - 1)) 0 w) as (k & v & Hk & Hrun);
      [lia | lia |].
    exists k, v. split; [lia |].
    rewrite Z.sub_0_r in Hrun. exact Hrun.
Qed.

(** X3. When each of the [max_retries] attempts fails at the request,
    [fetch_batch] returns the empty list after [max_retries] requests and
    [max_retries - 1] sleeps of 1, 2, 4, ... seconds, lengths that
    [time.sleep] is to take: no sleep follows the last attempt. *)
Theorem fetch_batch_retries_exhausted
    (district : string) (offset limit max_retries : Z) (w : world) :
  let url := batch_url base_url district offset limit in
  0 < max_retries ->
  (forall attempt, 0 <= attempt < max_retries - 1 ->
     sleepable (NInt (2 ^ attempt))) ->
  (forall j, (Z.of_nat j < max_retries) ->
     request_fails (server url (clock w + j)%nat) = true) ->
  fetch_batch server base_url district offset limit max_retries w =
    (Return (JArr []),
     World (processed_records w) (clock w + Z.to_nat max_retries)
       (trace w ++ backoff_trace url (Z.to_nat (max_retries - 1))
          ++ [Get url])).
Proof.
  intros url Hretries _ Hfails. unfold fetch_batch. fold url.
  replace max_retries with (max_retries - 0) at 2 by lia.
  rewrite (fetch_batch_after_failures server url max_retries
             (Z.to_nat (max_retries - 1)) 0 w);
    [| lia | lia | intros j Hj; apply Hfails; lia].
  rewrite seqZ_cons by lia.
  rewrite fetch_batch_attempt_gives_up; [| apply Hfails; simpl; lia | lia].
  simpl. unfold backoff_trace. rewrite <- app_assoc. do 2 f_equal. lia.
Qed.

(** X4. A response whose body is JSON but not an object (a list, a
    number, a text) ends [fetch_batch] with the empty list at once: the
    [AttributeError] of [data.get] is caught by the last handler, and no
    further attempt is made.  The response may come after failed attempts,
    whose backoff sleeps are to be of a length that [time.sleep] takes. *)
Theorem fetch_batch_not_an_object
    (district : string) (offset limit max_retries : Z) (k : nat)
    (w : world) (body : string) (data : json) :
  let url := batch_url base_url district offset limit in
  Z.of_nat k < max_retries ->
  (forall attempt, 0 <= attempt < Z.of_nat k ->
     sleepable (NInt (2 ^ attempt))) ->
  (forall j, (j < k)%nat ->
     request_fails (server url (clock w + j)%nat) = true) ->
  completes_with (server url (clock w + k)%nat) body ->
  response_json body = Return data ->
  (forall reply, data <> JObj reply) ->
  fetch_batch server base_url district offset limit max_retries w =
    (Return (JArr []),
     World (processed_records w) (S (clock w + k))
       (trace w ++ backoff_trace url k ++ [Get url])).
Proof.
  intros url Hk _ Hfails Hbody Hjson Hdata. unfold fetch_batch. fold url.
  replace max_retries with (max_retries - 0) at 2 by lia.
  rewrite (fetch_batch_after_failures server url max_retries k 0 w);
    [| lia | lia | assumption].
  rewrite seqZ_cons by lia.
  rewrite fetch_batch_attempt_completes with (body := body) (data := data);
    [| exact Hbody | exact Hjson].
  unfold backoff_trace. simpl. rewrite <- app_assoc.
  destruct data as [| | | | | | reply]; try reflexivity.
  now destruct (Hdata reply).
Qed.

End Requests.

(** ** The pages of a district: [fetch_all_district_data] *)

Section FirstOccurrences.

Context (key : dict -> string).

Lemma first_occurrences_app scope p q :
  first_occurrences key scope (p ++ q) =
    let '(k1, s1) := first_occurrences key scope p in
    let '(k2, s2) := first_occurrences key s1 q in
    (k1 ++ k2, s2).
Proof.
  revert scope. induction p as [| r p IH]; intros scope; simpl.
  - now destruct (first_occurrences key scope q).
  - destruct (decide (key r ∈ scope)); [apply IH |].
    rewrite IH.
    destruct (first_occurrences key (scope ∪ {[key r]}) p) as [k1 s1].
    now destruct (first_occurrences key s1 q).
Qed.

Lemma first_occurrences_sublist records :
  forall scope, sublist (fst (first_occurrences key scope records)) records.
Proof.
  induction records as [| r records IH]; intros scope; simpl; [constructor |].
  destruct (decide (key r ∈ scope)).
  - now apply sublist_cons.
  - specialize (IH (scope ∪ {[key r]})).
    destruct (first_occurrences key (scope ∪ {[key r]}) records).
    now apply sublist_skip.
Qed.

Lemma first_occurrences_scope records :
  forall scope x,
    x ∈ snd (first_occurrences key scope records) <->
    x ∈ scope \/ In x (map key records).
Proof.
  induction records as [| r records IH]; intros scope x; simpl.
  - tauto.
  - destruct (decide (key r ∈ scope)) as [Hin | Hnew].
    + rewrite IH. split; [tauto |]. intros [H | [<- | H]]; tauto.
    + specialize (IH (scope ∪ {[key r]}) x).
      destruct (first_occurrences key (scope ∪ {[key r]}) records).
      simpl in *. rewrite IH, elem_of_union, elem_of_singleton.
      split; [intros [[H | ->] | H]; tauto | intros [H | [<- | H]]; tauto].
Qed.

Lemma first_occurrences_new records :
  forall scope r,
    In r (fst (first_occurrences key scope records)) -> key r ∉ scope.
Proof.
  induction records as [| r0 records IH]; intros scope r; simpl; [tauto |].
  destruct (decide (key r0 ∈ scope)) as [Hin | Hnew]; [apply IH |].
  specialize (IH (scope ∪ {[key r0]}) r).
  destruct (first_occurrences key (scope ∪ {[key r0]}) records).
  simpl in *. intros [<- | H]; [assumption |].
  intros Hscope. apply (IH H). now apply elem_of_union_l.
Qed.

Lemma first_occurrences_first l1 :
  forall scope r l2,
    key r ∉ scope -> ~ In (key r) (map key l1) ->
    In r (fst (first_occurrences key scope (l1 ++ r :: l2))).
Proof.
  induction l1 as [| r0 l1 IH]; intros scope r l2 Hscope Hearlier; simpl.
  - rewrite decide_False by assumption.
    destruct (first_occurrences key (scope ∪ {[key r]}) l2). now left.
  - simpl in Hearlier.
    destruct (decide (key r0 ∈ scope)) as [Hin | Hnew].
    + apply IH; tauto.
    + specialize (IH (scope ∪ {[key r0]}) r l2).
      destruct (first_occurrences key (scope ∪ {[key r0]}) (l1 ++ r :: l2)).
      simpl in *. right. apply IH; [| tauto].
      rewrite elem_of_union, elem_of_singleton. intros [H | H]; [tauto |].
      apply Hearlier. left. now symmetry.
Qed.

End FirstOccurrences.

Section Pagination.

Context (server : string -> nat -> http_outcome) (py_repr : json -> string)
        (base_url : string).

(** The inner loop on a page of objects. *)
Lemma filter_duplicates_first (records : list dict) :
  forall unique w,
    filter_duplicates py_repr (map JObj records) unique w =
      (Return (unique ++
               fst (first_occurrences (generate_record_id py_repr)
                      (processed_records w) records)),
       World (snd (first_occurrences (generate_record_id py_repr)
                     (processed_records w) records))
         (clock w) (trace w)).
Proof.
  induction records as [| r records IH]; intros unique w; simpl.
  - rewrite app_nil_r. now destruct w.
  - unfold mbind, M_bind, is_duplicate_record.
    destruct (decide (generate_record_id py_repr r ∈ processed_records w)).
    + apply IH.
    + rewrite IH. simpl.
      destruct (first_occurrences _ _ records) as [kept scope'].
      simpl. now rewrite <- app_assoc.
Qed.

(** X5. The inner loop of [fetch_all_district_data] over a page of
    objects keeps records of the page in their order; it keeps the first
    record of every key that is not in the scope, and no record whose key
    is in the scope; afterwards the scope holds, besides what it held, the
    keys of all the records of the page. *)
Theorem filter_duplicates_keeps_first
    (records kept : list dict) (w w' : world) :
  filter_duplicates py_repr (map JObj records) [] w = (Return kept, w') ->
  sublist kept records /\
  (forall l1 r l2, records = l1 ++ r :: l2 ->
     generate_record_id py_repr r ∉ processed_records w ->
     ~ In (generate_record_id py_repr r)
          (map (generate_record_id py_repr) l1) ->
     In r kept) /\
  (forall r, In r kept ->
     generate_record_id py_repr r ∉ processed_records w) /\
  (forall x, x ∈ processed_records w' <->
     x ∈ processed_records w \/
     In x (map (generate_record_id py_repr) records)).
Proof.
  rewrite filter_duplicates_first. simpl. intros [= <- <-].
  split; [apply first_occurrences_sublist |].
  split; [intros l1 r l2 ->; apply first_occurrences_first |].
  split; [apply first_occurrences_new |].
  apply first_occurrences_scope.
Qed.

(** X6. When the total reported is 0, as it is when the request for the
    total fails, [fetch_all_district_data] returns the empty list after
    that one request: no page is asked for. *)
Theorem fetch_all_district_data_nothing_available
    (district : string) (batch_size max_retries : Z) (w : world) :
  py_eq_zero (reported_total
                (server (total_url base_url district) (clock w))) = true ->
  fetch_all_district_data server py_repr base_url district batch_size
    max_retries w =
    (Return [],
     World (processed_records w) (S (clock w))
       (trace w ++ [Get (total_url base_url district)])).
Proof.
  intros Hzero. unfold fetch_all_district_data, mbind, M_bind.
  rewrite get_total_records_run. now rewrite Hzero.
Qed.

(** X7. A reported total that is not 0 and not a number (a text, [None])
    makes [fetch_all_district_data] raise [TypeError] right after the
    request for the total; with a number, a [batch_size] of 0 makes it
    raise [ZeroDivisionError] there. *)
Theorem fetch_all_district_data_bad_total
    (district : string) (batch_size max_retries : Z) (w : world) :
  let total :=
    reported_total (server (total_url base_url district) (clock w)) in
  let w1 :=
    World (processed_records w) (S (clock w))
      (trace w ++ [Get (total_url base_url district)]) in
  py_eq_zero total = false ->
  (as_number total = None ->
   fetch_all_district_data server py_repr base_url district batch_size
     max_retries w = (Raise TypeError, w1)) /\
  (as_number total <> None -> batch_size = 0 ->
   fetch_all_district_data server py_repr base_url district batch_size
     max_retries w = (Raise ZeroDivisionError, w1)).
Proof.
  intros total w1 Hnonzero.
  unfold fetch_all_district_data, mbind, M_bind.
  rewrite get_total_records_run. fold total. rewrite Hnonzero.
  unfold lift, count_batches, expect_number. split.
  - now intros ->.
  - intros Hnumber ->. destruct (as_number total) as [[a | f] |];
      [| | contradiction].
    + reflexivity.
    + simpl. unfold float_truediv.
      now replace (float_is_zero
                     (SpecFloat.binary_normalize prec emax 0 0 false))
        with true by reflexivity.
Qed.

(** The loop over the batches when every page is answered at the first
    attempt: the pages are filtered one after the other. *)
Lemma fetch_batches_pages district batch_size max_retries total_batches :
  0 < max_retries ->
  forall (pages : list (list dict)) (first : Z) (all_records : list dict)
         (w : world),
    (forall i page, pages !! i = Some page ->
       exists reply,
         answers server
           (batch_url base_url district
              ((first + Z.of_nat i) * batch_size) batch_size)
           (clock w + i)%nat reply /\
         page_of reply page) ->
    exists events,
      fetch_batches server py_repr base_url district batch_size max_retries
        total_batches (seqZ first (Z.of_nat (length pages))) all_records w =
      (Return (all_records ++
               fst (first_occurrences (generate_record_id py_repr)
                      (processed_records w) (concat pages))),
       World (snd (first_occurrences (generate_record_id py_repr)
                     (processed_records w) (concat pages)))
         (clock w + length pages)%nat (trace w ++ events)).
Proof.
  intros Hretries.
  induction pages as [| page pages IH]; intros first all_records w Hpages.
  - exists []. simpl. rewrite !app_nil_r, Nat.add_0_r. now destruct w.
  - destruct (Hpages O page eq_refl) as (reply & Hreply & Hpage).
    rewrite Z.add_0_r, Nat.add_0_r in Hreply.
    cbn [length]. rewrite Nat2Z.inj_succ, seqZ_cons by lia.
    rewrite Z.pred_succ. cbn [fetch_batches].
    unfold mbind at 1. unfold M_bind at 1.
    rewrite (fetch_batch_answered server base_url _ _ _ _ _ reply
               Hretries Hreply).
    unfold page_of in Hpage. rewrite Hpage. simpl default.
    set (w1 := World (processed_records w) (S (clock w)) _).
    set (fo := first_occurrences (generate_record_id py_repr)
                 (processed_records w) page).
    assert (Hkeep :
      (if truthy (JArr (map JObj page))
       then items ← lift (py_iter (JArr (map JObj page)));
            unique_batch_records ← filter_duplicates py_repr items [];
            mret (all_records ++ unique_batch_records)
       else mret all_records) w1
      = (Return (all_records ++ fst fo),
         World (snd fo) (clock w1) (trace w1))).
    { destruct page as [| r page].
      - subst fo. simpl. rewrite app_nil_r. reflexivity.
      - change (truthy (JArr (map JObj (r :: page)))) with true.
        cbv iota. unfold mbind, M_bind, lift. cbn [py_iter].
        rewrite filter_duplicates_first. reflexivity. }
    unfold mbind at 1. unfold M_bind at 1. rewrite Hkeep.
    unfold mbind at 1. unfold M_bind at 1.
    set (pause := if first <? total_batches - 1 then [Sleep (NInt 1)] else []).
    assert (Hpause :
      (if first <? total_batches - 1 then sleep (NInt 1) else mret ())
        (World (snd fo) (clock w1) (trace w1))
      = (Return (), World (snd fo) (clock w1) (trace w1 ++ pause))).
    { subst pause. destruct (first <? total_batches - 1); simpl.
      - reflexivity.
      - now rewrite app_nil_r. }
    rewrite Hpause.
    destruct (IH (Z.succ first) (all_records ++ fst fo)
                (World (snd fo) (clock w1) (trace w1 ++ pause)))
      as (events & ->).
    { intros i p Hp. destruct (Hpages (S i) p Hp) as (rp & Hrp & Hpp).
      exists rp. split; [| assumption]. subst w1. cbn [clock].
      replace (Z.succ first + Z.of_nat i) with (first + Z.of_nat (S i)) by lia.
      now replace (S (clock w) + i)%nat with (clock w + S i)%nat by lia. }
    exists ([Get (batch_url base_url district (first * batch_size) batch_size)]
              ++ pause ++ events).
    cbn [processed_records clock trace concat]. subst w1. cbn [clock trace].
    rewrite first_occurrences_app. fold fo.
    destruct fo as [k1 s1]. cbn [fst snd].
    destruct (first_occurrences (generate_record_id py_repr) s1 (concat pages))
      as [k2 s2]. cbn [fst snd].
    f_equal; [now rewrite <- app_assoc |]. f_equal; [lia |].
    now rewrite <- !app_assoc.
Qed.

Lemma fetch_all_district_data_run
    (district : string) (batch_size max_retries : Z) (w : world)
    (reply : dict) (total : json) (pages : list (list dict)) :
  0 < max_retries ->
  answers server (total_url base_url district) (clock w) reply ->
  dict_get reply "total" = Some total ->
  py_eq_zero total = false ->
  count_batches total batch_size = Return (Z.of_nat (length pages)) ->
  (forall i page, pages !! i = Some page ->
     exists page_reply,
       answers server
         (batch_url base_url district (Z.of_nat i * batch_size) batch_size)
         (S (clock w) + i)%nat page_reply /\
       page_of page_reply page) ->
  exists events,
    fetch_all_district_data server py_repr base_url district batch_size
      max_retries w =
    (Return (fst (first_occurrences (generate_record_id py_repr)
                    (processed_records w) (concat pages))),
     World (snd (first_occurrences (generate_record_id py_repr)
                   (processed_records w) (concat pages)))
       (S (clock w) + length pages)%nat
       ((trace w ++ [Get (total_url base_url district)]) ++ events)).
Proof.
  intros Hretries Hreply Htotal Hnonzero Hcount Hpages.
  destruct (fetch_batches_pages district batch_size max_retries
              (Z.of_nat (length pages)) Hretries pages 0 []
              (World (processed_records w) (S (clock w))
                 (trace w ++ [Get (total_url base_url district)])))
    as (events & Hbatches).
  { intros i page Hpage. destruct (Hpages i page Hpage) as (rp & Hrp & Hpp).
    exists rp. now rewrite Z.add_0_l. }
  exists events.
  unfold fetch_all_district_data, mbind at 1. unfold M_bind at 1.
  rewrite (get_total_records_answered server base_url _ _ _ _
             Hreply Htotal), Hnonzero.
  unfold mbind at 1. unfold M_bind at 1. unfold lift.
  rewrite Hcount. exact Hbatches.
Qed.

(** X8. When the total is answered and each of the pages it calls for is
    answered at the first attempt, [fetch_all_district_data] returns the
    first occurrences of the keys in the pages put end to end, relative to
    the scope at the call; the scope ends with the keys of all the records
    served, and one request was made for the total and one per page. *)
Theorem fetch_all_district_data_answered
    (district : string) (batch_size max_retries : Z) (w : world)
    (reply : dict) (total : json) (pages : list (list dict)) :
  0 < max_retries ->
  answers server (total_url base_url district) (clock w) reply ->
  dict_get reply "total" = Some total ->
  py_eq_zero total = false ->
  count_batches total batch_size = Return (Z.of_nat (length pages)) ->
  (forall i page, pages !! i = Some page ->
     exists page_reply,
       answers server
         (batch_url base_url district (Z.of_nat i * batch_size) batch_size)
         (S (clock w) + i)%nat page_reply /\
       page_of page_reply page) ->
  let run :=
    fetch_all_district_data server py_repr base_url district batch_size
      max_retries w in
  fst run =
    Return (fst (first_occurrences (generate_record_id py_repr)
                   (processed_records w) (concat pages))) /\
  processed_records (snd run) =
    snd (first_occurrences (generate_record_id py_repr)
           (processed_records w) (concat pages)) /\
  clock (snd run) = (clock w + 1 + length pages)%nat.
Proof.
  intros Hretries Hreply Htotal Hnonzero Hcount Hpages run.
  destruct (fetch_all_district_data_run district batch_size max_retries w
              reply total pages Hretries Hreply Htotal Hnonzero Hcount Hpages)
    as (events & Hrun).
  subst run. rewrite Hrun. cbn [fst snd processed_records clock].
  repeat split. lia.
Qed.

(** X9. When [fetch_all_district_data] returns, the scope has only grown,
    and every record returned is a duplicate from then on:
    [is_duplicate_record] answers [True] for it and changes nothing. *)
Theorem fetch_all_district_data_records_in_scope
    (district : string) (batch_size max_retries : Z)
    (w w' : world) (records : list dict) :
  fetch_all_district_data server py_repr base_url district batch_size
    max_retries w = (Return records, w') ->
  processed_records w ⊆ processed_records w' /\
  (forall r, In r records ->
     is_duplicate_record py_repr r w' = (Return true, w')).
Proof.
  intros Hrun. unfold fetch_all_district_data in Hrun.
  apply bind_returns in Hrun as (total_records & w1 & Htotal & Hrun).
  assert (Hscope : processed_records w1 = processed_records w).
  { now rewrite <- (preserves_scope_get_total_records server base_url
                      district w), Htotal. }
  destruct (py_eq_zero total_records).
  - injection Hrun as <- <-. rewrite Hscope. split; [reflexivity |].
    intros r [].
  - apply bind_returns in Hrun as (total_batches & w2 & Hcount & Hrun).
    unfold lift in Hcount. injection Hcount as _ <-.
    apply (fetch_batches_distinct server py_repr base_url
             (processed_records w)) in Hrun.
    + destruct Hrun as (_ & Hkeys & Hgrow). split; [assumption |].
      intros r Hr. unfold is_duplicate_record.
      rewrite decide_True; [reflexivity |]. now apply Hkeys.
    + split; [constructor |]. split; [intros r [] |]. now rewrite Hscope.
Qed.

End Pagination.

(** *** Pages that fail *)

Section Outage.

Context (server : string -> nat -> http_outcome) (py_repr : json -> string)
        (base_url : string).

(** A page all of whose attempts fail at the request. *)
Lemma fetch_batch_gives_up district offset limit max_retries w :
  0 < max_retries ->
  (forall j, (Z.of_nat j < max_retries) ->
     request_fails
       (server (batch_url base_url district offset limit) (clock w + j)%nat)
     = true) ->
  exists events,
    fetch_batch server base_url district offset limit max_retries w =
      (Return (JArr []),
       World (processed_records w) (clock w + Z.to_nat max_retries)
         (trace w ++ events)).
Proof.
  intros Hretries Hfails. unfold fetch_batch.
  set (url := batch_url base_url district offset limit) in *.
  assert (Hrun :
    fetch_batch_attempts server url max_retries (seqZ 0 (max_retries - 0)) w
    = (Return (JArr []),
       World (processed_records w) (clock w + Z.to_nat max_retries)
         (trace w ++ backoff_trace url (Z.to_nat (max_retries - 1))
            ++ [Get url]))).
  { rewrite (fetch_batch_after_failures server url max_retries
               (Z.to_nat (max_retries - 1)) 0 w);
      [| lia | lia | intros j Hj; apply Hfails; lia].
    rewrite seqZ_cons by lia.
    rewrite fetch_batch_attempt_gives_up; [| apply Hfails; simpl; lia | lia].
    simpl. unfold backoff_trace. rewrite <- app_assoc. do 2 f_equal. lia. }
  rewrite Z.sub_0_r in Hrun. rewrite Hrun. eauto.
Qed.

Lemma fetch_batches_outage district batch_size max_retries total_batches :
  0 < max_retries ->
  forall (n : nat) (first : Z) (all_records : list dict) (w : world),
    (forall url t, (clock w <= t)%nat -> request_fails (server url t) = true) ->
    exists events,
      fetch_batches server py_repr base_url district batch_size max_retries
        total_batches (seqZ first (Z.of_nat n)) all_records w =
      (Return all_records,
       World (processed_records w) (clock w + n * Z.to_nat max_retries)
         (trace w ++ events)).
Proof.
  intros Hretries.
  induction n as [| n IH]; intros first all_records w Hdown.
  - exists []. simpl. rewrite app_nil_r, Nat.add_0_r. now destruct w.
  - rewrite Nat2Z.inj_succ, seqZ_cons by lia. rewrite Z.pred_succ.
    cbn [fetch_batches]. unfold mbind at 1. unfold M_bind at 1.
    destruct (fetch_batch_gives_up district (first * batch_size) batch_size
                max_retries w Hretries) as (events1 & ->).
    { intros j Hj. apply Hdown. lia. }
    cbn [truthy]. unfold mbind at 1. unfold M_bind at 1.
    cbn [mret M_ret]. unfold mbind at 1. unfold M_bind at 1.
    set (w1 := World _ _ _).
    set (pause := if first <? total_batches - 1 then [Sleep (NInt 1)] else []).
    assert (Hpause :
      (if first <? total_batches - 1 then sleep (NInt 1) else mret ()) w1
      = (Return (), World (processed_records w1) (clock w1)
                      (trace w1 ++ pause))).
    { subst pause w1. destruct (first <? total_batches - 1); simpl.
      - reflexivity.
      - now rewrite app_nil_r. }
    rewrite Hpause.
    destruct (IH (Z.succ first) all_records
                (World (processed_records w1) (clock w1) (trace w1 ++ pause)))
      as (events2 & ->).
    { intros url t Ht. apply Hdown. subst w1. cbn [clock] in Ht. lia. }
    exists (events1 ++ pause ++ events2). subst w1.
    cbn [processed_records clock trace]. f_equal. f_equal; [lia |].
    now rewrite <- !app_assoc.
Qed.

(** X10. When the source goes down after it has answered the request for
    the total, [fetch_all_district_data] does not fail: every page is tried
    [max_retries] times, with sleeps of lengths that [time.sleep] is to
    take, and skipped, and the call returns the empty list with the set of
    keys as it was. *)
Theorem fetch_all_district_data_outage
    (district : string) (batch_size max_retries : Z) (w : world)
    (reply : dict) (total : json) (total_batches : Z) :
  0 < max_retries ->
  (forall attempt, 0 <= attempt < max_retries - 1 ->
     sleepable (NInt (2 ^ attempt))) ->
  answers server (total_url base_url district) (clock w) reply ->
  dict_get reply "total" = Some total ->
  py_eq_zero total = false ->
  count_batches total batch_size = Return total_batches ->
  (forall url t, (clock w < t)%nat -> request_fails (server url t) = true) ->
  let run :=
    fetch_all_district_data server py_repr base_url district batch_size
      max_retries w in
  fst run = Return [] /\
  processed_records (snd run) = processed_records w /\
  clock (snd run) = (clock w + 1 + Z.to_nat (total_batches * max_retries))%nat.
Proof.
  intros Hretries _ Hreply Htotal Hnonzero Hcount Hdown run.
  enough (exists events,
            run = (Return [],
                   World (processed_records w)
                     (clock w + 1 + Z.to_nat (total_batches * max_retries))
                     events)) as (events & ->) by now repeat split.
  subst run.
  unfold fetch_all_district_data, mbind at 1. unfold M_bind at 1.
  rewrite (get_total_records_answered server base_url _ _ _ _ Hreply Htotal),
    Hnonzero.
  unfold mbind at 1. unfold M_bind at 1. unfold lift. rewrite Hcount.
  destruct (Z.le_gt_cases total_batches 0) as [Hnone | Hsome].
  - unfold seqZ. replace (Z.to_nat total_batches) with O by lia.
    assert (total_batches * max_retries <= 0) by nia.
    eexists. cbn. do 2 f_equal. lia.
  - destruct (fetch_batches_outage district batch_size max_retries
                total_batches Hretries (Z.to_nat total_batches) 0 []
                (World (processed_records w) (S (clock w))
                   (trace w ++ [Get (total_url base_url district)])))
      as (events & Hrun).
    { intros url t Ht. apply Hdown. cbn [clock] in Ht. lia. }
    rewrite Z2Nat.id in Hrun by lia. rewrite Hrun.
    eexists. cbn [processed_records clock trace]. do 2 f_equal.
    rewrite Z2Nat.inj_mul by lia. lia.
Qed.

(** *** Pages that hold something else than records *)

Lemma filter_duplicates_not_an_object (items : list json) :
  (exists item, In item items /\ forall d, item <> JObj d) ->
  forall unique w,
    fst (filter_duplicates py_repr items unique w) = Raise AttributeError.
Proof.
  induction items as [| item items IH]; intros (bad & Hin & Hbad) unique w.
  - destruct Hin.
  - cbn [filter_duplicates].
    destruct item as [| | | | | | d]; try reflexivity.
    destruct Hin as [<- | Hin]; [now destruct (Hbad d) |].
    unfold mbind, M_bind, is_duplicate_record.
    destruct (decide (_ ∈ _)); apply IH; eauto.
Qed.

(** X11. A first page whose [records] hold something that is not an
    object, such as a list of names, makes [fetch_all_district_data] raise
    [AttributeError]: [is_duplicate_record] is called on every element,
    which has to have a [get]. *)
Theorem fetch_all_district_data_not_records
    (district : string) (batch_size max_retries : Z) (w : world)
    (reply page_reply : dict) (total : json) (total_batches : Z)
    (items : list json) :
  0 < max_retries ->
  answers server (total_url base_url district) (clock w) reply ->
  dict_get reply "total" = Some total ->
  py_eq_zero total = false ->
  count_batches total batch_size = Return total_batches ->
  0 < total_batches ->
  answers server (batch_url base_url district 0 batch_size) (S (clock w))
    page_reply ->
  dict_get page_reply "records" = Some (JArr items) ->
  (exists item, In item items /\ forall d, item <> JObj d) ->
  fst (fetch_all_district_data server py_repr base_url district batch_size
         max_retries w) = Raise AttributeError.
Proof.
  intros Hretries Hreply Htotal Hnonzero Hcount Hsome Hpage Hrecords Hbad.
  unfold fetch_all_district_data, mbind at 1. unfold M_bind at 1.
  rewrite (get_total_records_answered server base_url _ _ _ _ Hreply Htotal),
    Hnonzero.
  unfold mbind at 1. unfold M_bind at 1. unfold lift. rewrite Hcount.
  rewrite seqZ_cons by assumption. cbn [fetch_batches].
  unfold mbind at 1. unfold M_bind at 1. rewrite Z.mul_0_l.
  rewrite (fetch_batch_answered server base_url _ _ _ _
             (World (processed_records w) (S (clock w))
                (trace w ++ [Get (total_url base_url district)]))
             page_reply Hretries Hpage).
  rewrite Hrecords. simpl default.
  assert (Htruthy : truthy (JArr items) = true).
  { destruct Hbad as (item & Hin & _). now destruct items. }
  rewrite Htruthy. unfold mbind at 1. unfold M_bind at 1.
  unfold mbind at 1. unfold M_bind at 1. unfold lift. cbn [py_iter].
  unfold mbind at 1. unfold M_bind at 1.
  pose proof (filter_duplicates_not_an_object items Hbad []
                (World (processed_records w) (S (S (clock w)))
                   ((trace w ++ [Get (total_url base_url district)]) ++
                    [Get (batch_url base_url district 0 batch_size)])))
    as Hraise.
  cbn [processed_records clock trace] in *.
  destruct (filter_duplicates py_repr items [] _) as [r w']. simpl in Hraise.
  now subst r.
Qed.

End Outage.

(** ** The key of a record *)

(** The vertical bar is a border for [strip] and for [lower]. *)
Lemma lstrip_bar (a b : list Z) :
  lstrip (a ++ vertical_bar :: b) = lstrip a ++ vertical_bar :: b.
Proof.
  induction a as [| c a IH]; [reflexivity |].
  cbn [app lstrip]. now destruct (is_whitespace c).
Qed.

Lemma rstrip_bar (a b : list Z) :
  rstrip (a ++ vertical_bar :: b) = a ++ vertical_bar :: rstrip b.
Proof.
  induction a as [| c a IH].
  - cbn [app rstrip]. change (is_whitespace vertical_bar) with false.
    now destruct (rstrip b).
  - cbn [app rstrip]. rewrite IH. now destruct a.
Qed.

Lemma cased_next_bar (l rest : list Z) :
  cased_next (l ++ vertical_bar :: rest) = cased_next l.
Proof.
  induction l as [| c l IH]; [reflexivity |].
  cbn [app cased_next]. now rewrite IH.
Qed.

Lemma do_lower_before_bar (l before rest : list Z) :
  do_lower (before ++ vertical_bar :: rest) l = do_lower before l.
Proof.
  revert before. induction l as [| c l IH]; intros before; [reflexivity |].
  cbn [do_lower]. unfold handle_capital_sigma. rewrite cased_next_bar.
  f_equal. apply (IH (c :: before)).
Qed.

Lemma do_lower_bar (a b before : list Z) :
  do_lower before (a ++ vertical_bar :: b)
  = do_lower before a ++ vertical_bar :: do_lower [] b.
Proof.
  revert before. induction a as [| c a IH]; intros before.
  - cbn [app do_lower]. change (vertical_bar =? 0x3A3) with false.
    change (to_lower_full vertical_bar) with [vertical_bar].
    cbn [app]. f_equal.
    apply (do_lower_before_bar b [] before).
  - cbn [app do_lower]. unfold handle_capital_sigma.
    rewrite cased_next_bar, IH. now rewrite app_assoc.
Qed.

Lemma str_of_bar (a b : list Z) :
  str_of (a ++ vertical_bar :: b) = str_of a +:+ "|" +:+ str_of b.
Proof. now rewrite str_of_app. Qed.

Lemma lower_strip_bar (a b : list Z) :
  Forall code_point a -> Forall code_point b ->
  lstrip a = a -> rstrip b = b ->
  lower (strip (str_of (a ++ vertical_bar :: b)))
  = str_of (do_lower [] a) +:+ "|" +:+ str_of (do_lower [] b).
Proof.
  intros Ha Hb Hl Hr.
  rewrite lower_strip_str_of.
  - now rewrite lstrip_bar, Hl, rstrip_bar, Hr, do_lower_bar, str_of_bar.
  - apply Forall_app. split; [exact Ha |].
    constructor; [unfold code_point, vertical_bar; lia | exact Hb].
Qed.

Lemma lower_strip_trimmed (a : list Z) :
  Forall code_point a -> trimmed a ->
  lower (strip (str_of a)) = str_of (do_lower [] a).
Proof.
  intros Ha [Hl Hr]. rewrite lower_strip_str_of by assumption.
  now rewrite Hl, Hr.
Qed.

Section RecordKeys.

Context (py_repr : json -> string).

Lemma generate_record_id_join (record : dict) :
  generate_record_id py_repr record =
    join "|" (map (fun field =>
                     lower (strip (py_str py_repr (field_value record field))))
                key_fields).
Proof.
  unfold generate_record_id. rewrite fold_left_snoc. reflexivity.
Qed.

Lemma generate_record_id_similar (r1 r2 : dict) :
  (forall field, In field key_fields ->
     similar_texts
       (py_str py_repr (field_value r1 field))
       (py_str py_repr (field_value r2 field)) /\
     ~ holds_capital_sigma (py_str py_repr (field_value r1 field)) /\
     ~ holds_capital_sigma (py_str py_repr (field_value r2 field))) ->
  generate_record_id py_repr r1 = generate_record_id py_repr r2.
Proof.
  intros H. rewrite !generate_record_id_join. f_equal.
  apply map_ext_in. intros field Hfield.
  destruct (H field Hfield) as (Hsimilar & H1 & H2).
  now apply normalize_similar_texts.
Qed.

Lemma is_duplicate_record_seen (record : dict) (w : world) :
  generate_record_id py_repr record ∈ processed_records w ->
  is_duplicate_record py_repr record w = (Return true, w).
Proof. intros Hseen. unfold is_duplicate_record. now rewrite decide_True. Qed.

Lemma is_duplicate_record_adds (record : dict) (w : world) :
  generate_record_id py_repr record
    ∈ processed_records (snd (is_duplicate_record py_repr record w)).
Proof.
  unfold is_duplicate_record.
  destruct (decide (_ ∈ _)); simpl; [assumption |].
  now apply elem_of_union_r, elem_of_singleton.
Qed.

(** X12. A record whose key fields differ from those of a record
    presented before only in the case of the letters and in the white
    space around them, no key field of either holding the Greek capital
    letter sigma, is a duplicate: [is_duplicate_record] answers [True]
    for it and leaves the scope as it is. *)
Theorem is_duplicate_record_ignores_case (r1 r2 : dict) (w : world) :
  (forall field, In field key_fields ->
     similar_texts
       (py_str py_repr (field_value r1 field))
       (py_str py_repr (field_value r2 field)) /\
     ~ holds_capital_sigma (py_str py_repr (field_value r1 field)) /\
     ~ holds_capital_sigma (py_str py_repr (field_value r2 field))) ->
  let w1 := snd (is_duplicate_record py_repr r1 w) in
  is_duplicate_record py_repr r2 w1 = (Return true, w1).
Proof.
  intros Hsimilar w1. apply is_duplicate_record_seen.
  rewrite <- (generate_record_id_similar r1 r2 Hsimilar).
  apply is_duplicate_record_adds.
Qed.

(** X13. The key does not separate its fields: a [|] inside a field
    reads as the border between two.  For texts [a], [b] and [c] without
    white space at their ends, given by their code points, a record with
    district [a|b] and state [c] and a record with district [a] and state
    [b|c], the other key fields being equal, have the same key, so that
    the second is dropped as a duplicate of the first. *)
Theorem generate_record_id_bar_collision (r1 r2 : dict) (a b c : list Z)
    (w : world) :
  Forall code_point a -> Forall code_point b -> Forall code_point c ->
  trimmed a -> trimmed b -> trimmed c ->
  py_str py_repr (field_value r1 "District")
    = str_of (a ++ vertical_bar :: b) ->
  py_str py_repr (field_value r1 "State") = str_of c ->
  py_str py_repr (field_value r2 "District") = str_of a ->
  py_str py_repr (field_value r2 "State")
    = str_of (b ++ vertical_bar :: c) ->
  py_str py_repr (field_value r1 "EnterpriseName")
    = py_str py_repr (field_value r2 "EnterpriseName") ->
  py_str py_repr (field_value r1 "CommunicationAddress")
    = py_str py_repr (field_value r2 "CommunicationAddress") ->
  generate_record_id py_repr r1 = generate_record_id py_repr r2 /\
  (let w1 := snd (is_duplicate_record py_repr r1 w) in
   is_duplicate_record py_repr r2 w1 = (Return true, w1)).
Proof.
  intros Hcpa Hcpb Hcpc Ha Hb Hc H1d H1s H2d H2s He Hc'.
  assert (Hkey : generate_record_id py_repr r1 = generate_record_id py_repr r2).
  { rewrite !generate_record_id_join. unfold key_fields. cbn [map join].
    rewrite H1d, H1s, H2d, H2s, He, Hc'.
    rewrite (lower_strip_bar a b), (lower_strip_bar b c)
      by (assumption || apply Ha || apply Hb || apply Hc).
    rewrite (lower_strip_trimmed a), (lower_strip_trimmed c) by assumption.
    now rewrite !append_assoc. }
  split; [exact Hkey |].
  intros w1. apply is_duplicate_record_seen. rewrite <- Hkey.
  apply is_duplicate_record_adds.
Qed.

End RecordKeys.

(** ** The URLs *)

Lemma replace_from_absent old new s :
  occurs old s = false -> replace_from old new O s = s.
Proof.
  induction s as [| c s IH]; [reflexivity |].
  cbn [occurs]. intros [Hhere Hlater]%orb_false_elim.
  cbn [replace_from]. rewrite Hhere. now rewrite IH.
Qed.

(** X14. The parameters reach the URL by replacing text only.  When the
    base URL does not contain [limit=1000], the URL of a page is the same
    for every offset and limit; when it does not contain [LATUR] either,
    the URL of a page and the URL of the total are the base URL itself,
    whatever the district. *)
Theorem batch_url_without_markers (base_url district : string)
    (offset limit : Z) :
  occurs "limit=1000" base_url = false ->
  batch_url base_url district offset limit
    = replace "LATUR" (upper district) base_url /\
  (occurs "LATUR" base_url = false ->
   batch_url base_url district offset limit = base_url /\
   total_url base_url district = base_url).
Proof.
  intros Hlimit. unfold batch_url, total_url, replace.
  rewrite (replace_from_absent "limit=1000" _ base_url Hlimit).
  split; [reflexivity |].
  intros Hdistrict.
  rewrite (replace_from_absent "LATUR" _ base_url Hdistrict).
  split; [reflexivity |]. now apply replace_from_absent.
Qed.

(** X15. With the [BASE_URL] of [main], the URL of a page is the endpoint
    with [limit=<limit>&offset=<offset>] and the district in upper case as
    the filter, and the URL of the total is the endpoint with [limit=1] and
    the same filter, for every district, offset and limit. *)
Theorem main_base_url_requests (district : string) (offset limit : Z) :
  batch_url main_base_url district offset limit
  = main_endpoint +:+ "limit=" +:+ str_of_int limit
      +:+ "&offset=" +:+ str_of_int offset
      +:+ "&filters%5BDistrict%5D=" +:+ upper district /\
  total_url main_base_url district
  = main_endpoint +:+ "limit=1&filters%5BDistrict%5D=" +:+ upper district.
Proof.
  split; [apply main_batch_url | apply main_total_url].
Qed.

(** ** Files, reports and districts *)

(** *** [save_data] *)

Lemma num_truediv_raises (x y : number) (e : exn) :
  num_truediv x y = Raise e -> e = ZeroDivisionError \/ e = OverflowError.
Proof.
  unfold num_truediv, int_truediv, float_truediv, float_of_int,
    mbind, result_bind.
  destruct x, y;
    repeat match goal with
           | |- context [if ?b then _ else _] => destruct b
           end;
    intros [= <-]; auto.
Qed.

Lemma percent_1f_raises (x y : number) (e : exn) :
  percent_1f x y = Raise e -> e = ZeroDivisionError \/ e = OverflowError.
Proof.
  unfold percent_1f, mbind, result_bind.
  destruct (num_truediv x y) as [q | e'] eqn:Hq; [discriminate |].
  intros [= <-]. exact (num_truediv_raises _ _ _ Hq).
Qed.

Section Files.

Context (py_repr : json -> string) (output_dir strftime_now : string).


End Files.

(** *** [print_final_summary] *)

Lemma summary_totals_sums (items : list (string * stats)) :
  forall (n available fetched : Z),
    total_available_sum items = Some n ->
    summary_totals items (NInt available) fetched
    = (map entry_line items,
       Return (NInt (available + n), fetched + total_fetched_sum items)).
Proof.
  induction items as [| [district entry] items IH];
    intros n available fetched Hsum; simpl in *.
  - injection Hsum as <-. now rewrite !Z.add_0_r.
  - destruct entry as [error | total count rate].
    + now rewrite (IH n available fetched Hsum).
    + destruct total as [| | m | | | |]; try discriminate.
      destruct (total_available_sum items) as [rest |] eqn:Hrest;
        [| discriminate].
      simpl in Hsum. injection Hsum as <-. simpl.
      rewrite (IH rest (available + m) (fetched + count) eq_refl).
      do 3 f_equal; [f_equal |]; lia.
Qed.

(** X17. When the totals of the entries without error are [int]s,
    [print_final_summary] logs one line per entry in the order of the
    summary, an entry with an error giving its error and counting in
    neither total, and then, unless the percentage raises, the line of the
    totals with the two sums. *)
Theorem print_final_summary_totals (summary : list (string * stats)) (n : Z) :
  total_available_sum summary = Some n ->
  let total_fetched := total_fetched_sum summary in
  print_final_summary summary =
    match percent_1f (NInt total_fetched) (NInt n) with
    | Return percent =>
        (map entry_line summary ++ [TotalLine total_fetched (NInt n) percent],
         Return tt)
    | Raise e => (map entry_line summary, Raise e)
    end.
Proof.
  intros Hsum total_fetched. unfold print_final_summary.
  rewrite (summary_totals_sums summary n 0 0 Hsum).
  rewrite !Z.add_0_l. reflexivity.
Qed.

Lemma num_add_raises (x y : number) (e : exn) :
  num_add x y = Raise e -> e = OverflowError.
Proof.
  unfold num_add, float_of_int, mbind, result_bind.
  destruct x, y;
    repeat match goal with
           | |- context [if ?b then _ else _] => destruct b
           end;
    now intros [= <-].
Qed.

Lemma summary_totals_raises (items : list (string * stats)) :
  Forall (fun item => numeric_entry (snd item)) items ->
  forall available fetched e,
    snd (summary_totals items available fetched) = Raise e ->
    e = OverflowError.
Proof.
  induction 1 as [| [district entry] items Hentry _ IH];
    intros available fetched e; simpl; [discriminate |].
  destruct entry as [error | total count rate].
  - specialize (IH available fetched e).
    destruct (summary_totals items available fetched). exact IH.
  - simpl in Hentry. unfold expect_number, mbind, result_bind.
    destruct (as_number total) as [x |]; [| contradiction].
    destruct (num_add available x) as [sum | e'] eqn:Hadd.
    + specialize (IH sum (fetched + count) e).
      destruct (summary_totals items sum (fetched + count)). exact IH.
    + simpl. intros [= <-]. exact (num_add_raises _ _ _ Hadd).
Qed.

Lemma print_final_summary_raises (summary : list (string * stats)) (e : exn) :
  Forall (fun item => numeric_entry (snd item)) summary ->
  snd (print_final_summary summary) = Raise e ->
  e = ZeroDivisionError \/ e = OverflowError.
Proof.
  intros Hnumeric. unfold print_final_summary.
  pose proof (summary_totals_raises summary Hnumeric (NInt 0) 0) as Htotals.
  destruct (summary_totals summary (NInt 0) 0) as [lines [[ta tf] | e']].
  - destruct (percent_1f (NInt tf) ta) as [percent | e'] eqn:Hpercent;
      simpl; [discriminate |].
    intros [= <-]. exact (percent_1f_raises _ _ _ Hpercent).
  - simpl. intros [= <-]. right. now apply Htotals.
Qed.

(** *** [process_districts] *)

Section Districts.

Context (server : string -> nat -> http_outcome) (py_repr : json -> string)
  (base_url output_dir strftime_now : string).

Lemma process_district_entry count i district batch_size delay summary w :
  exists entry,
    fst (process_district server py_repr base_url output_dir strftime_now
           count i district batch_size delay summary w)
    = Return (dict_set summary district entry) /\
    numeric_entry entry.
Proof.
  unfold process_district, try_except, mbind, M_bind, get_processed_records,
    set_processed_records, lift.
  cbn [processed_records clock trace fst snd].
  destruct (get_total_records server base_url district _)
    as [[total_available | e] w1]; [| now exists (StatsError e)].
  destruct (fetch_all_district_data server py_repr base_url district
              batch_size 3 w1) as [[all_data | e] w2];
    [| now exists (StatsError e)].
  destruct (save_data py_repr output_dir strftime_now district all_data
              total_available) as [saved | e]; [| now exists (StatsError e)].
  unfold py_gt_zero, expect_number, mbind, result_bind.
  destruct (as_number total_available) as [x |] eqn:Hnumber;
    [| now exists (StatsError TypeError)].
  destruct (if num_gt_zero x then _ else _) as [completion_rate | e];
    [| now exists (StatsError e)].
  exists (Stats total_available (Z.of_nat (length all_data)) completion_rate).
  split; [now destruct (i <? count) |].
  simpl. now rewrite Hnumber.
Qed.

(** X18. The body of the loop of [process_districts] never raises: it
    stores an entry for its district and nothing else.  When the entry
    holds statistics, the set of keys is the one from before the district;
    when it holds an error, the delay being one that [time.sleep] takes,
    the set is not restored: it is what the district left behind, and
    nothing of what it held before. *)
Theorem process_district_scope
    count i district batch_size delay summary (w : world) :
  let run :=
    process_district server py_repr base_url output_dir strftime_now
      count i district batch_size delay summary in
  exists entry,
    fst (run w) = Return (dict_set summary district entry) /\
    match entry with
    | Stats _ _ _ =>
        processed_records (snd (run w)) = processed_records w
    | StatsError _ =>
        sleepable delay ->
        processed_records (snd (run w))
        = processed_records (snd (run (World ∅ (clock w) (trace w))))
    end.
Proof.
  intros run. subst run.
  unfold process_district, try_except, mbind, M_bind, get_processed_records,
    set_processed_records, lift.
  cbn [processed_records clock trace fst snd].
  destruct (get_total_records server base_url district _)
    as [[total_available | e] w1];
    [| exists (StatsError e); split; [reflexivity | intros _; reflexivity]].
  destruct (fetch_all_district_data server py_repr base_url district
              batch_size 3 w1) as [[all_data | e] w2];
    [| exists (StatsError e); split; [reflexivity | intros _; reflexivity]].
  destruct (save_data py_repr output_dir strftime_now district all_data
              total_available) as [saved | e];
    [| exists (StatsError e); split; [reflexivity | intros _; reflexivity]].
  destruct (py_gt_zero total_available) as [positive | e];
    [| exists (StatsError e); split; [reflexivity | intros _; reflexivity]].
  destruct (if positive then _ else _) as [completion_rate | e];
    [| exists (StatsError e); split; [reflexivity | intros _; reflexivity]].
  exists (Stats total_available (Z.of_nat (length all_data)) completion_rate).
  destruct (i <? count); split; reflexivity.
Qed.

(** X19. With a delay that [time.sleep] takes, a district whose two
    requests for the total and whose pages are all answered gets the entry
    made of the total of the first answer, the
    number of first occurrences in the pages, counted from an empty scope
    whatever the set of keys held, and the percentage of the two; the set
    of keys is then restored, and the district has cost two requests plus
    one per page. *)
Theorem process_district_answered
    count i district batch_size delay summary (w : world)
    (available : Z) (reply : dict) (total : json)
    (pages : list (list dict)) (percent : string) :
  sleepable delay ->
  reported_total (server (total_url base_url district) (clock w))
    = JInt available ->
  0 < available ->
  answers server (total_url base_url district) (S (clock w)) reply ->
  dict_get reply "total" = Some total ->
  py_eq_zero total = false ->
  count_batches total batch_size = Return (Z.of_nat (length pages)) ->
  (forall i page, pages !! i = Some page ->
     exists page_reply,
       answers server
         (batch_url base_url district (Z.of_nat i * batch_size) batch_size)
         (S (S (clock w)) + i)%nat page_reply /\
       page_of page_reply page) ->
  let kept :=
    fst (first_occurrences (generate_record_id py_repr) ∅ (concat pages)) in
  percent_1f (NInt (Z.of_nat (length kept))) (NInt available)
    = Return percent ->
  let run :=
    process_district server py_repr base_url output_dir strftime_now
      count i district batch_size delay summary w in
  fst run =
    Return (dict_set summary district
              (Stats (JInt available) (Z.of_nat (length kept))
                 (percent +:+ "%"))) /\
  processed_records (snd run) = processed_records w /\
  clock (snd run) = (clock w + 2 + length pages)%nat.
Proof.
  intros _ Hfirst Hpositive Hreply Htotal Hnonzero Hcount Hpages kept Hpercent
    run.
  destruct (fetch_all_district_data_run server py_repr base_url district
              batch_size 3
              (World ∅ (S (clock w))
                 (trace w ++ [Get (total_url base_url district)]))
              reply total pages ltac:(lia) Hreply Htotal Hnonzero Hcount
              Hpages) as (events & Hfetch).
  cbn [processed_records clock trace] in Hfetch. fold kept in Hfetch.
  assert (Hsave : exists saved,
            save_data py_repr output_dir strftime_now district kept
              (JInt available) = Return saved).
  { unfold save_data. destruct kept as [| r kept'] eqn:Hkept; [eauto |].
    unfold py_gt_zero, completion_percent, expect_number, mbind, result_bind.
    cbn [as_number num_gt_zero].
    apply Z.ltb_lt in Hpositive as ->. rewrite Hpercent. eauto. }
  destruct Hsave as [saved Hsave].
  subst run.
  unfold process_district, try_except, mbind, M_bind,
    get_processed_records, set_processed_records, lift.
  cbn [processed_records clock trace fst snd].
  rewrite get_total_records_run. cbn [processed_records clock trace].
  rewrite Hfirst, Hfetch, Hsave.
  unfold py_gt_zero, completion_percent, expect_number, mbind, result_bind.
  cbn [as_number num_gt_zero].
  apply Z.ltb_lt in Hpositive as ->. rewrite Hpercent.
  cbn [processed_records clock trace].
  destruct (i <? count); cbn [fst snd processed_records clock sleep mret M_ret];
    (split; [reflexivity |]); (split; [reflexivity |]); lia.
Qed.

Lemma dict_set_Forall {V} (P : string * V -> Prop) d k v :
  Forall P d -> P (k, v) -> Forall P (dict_set d k v).
Proof.
  intros Hd Hv. induction Hd as [| [k' v'] d Hhead Hd IH]; simpl.
  - now constructor.
  - destruct (String.eqb k' k); now constructor.
Qed.

(** X20. The loop of [process_districts] never raises; afterwards every
    district of the list has an entry in the summary, and the entries of
    the other names are as before. *)
Theorem process_districts_from_entries (districts : list string) :
  forall count i batch_size delay summary (w : world),
  exists summary',
    fst (process_districts_from server py_repr base_url output_dir
           strftime_now count i districts batch_size delay summary w)
    = Return summary' /\
    (forall d, In d districts -> dict_get summary' d <> None) /\
    (forall d, ~ In d districts -> dict_get summary' d = dict_get summary d).
Proof.
  induction districts as [| district later IH];
    intros count i batch_size delay summary w; simpl.
  - exists summary. split; [reflexivity |]. split; [contradiction | reflexivity].
  - unfold mbind, M_bind.
    destruct (process_district_entry count i district batch_size delay
                summary w) as (entry & Hentry & _).
    destruct (process_district _ _ _ _ _ _ _ _ _ _ _ w) as [r w1].
    simpl in Hentry. subst r.
    destruct (IH count (i + 1) batch_size delay
                (dict_set summary district entry) w1)
      as (summary' & Hrun & Hin & Hout).
    exists summary'. split; [exact Hrun |]. split.
    + intros d [<- | Hd]; [| now apply Hin].
      destruct (in_dec String.string_dec district later) as [Hl | Hl];
        [now apply Hin |].
      rewrite (Hout _ Hl), dict_get_set_eq. discriminate.
    + intros d Hd. rewrite Hout by tauto.
      apply dict_get_set_ne. tauto.
Qed.

Lemma process_districts_from_numeric (districts : list string) :
  forall count i batch_size delay summary (w : world),
    Forall (fun item => numeric_entry (snd item)) summary ->
    exists summary',
      fst (process_districts_from server py_repr base_url output_dir
             strftime_now count i districts batch_size delay summary w)
      = Return summary' /\
      Forall (fun item => numeric_entry (snd item)) summary'.
Proof.
  induction districts as [| district later IH];
    intros count i batch_size delay summary w Hnumeric; simpl.
  - now exists summary.
  - unfold mbind, M_bind.
    destruct (process_district_entry count i district batch_size delay
                summary w) as (entry & Hentry & Hnum).
    destruct (process_district _ _ _ _ _ _ _ _ _ _ _ w) as [r w1].
    simpl in Hentry. subst r.
    apply IH. now apply dict_set_Forall.
Qed.

(** X21. [process_districts] can only fail in the final report, with
    [ZeroDivisionError] or [OverflowError]: whatever goes wrong for a
    district becomes its entry, and every entry with statistics has a
    number as its total. *)
Theorem process_districts_raises
    (districts : list string) batch_size delay (w : world) (e : exn) :
  fst (process_districts server py_repr base_url output_dir strftime_now
         districts batch_size delay w) = Raise e ->
  e = ZeroDivisionError \/ e = OverflowError.
Proof.
  unfold process_districts, mbind, M_bind.
  destruct (process_districts_from_numeric districts
              (Z.of_nat (length districts)) 1 batch_size delay [] w
              (List.Forall_nil _)) as (summary & Hrun & Hnumeric).
  destruct (process_districts_from _ _ _ _ _ _ _ _ _ _ _ w) as [r w1].
  simpl in Hrun. subst r.
  pose proof (print_final_summary_raises summary e Hnumeric) as Hprint.
  destruct (print_final_summary summary) as [lines [[] | e']]; simpl in *.
  - discriminate.
  - intros [= <-]. now apply Hprint.
Qed.

(** *** A source that is down *)

Lemma reported_total_fails (o : http_outcome) :
  request_fails o = true -> reported_total o = JInt 0.
Proof.
  intros Hfail. unfold reported_total.
  destruct o as [| status body]; [reflexivity |]. now rewrite Hfail.
Qed.

Lemma process_district_dead
    count i district batch_size delay summary (w : world) :
  dead server ->
  process_district server py_repr base_url output_dir strftime_now
    count i district batch_size delay summary w =
    (Return (dict_set summary district nothing_fetched),
     World (processed_records w) (S (S (clock w)))
       ((trace w ++ [Get (total_url base_url district);
                     Get (total_url base_url district)])
        ++ (if i <? count then [Sleep delay] else []))).
Proof.
  intros Hdead.
  unfold process_district, try_except, mbind, M_bind, get_processed_records,
    set_processed_records, lift, fetch_all_district_data.
  cbn [processed_records clock trace fst snd].
  rewrite get_total_records_run. cbn [processed_records clock trace].
  rewrite (reported_total_fails _ (Hdead _ _)).
  unfold mbind, M_bind. rewrite get_total_records_run.
  cbn [processed_records clock trace].
  rewrite (reported_total_fails _ (Hdead _ _)).
  cbn. rewrite <- app_assoc.
  destruct (i <? count); cbn; [reflexivity |]. now rewrite app_nil_r.
Qed.

Lemma process_districts_from_dead (districts : list string) :
  dead server ->
  forall count i batch_size delay summary (w : world),
    Forall (fun item => snd item = nothing_fetched) summary ->
    exists summary' w',
      process_districts_from server py_repr base_url output_dir
        strftime_now count i districts batch_size delay summary w
      = (Return summary', w') /\
      Forall (fun item => snd item = nothing_fetched) summary' /\
      processed_records w' = processed_records w /\
      clock w' = (clock w + 2 * length districts)%nat.
Proof.
  intros Hdead.
  induction districts as [| district later IH];
    intros count i batch_size delay summary w Hsummary; simpl.
  - exists summary, w. repeat split; [assumption | lia].
  - unfold mbind, M_bind. rewrite process_district_dead by assumption.
    edestruct (IH count (i + 1) batch_size delay
                 (dict_set summary district nothing_fetched))
      as (summary' & w' & -> & Hsummary' & Hscope & Hclock).
    { now apply dict_set_Forall. }
    exists summary', w'. split; [reflexivity |]. split; [assumption |].
    split; [exact Hscope |]. rewrite Hclock. cbn [clock]. lia.
Qed.

Lemma nothing_fetched_sum (summary : list (string * stats)) :
  Forall (fun item => snd item = nothing_fetched) summary ->
  total_available_sum summary = Some 0.
Proof.
  induction 1 as [| [district entry] summary Hentry _ IH]; [reflexivity |].
  simpl in Hentry. subst entry. simpl. now rewrite IH.
Qed.

Lemma print_final_summary_nothing (summary : list (string * stats)) :
  Forall (fun item => snd item = nothing_fetched) summary ->
  snd (print_final_summary summary) = Raise ZeroDivisionError.
Proof.
  intros Hsummary. unfold print_final_summary.
  destruct (summary_totals_int summary 0 0 0 (nothing_fetched_sum _ Hsummary))
    as [tf Htf].
  destruct (summary_totals summary (NInt 0) 0) as [lines totals].
  simpl in Htf. subst totals. reflexivity.
Qed.

(** X22. When no request completes, [process_districts] asks twice for
    the total of every district, finds nothing, and ends by raising
    [ZeroDivisionError] from the report, the set of keys being as before;
    this includes the call with no district at all. *)
Theorem process_districts_dead_server
    (districts : list string) batch_size delay (w : world) :
  dead server ->
  let run :=
    process_districts server py_repr base_url output_dir strftime_now
      districts batch_size delay w in
  fst run = Raise ZeroDivisionError /\
  processed_records (snd run) = processed_records w /\
  clock (snd run) = (clock w + 2 * length districts)%nat.
Proof.
  intros Hdead run. subst run. unfold process_districts, mbind, M_bind.
  destruct (process_districts_from_dead districts Hdead
              (Z.of_nat (length districts)) 1 batch_size delay [] w
              (List.Forall_nil _)) as (summary & w' & -> & Hsummary & Hscope & Hclock).
  pose proof (print_final_summary_nothing summary Hsummary) as Hprint.
  destruct (print_final_summary summary) as [lines outcome].
  simpl in Hprint. subst outcome. unfold lift. simpl. now split.
Qed.

End Districts.

(** X23. When no request completes, [main] makes two requests, both for
    the total of LATUR with [limit=1], does not sleep, and ends with
    [ZeroDivisionError]. *)
Theorem main_dead_server (server : string -> nat -> http_outcome)
    (py_repr : json -> string) (strftime_now : string) (w : world) :
  dead server ->
  let url :=
    "https://api.data.gov.in/resource/8b68ae56-84cf-4728-a0a6-1be11028dea7"
    +:+ "?api-key=579b464db66ec23bdd000001f85d5882df0744e4705730a6dae2f1c9"
    +:+ "&format=json&limit=1&filters%5BDistrict%5D=LATUR" in
  main server py_repr strftime_now w =
    (Raise ZeroDivisionError,
     World (processed_records w) (S (S (clock w)))
       (trace w ++ [Get url; Get url])).
Proof.
  intros Hdead url. unfold main, DISTRICTS, process_districts.
  unfold mbind at 1 2. unfold M_bind at 1 2.
  cbn [process_districts_from]. unfold mbind at 1. unfold M_bind at 1.
  rewrite process_district_dead by assumption.
  cbn. rewrite app_nil_r. reflexivity.
Qed.

(** ** The flattener *)

(** X24. [parse_activities] returns a pair other than [(None, None)]
    exactly when its argument is a text that decodes to a list whose first
    element is an object with both keys: the pair holds the values of
    [NIC5DigitId] and [Description] of that first element, and the rest of
    the list plays no part. *)
Theorem parse_activities_first_activity (v code description : json) :
  (code, description) <> (JNull, JNull) ->
  parse_activities v = Return (code, description) <->
  exists text d rest,
    v = JStr text /\
    json_loads text = Return (JArr (JObj d :: rest)) /\
    dict_get d "NIC5DigitId" = Some code /\
    dict_get d "Description" = Some description.
Proof.
  intros Hsome. split.
  - unfold parse_activities, parse_activities_try, py_json_loads,
      mbind, result_bind.
    destruct v as [| | | | text | |]; try (intros [= <- <-]; now destruct Hsome).
    destruct (json_loads text) as [activities | e] eqn:Hloads;
      [| intros [= <- <-]; now destruct Hsome].
    destruct activities as [| | | | | [| first rest] |];
      try (intros [= <- <-]; now destruct Hsome).
    unfold subscript.
    destruct first as [| | | | | | d];
      try (intros [= <- <-]; now destruct Hsome).
    destruct (dict_get d "NIC5DigitId") as [c |] eqn:Hcode;
      [| intros [= <- <-]; now destruct Hsome].
    destruct (dict_get d "Description") as [t |] eqn:Hdescription;
      [| intros [= <- <-]; now destruct Hsome].
    intros [= <- <-]. now exists text, d, rest.
  - intros (text & d & rest & -> & Hloads & Hcode & Hdescription).
    unfold parse_activities, parse_activities_try, py_json_loads,
      mbind, result_bind, subscript.
    now rewrite Hloads, Hcode, Hdescription.
Qed.

(** *** The columns of a frame, continued *)

Lemma add_columns_only columns (record : dict) c :
  In c (add_columns columns record) ->
  In c columns \/ dict_get record c <> None.
Proof.
  unfold add_columns. revert columns.
  induction record as [| [k v] record IH]; intros columns Hin; simpl in *;
    [now left |].
  destruct (String.eqb k c) eqn:E; [right; discriminate |].
  apply IH in Hin as [Hin | Hget]; [| now right].
  destruct (existsb (String.eqb k) columns); [now left |].
  apply in_app_or in Hin as [Hin | [<- | []]]; [now left |].
  now rewrite String.eqb_refl in E.
Qed.

Lemma columns_only (records : list dict) :
  forall columns c,
    In c (fold_left add_columns records columns) ->
    In c columns \/ exists record, In record records /\ dict_get record c <> None.
Proof.
  induction records as [| r records IH]; intros columns c Hin; simpl in *;
    [now left |].
  apply IH in Hin as [Hin | (record & Hrecord & Hget)].
  - apply add_columns_only in Hin as [Hin | Hget]; [now left |].
    right. exists r. split; [now left | exact Hget].
  - right. exists record. split; [now right | exact Hget].
Qed.

Lemma dict_get_tabulate_inv {V} (f : string -> V) (keys : list string) k x :
  dict_get (map (fun key => (key, f key)) keys) k = Some x ->
  In k keys /\ x = f k.
Proof.
  induction keys as [| key keys IH]; simpl; [discriminate |].
  destruct (String.eqb key k) eqn:E.
  - apply String.eqb_eq in E as ->. intros [= <-]. auto.
  - intros H. destruct (IH H). auto.
Qed.

Lemma DataFrame_cells (records : list dict) c cells :
  dict_get (DataFrame_of_records records) c = Some cells ->
  cells = map (fun record => record_cell record c) records /\
  exists record, In record records /\ dict_get record c <> None.
Proof.
  unfold DataFrame_of_records. intros Hget.
  apply (dict_get_tabulate_inv
           (fun column =>
              map (fun r => default missing (dict_get r column)) records))
    in Hget as [Hin ->].
  split; [reflexivity |].
  apply columns_only in Hin as [[] | Hrecord]. exact Hrecord.
Qed.

Lemma DataFrame_has_column (records : list dict) record c :
  In record records -> dict_get record c <> None ->
  dict_get (DataFrame_of_records records) c
  = Some (map (fun record => record_cell record c) records).
Proof.
  intros Hin Hget.
  apply In_nth_error in Hin as [row Hrow].
  destruct (dict_get record c) as [v |] eqn:Hv; [| now destruct Hget].
  assert (Hlookup : records !! row = Some record).
  { clear -Hrow. revert row Hrow.
    induction records as [| r records IH]; intros [| row]; simpl;
      try discriminate; auto. }
  destruct (DataFrame_column records row record c v Hlookup Hv)
    as (cells & Hcells & _).
  rewrite Hcells. f_equal. now apply DataFrame_cells in Hcells as [-> _].
Qed.

Lemma series_apply_parse (cells : list json) :
  exists parsed,
    series_apply parse_activities cells = Return parsed /\
    length parsed = length cells /\
    forall row cell, cells !! row = Some cell ->
      exists p, parsed !! row = Some p /\ parse_activities cell = Return p.
Proof.
  induction cells as [| cell cells (parsed & Hparsed & Hlength & Hlookup)];
    simpl.
  - exists []. split; [reflexivity |]. split; [reflexivity |].
    intros row cell H. discriminate.
  - destruct (parse_activities_returns cell) as (code & description & Hcell).
    rewrite Hcell, Hparsed. simpl.
    exists ((code, description) :: parsed). split; [reflexivity |].
    split; [simpl; now rewrite Hlength |].
    intros [| row] cell' Hrow; simpl in *.
    + injection Hrow as <-. eauto.
    + now apply Hlookup.
Qed.

(** What [flatten] does to a frame that has the column [Activities]. *)
Lemma flatten_run (records : list dict) :
  match dict_get (DataFrame_of_records records) "Activities" with
  | None => flatten records = Raise KeyError
  | Some cells =>
      exists parsed,
        series_apply parse_activities cells = Return parsed /\
        flatten records =
          Return (dict_del
                    (dict_set
                       (dict_set (DataFrame_of_records records)
                          "NIC5Digit_code" (map fst parsed))
                       "Activity_Description" (map snd parsed))
                    "Activities")
  end.
Proof.
  unfold flatten, df_getitem, df_delitem.
  destruct (dict_get (DataFrame_of_records records) "Activities")
    as [cells |] eqn:Hcells; [| reflexivity].
  destruct (series_apply_parse cells) as (parsed & Hparsed & _).
  exists parsed. split; [exact Hparsed |].
  unfold mbind, result_bind. rewrite Hparsed.
  rewrite !dict_get_set_ne, Hcells by discriminate. reflexivity.
Qed.

(** X25. The script fails exactly when no record has the key
    [Activities], as when there is no record at all, and then with
    [KeyError]. *)
Theorem flatten_needs_activities (records : list dict) :
  (flatten records = Raise KeyError <->
   forall record, In record records -> dict_get record "Activities" = None) /\
  (forall e, flatten records = Raise e -> e = KeyError).
Proof.
  pose proof (flatten_run records) as Hrun.
  destruct (dict_get (DataFrame_of_records records) "Activities")
    as [cells |] eqn:Hcells.
  - destruct Hrun as (parsed & _ & ->).
    apply DataFrame_cells in Hcells as (_ & record & Hin & Hget).
    split; [| discriminate]. split; [discriminate |].
    intros Hnone. now destruct Hget; apply Hnone.
  - split; [| now rewrite Hrun; intros e [= <-]].
    split; [| intros _; exact Hrun].
    intros _ record Hin.
    destruct (dict_get record "Activities") as [v |] eqn:Hv; [| reflexivity].
    rewrite (DataFrame_has_column records record "Activities") in Hcells;
      [discriminate | assumption | now rewrite Hv].
Qed.

(** X26. In the table that the script writes, the two new cells of a row
    show what [parse_activities] returns for the [Activities] of its
    record, [NaN] standing for a record without that key: a text returned
    is in the cell as it is, and [None] shows as a null marker.  Both cells
    are null markers whenever the [Activities] of the record is not a
    text. *)
Theorem flatten_row_cells (records : list dict) (df : DataFrame)
    (row : nat) (record : dict) :
  flatten records = Return df ->
  records !! row = Some record ->
  exists code description cell_code cell_description,
    parse_activities (record_cell record "Activities")
    = Return (code, description) /\
    df_cell df "NIC5Digit_code" row = Some cell_code /\
    df_cell df "Activity_Description" row = Some cell_description /\
    shows cell_code code /\
    shows cell_description description /\
    ((forall text, dict_get record "Activities" <> Some (JStr text)) ->
     null_marker cell_code /\ null_marker cell_description).
Proof.
  intros Hflatten Hrow.
  pose proof (flatten_run records) as Hrun.
  destruct (dict_get (DataFrame_of_records records) "Activities")
    as [cells |] eqn:Hcells; [| congruence].
  destruct Hrun as (parsed & Hparsed & Hdf).
  rewrite Hdf in Hflatten. injection Hflatten as <-.
  apply DataFrame_cells in Hcells as [-> _].
  destruct (series_apply_parse
              (map (fun r => record_cell r "Activities") records))
    as (parsed' & Hparsed' & _ & Hlookup).
  rewrite Hparsed in Hparsed'. injection Hparsed' as <-.
  destruct (Hlookup row (record_cell record "Activities"))
    as ([code description] & Hp & Hparse).
  { now rewrite lookup_map, Hrow. }
  exists code, description, code, description. split; [exact Hparse |].
  unfold df_cell.
  rewrite !dict_get_del_ne by discriminate.
  rewrite dict_get_set_eq, dict_get_set_ne, dict_get_set_eq by discriminate.
  simpl. rewrite !lookup_map, Hp. split; [reflexivity |].
  split; [reflexivity |].
  split; [destruct code; simpl; auto; now left |].
  split; [destruct description; simpl; auto; now left |].
  intros Hnot_text. revert Hparse.
  unfold record_cell, parse_activities, parse_activities_try.
  destruct (dict_get record "Activities") as [[| | | | text | |] |];
    try (intros [= <- <-]; split; now left).
  now destruct (Hnot_text text).
Qed.

(** X27. The table that the script writes has one cell per record in
    every column and no column [Activities]; a column other than the
    three that the script touches is there exactly when a record has its
    key, and holds for each record its value, [NaN] when it has none. *)
Theorem flatten_keeps_columns (records : list dict) (df : DataFrame) :
  flatten records = Return df ->
  (forall c cells, dict_get df c = Some cells ->
     length cells = length records) /\
  dict_get df "Activities" = None /\
  (forall c, c <> "Activities" -> c <> "NIC5Digit_code" ->
     c <> "Activity_Description" ->
     (dict_get df c = None <->
      forall record, In record records -> dict_get record c = None) /\
     (forall row record cells,
        dict_get df c = Some cells ->
        records !! row = Some record ->
        cells !! row = Some (record_cell record c))).
Proof.
  intros Hflatten.
  pose proof (flatten_run records) as Hrun.
  destruct (dict_get (DataFrame_of_records records) "Activities")
    as [activities |] eqn:Hactivities; [| congruence].
  destruct Hrun as (parsed & Hparsed & Hdf).
  rewrite Hdf in Hflatten. injection Hflatten as <-.
  apply DataFrame_cells in Hactivities as [-> _].
  destruct (series_apply_parse
              (map (fun r => record_cell r "Activities") records))
    as (parsed' & Hparsed' & Hlength & _).
  rewrite Hparsed in Hparsed'. injection Hparsed' as <-.
  rewrite length_map in Hlength.
  assert (Hother : forall c, c <> "Activities" -> c <> "NIC5Digit_code" ->
            c <> "Activity_Description" ->
            dict_get
              (dict_del
                 (dict_set
                    (dict_set (DataFrame_of_records records)
                       "NIC5Digit_code" (map fst parsed))
                    "Activity_Description" (map snd parsed))
                 "Activities") c
            = dict_get (DataFrame_of_records records) c).
  { intros c H1 H2 H3.
    rewrite dict_get_del_ne, !dict_get_set_ne by congruence. reflexivity. }
  split; [| split].
  - intros c cells.
    destruct (String.eqb_spec c "Activities") as [-> | H1];
      [now rewrite dict_get_del_eq |].
    rewrite dict_get_del_ne by congruence.
    destruct (String.eqb_spec c "Activity_Description") as [-> | H3].
    { rewrite dict_get_set_eq. intros [= <-]. now rewrite length_map. }
    rewrite dict_get_set_ne by congruence.
    destruct (String.eqb_spec c "NIC5Digit_code") as [-> | H2].
    { rewrite dict_get_set_eq. intros [= <-]. now rewrite length_map. }
    rewrite dict_get_set_ne by congruence.
    intros Hcells. apply DataFrame_cells in Hcells as [-> _].
    now rewrite length_map.
  - apply dict_get_del_eq.
  - intros c H1 H2 H3. rewrite (Hother c H1 H2 H3). split.
    + split.
      * intros Hnone record Hin.
        destruct (dict_get record c) as [v |] eqn:Hv; [| reflexivity].
        rewrite (DataFrame_has_column records record c) in Hnone;
          [discriminate | assumption | now rewrite Hv].
      * intros Hnone.
        destruct (dict_get (DataFrame_of_records records) c)
          as [cells |] eqn:Hcells; [| reflexivity].
        apply DataFrame_cells in Hcells as (_ & record & Hin & Hget).
        now destruct Hget; apply Hnone.
    + intros row record cells Hcells Hrow.
      apply DataFrame_cells in Hcells as [-> _].
      now rewrite lookup_map, Hrow.
Qed.

(** * The properties at work on the example sources *)

Lemma fetch_batch_decode_error_retried_witness :
  fetch_batch garbled_server main_base_url "latur" 0 1000 3 initial_world =
    (Return (JArr []),
     World ∅ 3
       ([] ++ backoff_trace (batch_url main_base_url "latur" 0 1000) 2
           ++ [Get (batch_url main_base_url "latur" 0 1000)])).
Proof.
  apply (fetch_batch_decode_error_retried garbled_server main_base_url
           "latur" 0 1000 3 initial_world).
  - lia.
  - intros attempt Hattempt.
    assert (attempt = 0 \/ attempt = 1) as [-> | ->] by lia;
      unfold sleepable; simpl (2 ^ _); lia.
  - intros j Hj. right.
    exists "<html>Bad Gateway</html>". split.
    + exists 200. split; reflexivity.
    + intros data. vm_compute. discriminate.
Defined.

Lemma print_final_summary_zero_total_witness :
  snd (print_final_summary [("LATUR", Stats (JInt 0) 0 "0%")])
  = Raise ZeroDivisionError.
Proof.
  apply print_final_summary_zero_total. reflexivity.
Defined.

Ltac same_letters_by_case :=
  repeat (apply same_letters_cons;
          [first [left; reflexivity
                 | right; left; vm_compute; reflexivity
                 | right; right; vm_compute; reflexivity] |]);
  apply same_letters_nil.

(** Two given texts are similar: the first is [pa ca qa], the second
    [pb cb qb], with [pa], [qa], [pb] and [qb] of white space. *)
Ltac similar_by_case pa ca qa pb cb qb :=
  let pa := eval vm_compute in (code_points pa) in
  let ca := eval vm_compute in (code_points ca) in
  let qa := eval vm_compute in (code_points qa) in
  let pb := eval vm_compute in (code_points pb) in
  let cb := eval vm_compute in (code_points cb) in
  let qb := eval vm_compute in (code_points qb) in
  exists (pa ++ ca ++ qa), (pb ++ cb ++ qb);
  split; [apply has_code_points_checked; vm_compute; reflexivity |];
  split; [apply has_code_points_checked; vm_compute; reflexivity |];
  exists pa, ca, qa, pb, cb, qb;
  repeat (split; [reflexivity |]); same_letters_by_case.

Ltac without_capital_sigma :=
  apply without_capital_sigma_checked; vm_compute; reflexivity.

Lemma generate_record_id_normalizes_witness :
  generate_record_id no_repr
    [("District", JStr "Latur"); ("EnterpriseName", JStr "Agro Mills")]
  = generate_record_id no_repr
      [("District", JStr " LATUR"); ("EnterpriseName", JStr "AGRO MILLS ")].
Proof.
  apply (proj2 (generate_record_id_normalizes no_repr)).
  intros field Hfield. simpl in Hfield.
  destruct Hfield as [<- | [<- | [<- | [<- | []]]]];
    (split; [| split; without_capital_sigma]).
  - similar_by_case "" "Latur" "" " " "LATUR" "".
  - similar_by_case "" "" "" "" "" "".
  - similar_by_case "" "Agro Mills" "" "" "AGRO MILLS" " ".
  - similar_by_case "" "" "" "" "" "".
Defined.

(** Without the proviso on the capital sigma the keys can differ.  The key
    fields of the two records differ only in the case of their letters:
    the district of the first is the district of the second in upper
    case.  Yet [lower] gives the final sigma U+03C2 for the capital sigma
    at the end of the first district, where the second district has the
    sigma U+03C3. *)
Lemma generate_record_id_final_sigma :
  (forall field, In field key_fields ->
     similar_texts
       (py_str no_repr (field_value alpha_sigma_capitals field))
       (py_str no_repr (field_value alpha_sigma_small field))) /\
  upper (str_of [0x3B1; 0x3C3]) = str_of [0x391; 0x3A3] /\
  generate_record_id no_repr alpha_sigma_capitals
    = str_of [0x3B1; 0x3C2] +:+ "|maharashtra|agro mills|main road" /\
  generate_record_id no_repr alpha_sigma_small
    = str_of [0x3B1; 0x3C3] +:+ "|maharashtra|agro mills|main road" /\
  generate_record_id no_repr alpha_sigma_capitals
    <> generate_record_id no_repr alpha_sigma_small.
Proof.
  split; [| split; [| split; [| split]]].
  - intros field Hfield. simpl in Hfield.
    destruct Hfield as [<- | [<- | [<- | [<- | []]]]].
    + exists [0x391; 0x3A3], [0x3B1; 0x3C3].
      split; [apply has_code_points_checked; vm_compute; reflexivity |].
      split; [apply has_code_points_checked; vm_compute; reflexivity |].
      exists [], [0x391; 0x3A3], [], [], [0x3B1; 0x3C3], [].
      repeat (split; [reflexivity |]). same_letters_by_case.
    + similar_by_case "" "Maharashtra" "" "" "Maharashtra" "".
    + similar_by_case "" "Agro Mills" "" "" "Agro Mills" "".
    + similar_by_case "" "Main Road" "" "" "Main Road" "".
  - vm_compute. reflexivity.
  - vm_compute. reflexivity.
  - vm_compute. reflexivity.
  - vm_compute. discriminate.
Qed.

Lemma is_duplicate_record_twice_witness :
  let record := [("District", JStr "Latur"); ("EnterpriseName", JStr "Agro Mills")] in
  let w1 := World (∅ ∪ {[generate_record_id no_repr record]}) 0 [] in
  is_duplicate_record no_repr record initial_world = (Return false, w1) /\
  is_duplicate_record no_repr record w1 = (Return true, w1) /\
  fst (is_duplicate_record no_repr record
         (snd (set_processed_records ∅ w1))) = Return false.
Proof.
  intros record w1.
  destruct (is_duplicate_record_twice paged_server no_repr main_base_url
              "complete_district_data" "2025-01-01 00:00:00"
              record initial_world (not_elem_of_empty _))
    as (Hfirst & Hsecond & Hreset & _).
  split; [exact Hfirst |]. split; [exact Hsecond | exact Hreset].
Defined.

Lemma fetch_batch_third_attempt_succeeds_witness :
  fetch_batch flaky_server main_base_url "latur" 0 1000 3 initial_world =
    (Return (default (JArr []) (dict_get page_reply "records")),
     World ∅ 3
       ([] ++ [Get (batch_url main_base_url "latur" 0 1000); Sleep (NInt 1);
               Get (batch_url main_base_url "latur" 0 1000); Sleep (NInt 2);
               Get (batch_url main_base_url "latur" 0 1000)])).
Proof.
  apply (fetch_batch_third_attempt_succeeds flaky_server main_base_url
           "latur" 0 1000 initial_world page_body page_reply).
  - reflexivity.
  - reflexivity.
  - exists 200. split; reflexivity.
  - vm_compute. reflexivity.
Defined.

Lemma paged_server_page url t : answers paged_server url (S t) page_reply.
Proof.
  exists page_body. split.
  - exists 200. split; reflexivity.
  - vm_compute. reflexivity.
Defined.


Lemma save_data_fetch_completion_witness :
  (exists target m,
     save_data no_repr "complete_district_data" "2025-01-01 00:00:00"
       "LATUR" (repeat [] 750) (JInt 1000) = Return (Some (target, m)) /\
     fetch_completion m = "750/1000 (75.0%)" /\
     records_fetched m = 750) /\
  (exists target m,
     save_data no_repr "complete_district_data" "2025-01-01 00:00:00"
       "LATUR" [[("District", JStr "Latur")]] (JInt 0)
     = Return (Some (target, m)) /\
     fetch_completion m = "N/A").
Proof.
  split.
  - apply (proj1 (save_data_fetch_completion no_repr _ _)).
    vm_compute. reflexivity.
  - apply (proj2 (save_data_fetch_completion no_repr _ _)).
    discriminate.
Defined.

Lemma flatten_activities_witness :
  let records :=
    [[("EnterpriseName", JStr "Agro Mills");
      ("Activities", JStr cereal_activities)];
     [("EnterpriseName", JStr "Latur Traders"); ("Activities", JStr "[]")];
     [("EnterpriseName", JStr "Deccan Foods"); ("Activities", JStr "n/a")]] in
  (exists df,
     flatten records = Return df /\
     df_cell df "NIC5Digit_code" 0 = Some (JStr "01111") /\
     df_cell df "Activity_Description" 0 = Some (JStr "Growing of cereals") /\
     dict_get df "Activities" = None) /\
  (exists df,
     flatten records = Return df /\
     df_cell df "NIC5Digit_code" 1 = Some JNull /\
     df_cell df "Activity_Description" 1 = Some JNull /\
     dict_get df "Activities" = None) /\
  (exists df,
     flatten records = Return df /\
     df_cell df "NIC5Digit_code" 2 = Some JNull /\
     df_cell df "Activity_Description" 2 = Some JNull /\
     dict_get df "Activities" = None).
Proof.
  intros records. split; [| split].
  - apply (proj1 (flatten_activities records 0 _ eq_refl)). reflexivity.
  - apply (proj2 (flatten_activities records 1 _ eq_refl) "[]");
      [reflexivity | now left].
  - apply (proj2 (flatten_activities records 2 _ eq_refl) "n/a");
      [reflexivity |]. right. exists JSONDecodeError. vm_compute. reflexivity.
Defined.

Lemma parse_activities_total_witness :
  parse_activities (JStr "{}") = Return (JNull, JNull) /\
  parse_activities (JStr ("[{" +:+ member "NIC5DigitId" (quoted "01111") +:+ "}]"))
  = Return (JNull, JNull).
Proof.
  split.
  - apply (proj1 (proj2 (proj2 (parse_activities_total (JStr "{}")))) (JObj []));
      [vm_compute; reflexivity | discriminate].
  - apply (proj2 (proj2 (proj2 (proj2 (parse_activities_total _))))
             (JObj [("NIC5DigitId", JStr "01111")]) []);
      [vm_compute; reflexivity |].
    intros d [= <-]. now right.
Defined.

Lemma run_returns {A} (m : M A) (w : world) (a : A) :
  fst (m w) = Return a -> m w = (Return a, snd (m w)).
Proof. destruct (m w) as [r w']. simpl. now intros ->. Defined.

Lemma fetch_all_district_data_distinct_keys_witness :
  let records :=
    [[("District", JStr "Latur"); ("EnterpriseName", JStr "Agro Mills")]] in
  fst (fetch_all_district_data paged_server no_repr main_base_url "latur"
         1000 3 initial_world) = Return records /\
  NoDup (map (generate_record_id no_repr) records) /\
  (forall r, In r records -> generate_record_id no_repr r ∉ (∅ : gset string)).
Proof.
  intros records.
  assert (Hrun : fst (fetch_all_district_data paged_server no_repr
                        main_base_url "latur" 1000 3 initial_world)
                 = Return records) by (vm_compute; reflexivity).
  split; [exact Hrun |].
  apply (fetch_all_district_data_distinct_keys paged_server no_repr
           main_base_url "latur" 1000 3 initial_world _ records
           (run_returns _ _ _ Hrun)).
Defined.

(** ** Failures, edge cases and whole runs *)

Lemma fetch_batch_never_raises_witness :
  exists (k : nat) (v : json),
    Z.of_nat k < 3 /\
    fetch_batch flaky_server main_base_url "latur" 0 1000 3 initial_world =
      (Return v,
       World ∅ (S (0 + k))
         ([] ++ backoff_trace (batch_url main_base_url "latur" 0 1000) k
             ++ [Get (batch_url main_base_url "latur" 0 1000)])).
Proof.
  apply (proj2 (fetch_batch_never_raises flaky_server main_base_url
                  "latur" 0 1000 3 initial_world)).
  - lia.
  - intros attempt Hattempt.
    assert (attempt = 0 \/ attempt = 1) as [-> | ->] by lia;
      unfold sleepable; simpl (2 ^ _); lia.
Defined.

Lemma fetch_batch_retries_exhausted_witness :
  fetch_batch dead_server main_base_url "latur" 0 1000 3 initial_world =
    (Return (JArr []),
     World ∅ 3
       ([] ++ backoff_trace (batch_url main_base_url "latur" 0 1000) 2
           ++ [Get (batch_url main_base_url "latur" 0 1000)])).
Proof.
  apply (fetch_batch_retries_exhausted dead_server main_base_url
           "latur" 0 1000 3 initial_world).
  - lia.
  - intros attempt Hattempt.
    assert (attempt = 0 \/ attempt = 1) as [-> | ->] by lia;
      unfold sleepable; simpl (2 ^ _); lia.
  - intros j Hj. reflexivity.
Defined.

Lemma fetch_batch_not_an_object_witness :
  fetch_batch listing_server main_base_url "latur" 0 1000 3 initial_world =
    (Return (JArr []),
     World ∅ 1
       ([] ++ backoff_trace (batch_url main_base_url "latur" 0 1000) 0
           ++ [Get (batch_url main_base_url "latur" 0 1000)])).
Proof.
  apply (fetch_batch_not_an_object listing_server main_base_url
           "latur" 0 1000 3 0 initial_world "[]" (JArr [])).
  - lia.
  - intros attempt Hattempt. lia.
  - intros j Hj. lia.
  - exists 200. split; reflexivity.
  - vm_compute. reflexivity.
  - intros reply. discriminate.
Defined.

Lemma filter_duplicates_keeps_first_witness :
  fst (filter_duplicates no_repr (map JObj [agro_mills; agro_mills_again]) []
         initial_world) = Return [agro_mills] /\
  sublist [agro_mills] [agro_mills; agro_mills_again] /\
  (forall r, In r [agro_mills] ->
     generate_record_id no_repr r ∉ processed_records initial_world).
Proof.
  assert (Hrun : fst (filter_duplicates no_repr
                        (map JObj [agro_mills; agro_mills_again]) []
                        initial_world) = Return [agro_mills])
    by (vm_compute; reflexivity).
  split; [exact Hrun |].
  destruct (filter_duplicates_keeps_first no_repr _ _ _ _
              (run_returns _ _ _ Hrun)) as (Hsub & _ & Hnew & _).
  split; [exact Hsub | exact Hnew].
Defined.

Lemma fetch_all_district_data_nothing_available_witness :
  fetch_all_district_data dead_server no_repr main_base_url "latur" 1000 3
    initial_world =
    (Return [], World ∅ 1 ([] ++ [Get (total_url main_base_url "latur")])).
Proof.
  apply (fetch_all_district_data_nothing_available dead_server no_repr
           main_base_url "latur" 1000 3 initial_world).
  reflexivity.
Defined.

Lemma fetch_all_district_data_bad_total_witness :
  fetch_all_district_data text_total_server no_repr main_base_url "latur"
    1000 3 initial_world =
    (Raise TypeError,
     World ∅ 1 ([] ++ [Get (total_url main_base_url "latur")])) /\
  fetch_all_district_data paged_server no_repr main_base_url "latur"
    0 3 initial_world =
    (Raise ZeroDivisionError,
     World ∅ 1 ([] ++ [Get (total_url main_base_url "latur")])).
Proof.
  split.
  - apply (fetch_all_district_data_bad_total text_total_server no_repr
             main_base_url "latur" 1000 3 initial_world).
    + vm_compute. reflexivity.
    + vm_compute. reflexivity.
  - apply (fetch_all_district_data_bad_total paged_server no_repr
             main_base_url "latur" 0 3 initial_world).
    + vm_compute. reflexivity.
    + vm_compute. discriminate.
    + reflexivity.
Defined.

Lemma fetch_all_district_data_answered_witness :
  let run :=
    fetch_all_district_data paged_server no_repr main_base_url "latur"
      1000 3 initial_world in
  let pages :=
    [[agro_mills; agro_mills_again]; [agro_mills; agro_mills_again];
     [agro_mills; agro_mills_again]] in
  fst run =
    Return (fst (first_occurrences (generate_record_id no_repr) ∅
                   (concat pages))) /\
  processed_records (snd run) =
    snd (first_occurrences (generate_record_id no_repr) ∅ (concat pages)) /\
  clock (snd run) = (0 + 1 + 3)%nat.
Proof.
  intros run pages.
  apply (fetch_all_district_data_answered paged_server no_repr main_base_url
           "latur" 1000 3 initial_world [("total", JInt 2500)] (JInt 2500)
           pages).
  - lia.
  - exists ("{" +:+ member "total" "2500" +:+ "}"). split.
    + exists 200. split; reflexivity.
    + vm_compute. reflexivity.
  - reflexivity.
  - reflexivity.
  - vm_compute. reflexivity.
  - intros i page Hpage. exists page_reply. split.
    + apply paged_server_page.
    + destruct i as [| [| [| i]]]; simpl in Hpage;
        [injection Hpage as <-; reflexivity ..| discriminate].
Defined.

Lemma fetch_all_district_data_records_in_scope_witness :
  let run :=
    fetch_all_district_data paged_server no_repr main_base_url "latur"
      1000 3 initial_world in
  fst run = Return [agro_mills] /\
  is_duplicate_record no_repr agro_mills (snd run) = (Return true, snd run).
Proof.
  intros run.
  assert (Hrun : fst run = Return [agro_mills]) by (vm_compute; reflexivity).
  split; [exact Hrun |].
  apply (fetch_all_district_data_records_in_scope paged_server no_repr
           main_base_url "latur" 1000 3 initial_world _ _
           (run_returns _ _ _ Hrun)).
  now left.
Defined.

Lemma fetch_all_district_data_outage_witness :
  let run :=
    fetch_all_district_data outage_server no_repr main_base_url "latur"
      1000 3 initial_world in
  fst run = Return [] /\
  processed_records (snd run) = ∅ /\
  clock (snd run) = (0 + 1 + Z.to_nat (3 * 3))%nat.
Proof.
  apply (fetch_all_district_data_outage outage_server no_repr main_base_url
           "latur" 1000 3 initial_world [("total", JInt 2500)] (JInt 2500) 3).
  - lia.
  - intros attempt Hattempt.
    assert (attempt = 0 \/ attempt = 1) as [-> | ->] by lia;
      unfold sleepable; simpl (2 ^ _); lia.
  - exists ("{" +:+ member "total" "2500" +:+ "}"). split.
    + exists 200. split; reflexivity.
    + vm_compute. reflexivity.
  - reflexivity.
  - reflexivity.
  - vm_compute. reflexivity.
  - intros url [| t] Ht; [simpl in Ht; lia | reflexivity].
Defined.

Lemma fetch_all_district_data_not_records_witness :
  fst (fetch_all_district_data names_server no_repr main_base_url "latur"
         1000 3 initial_world) = Raise AttributeError.
Proof.
  apply (fetch_all_district_data_not_records names_server no_repr
           main_base_url "latur" 1000 3 initial_world
           [("total", JInt 2)]
           [("records", JArr [JStr "Agro Mills"; JStr "Latur Traders"])]
           (JInt 2) 1 [JStr "Agro Mills"; JStr "Latur Traders"]).
  - lia.
  - exists ("{" +:+ member "total" "2" +:+ "}"). split.
    + exists 200. split; reflexivity.
    + vm_compute. reflexivity.
  - reflexivity.
  - reflexivity.
  - vm_compute. reflexivity.
  - lia.
  - eexists. split.
    + exists 200. split; reflexivity.
    + vm_compute. reflexivity.
  - reflexivity.
  - exists (JStr "Agro Mills"). split; [now left | discriminate].
Defined.

Lemma is_duplicate_record_ignores_case_witness :
  let w1 := snd (is_duplicate_record no_repr agro_mills initial_world) in
  is_duplicate_record no_repr agro_mills_again w1 = (Return true, w1).
Proof.
  apply (is_duplicate_record_ignores_case no_repr agro_mills agro_mills_again
           initial_world).
  intros field Hfield. simpl in Hfield.
  destruct Hfield as [<- | [<- | [<- | [<- | []]]]];
    (split; [| split; without_capital_sigma]).
  - similar_by_case "" "Latur" "" " " "LATUR" "".
  - similar_by_case "" "" "" "" "" "".
  - similar_by_case "" "Agro Mills" "" "" "AGRO MILLS" " ".
  - similar_by_case "" "" "" "" "" "".
Defined.

Lemma generate_record_id_bar_collision_witness :
  let r1 := [("District", JStr "Latur|Maharashtra"); ("State", JStr "India")] in
  let r2 := [("District", JStr "Latur"); ("State", JStr "Maharashtra|India")] in
  generate_record_id no_repr r1 = generate_record_id no_repr r2 /\
  (let w1 := snd (is_duplicate_record no_repr r1 initial_world) in
   is_duplicate_record no_repr r2 w1 = (Return true, w1)).
Proof.
  intros r1 r2.
  apply (generate_record_id_bar_collision no_repr r1 r2
           (code_points "Latur") (code_points "Maharashtra")
           (code_points "India") initial_world).
  1-3: apply code_points_checked; vm_compute; reflexivity.
  1-3: split; vm_compute; reflexivity.
  all: vm_compute; reflexivity.
Defined.

Lemma batch_url_without_markers_witness :
  let base_url := "https://api.data.gov.in/resource/msme?format=json" in
  batch_url base_url "latur" 2000 1000 = base_url /\
  total_url base_url "latur" = base_url.
Proof.
  intros base_url.
  apply (batch_url_without_markers base_url "latur" 2000 1000);
    reflexivity.
Defined.

Lemma print_final_summary_totals_witness :
  print_final_summary
    [("LATUR", Stats (JInt 1000) 750 "75.0%");
     ("PUNE", StatsError TypeError);
     ("NASHIK", Stats (JInt 500) 500 "100.0%")]
  = ([DistrictLine "LATUR" 750 (JInt 1000) "75.0%";
      ErrorLine "PUNE" TypeError;
      DistrictLine "NASHIK" 500 (JInt 500) "100.0%";
      TotalLine 1250 (NInt 1500) "83.3"],
     Return tt).
Proof.
  refine (eq_trans
            (print_final_summary_totals
               [("LATUR", Stats (JInt 1000) 750 "75.0%");
                ("PUNE", StatsError TypeError);
                ("NASHIK", Stats (JInt 500) 500 "100.0%")] 1500 eq_refl) _).
  vm_compute. reflexivity.
Defined.

Lemma process_district_scope_witness :
  let run :=
    process_district text_total_server no_repr main_base_url
      "complete_district_data" "2025-01-01 00:00:00" 2 1 "latur" 1000
      (NFloat float_2) [] in
  let w := World {[ "seen before" ]} 0 [] in
  fst (run w) = Return [("latur", StatsError TypeError)] /\
  processed_records (snd (run w)) = processed_records (snd (run initial_world)).
Proof.
  intros run w.
  assert (Hrun : fst (run w) = Return [("latur", StatsError TypeError)])
    by (vm_compute; reflexivity).
  split; [exact Hrun |].
  destruct (process_district_scope text_total_server no_repr main_base_url
              "complete_district_data" "2025-01-01 00:00:00" 2 1 "latur" 1000
              (NFloat float_2) [] w) as (entry & Hentry & Hscope).
  fold run in Hentry, Hscope. rewrite Hrun in Hentry.
  injection Hentry as <-. apply Hscope. split; reflexivity.
Defined.

Lemma process_district_answered_witness :
  let run :=
    process_district district_server no_repr main_base_url
      "complete_district_data" "2025-01-01 00:00:00" 1 1 "latur" 1000
      (NFloat float_2) [] initial_world in
  let kept :=
    fst (first_occurrences (generate_record_id no_repr) ∅
           (concat [[agro_mills; agro_mills_again]])) in
  fst run =
    Return (dict_set [] "latur"
              (Stats (JInt 2) (Z.of_nat (length kept)) ("50.0" +:+ "%"))) /\
  processed_records (snd run) = ∅ /\
  clock (snd run) = (0 + 2 + 1)%nat.
Proof.
  intros run kept.
  apply (process_district_answered district_server no_repr main_base_url
           "complete_district_data" "2025-01-01 00:00:00" 1 1 "latur" 1000
           (NFloat float_2) [] initial_world 2 [("total", JInt 2)] (JInt 2)
           [[agro_mills; agro_mills_again]] "50.0").
  - split; reflexivity.
  - vm_compute. reflexivity.
  - lia.
  - exists ("{" +:+ member "total" "2" +:+ "}"). split.
    + exists 200. split; reflexivity.
    + vm_compute. reflexivity.
  - reflexivity.
  - reflexivity.
  - vm_compute. reflexivity.
  - intros i page Hpage. exists page_reply. split.
    + exists page_body. split.
      * exists 200. split; reflexivity.
      * vm_compute. reflexivity.
    + destruct i as [| i]; simpl in Hpage;
        [injection Hpage as <-; reflexivity | discriminate].
  - vm_compute. reflexivity.
Defined.

Lemma process_districts_raises_witness :
  fst (process_districts dead_server no_repr main_base_url
         "complete_district_data" "2025-01-01 00:00:00"
         ["LATUR"; "PUNE"] 1000 (NFloat float_2) initial_world)
  = Raise ZeroDivisionError /\
  (ZeroDivisionError = ZeroDivisionError \/ ZeroDivisionError = OverflowError).
Proof.
  assert (Hrun : fst (process_districts dead_server no_repr main_base_url
                        "complete_district_data" "2025-01-01 00:00:00"
                        ["LATUR"; "PUNE"] 1000 (NFloat float_2) initial_world)
                 = Raise ZeroDivisionError) by (vm_compute; reflexivity).
  split; [exact Hrun |].
  exact (process_districts_raises _ _ _ _ _ _ _ _ _ _ Hrun).
Defined.

Lemma process_districts_dead_server_witness :
  let run :=
    process_districts dead_server no_repr main_base_url
      "complete_district_data" "2025-01-01 00:00:00"
      ["LATUR"; "PUNE"] 1000 (NFloat float_2) initial_world in
  fst run = Raise ZeroDivisionError /\
  processed_records (snd run) = ∅ /\
  clock (snd run) = (0 + 2 * 2)%nat.
Proof.
  apply (process_districts_dead_server dead_server no_repr main_base_url
           "complete_district_data" "2025-01-01 00:00:00"
           ["LATUR"; "PUNE"] 1000 (NFloat float_2) initial_world).
  intros url t. reflexivity.
Defined.

Lemma main_dead_server_witness :
  let url :=
    "https://api.data.gov.in/resource/8b68ae56-84cf-4728-a0a6-1be11028dea7"
    +:+ "?api-key=579b464db66ec23bdd000001f85d5882df0744e4705730a6dae2f1c9"
    +:+ "&format=json&limit=1&filters%5BDistrict%5D=LATUR" in
  main dead_server no_repr "2025-01-01 00:00:00" initial_world =
    (Raise ZeroDivisionError, World ∅ 2 ([] ++ [Get url; Get url])).
Proof.
  apply (main_dead_server dead_server no_repr "2025-01-01 00:00:00"
           initial_world).
  intros url t. reflexivity.
Defined.

Lemma parse_activities_first_activity_witness :
  parse_activities (JStr cereal_activities)
  = Return (JStr "01111", JStr "Growing of cereals").
Proof.
  apply (parse_activities_first_activity (JStr cereal_activities)
           (JStr "01111") (JStr "Growing of cereals")).
  - discriminate.
  - exists cereal_activities,
      [("NIC5DigitId", JStr "01111");
       ("Description", JStr "Growing of cereals")], [].
    split; [reflexivity |]. split; [vm_compute; reflexivity |].
    split; reflexivity.
Defined.

Lemma flatten_row_cells_witness :
  let df :=
    [("EnterpriseName",
      [JStr "Agro Mills"; JStr "Latur Traders"; JStr "Deccan Foods"]);
     ("NIC5Digit_code", [JStr "01111"; JNull; JNull]);
     ("Activity_Description", [JStr "Growing of cereals"; JNull; JNull])] in
  flatten three_enterprises = Return df /\
  exists code description cell_code cell_description,
    parse_activities (record_cell
                        [("EnterpriseName", JStr "Agro Mills");
                         ("Activities", JStr cereal_activities)]
                        "Activities")
    = Return (code, description) /\
    df_cell df "NIC5Digit_code" 0 = Some cell_code /\
    df_cell df "Activity_Description" 0 = Some cell_description /\
    shows cell_code code /\
    shows cell_description description.
Proof.
  intros df.
  assert (Hdf : flatten three_enterprises = Return df)
    by (vm_compute; reflexivity).
  split; [exact Hdf |].
  destruct (flatten_row_cells three_enterprises df 0 _ Hdf eq_refl)
    as (code & description & cell_code & cell_description
        & Hparse & Hcode & Hdescription & Hshows_code & Hshows_description
        & _).
  exists code, description, cell_code, cell_description.
  repeat (split; [assumption |]). assumption.
Defined.

Lemma flatten_keeps_columns_witness :
  let df :=
    [("EnterpriseName",
      [JStr "Agro Mills"; JStr "Latur Traders"; JStr "Deccan Foods"]);
     ("NIC5Digit_code", [JStr "01111"; JNull; JNull]);
     ("Activity_Description", [JStr "Growing of cereals"; JNull; JNull])] in
  flatten three_enterprises = Return df /\
  (forall c cells, dict_get df c = Some cells -> length cells = 3%nat) /\
  dict_get df "Activities" = None.
Proof.
  intros df.
  assert (Hdf : flatten three_enterprises = Return df)
    by (vm_compute; reflexivity).
  split; [exact Hdf |].
  destruct (flatten_keeps_columns three_enterprises df Hdf)
    as (Hrows & Hdropped & _).
  split; [exact Hrows | exact Hdropped].
Defined.
